(** * Vapor-compression refrigeration: cycle solver and telemetry generator

    Shallow embedding of [backend/motor_termodinamico.py],
    [scripts/generar_datos.py], the keyboards, routing and screens of
    [scripts/bot_telegram.py] and the script
    [scripts/diagnostico_costos.py].

    Numbers.  Python floats are modelled as rationals ([Q]); arithmetic is
    exact, comparisons are the rational ones and equalities between computed
    quantities are stated with [==].  Division keeps Python's behaviour at a
    zero divisor: it raises [ZeroDivisionError].

    Units.  [pint] quantities are modelled by their magnitude in the unit the
    source gives them; the conversions the source performs are written out
    (degC to kelvin adds 273.15, W to kW divides by 1000).

    Property backend.  [CoolProp.PropsSI] is an external library; the solver
    is embedded over an arbitrary lookup function of the same shape, which
    either yields a number or fails, and a failed lookup raises
    [ValueError] as [PropsSI] does. *)

From Stdlib Require Import QArith Qabs Qround ZArith List String Ascii Bool Lia Lqa Sorted.
Import ListNotations.

Open Scope Q_scope.

(* ================================================================== *)
(** ** Exceptions and the error monad *)

(** Exceptions a call may end with.  [ValueError] is what [PropsSI] raises
    when it cannot resolve a state, [ZeroDivisionError] is raised by float
    division.  The last three are the classes the specification names; no
    line of the source raises them, they are here so that statements about
    them can be written. *)
Inductive excepcion : Type :=
| ValueError
| ZeroDivisionError
| InvalidParameterError
| InvalidCycleError
| PropertyLookupError.

Inductive resultado (A : Type) : Type :=
| Devuelve (a : A)
| Lanza (e : excepcion).

Arguments Devuelve {A} a.
Arguments Lanza {A} e.

Definition ligar {A B : Type} (m : resultado A) (k : A -> resultado B)
  : resultado B :=
  match m with
  | Devuelve a => k a
  | Lanza e => Lanza e
  end.

Notation "x <- m ;; k" := (ligar m (fun x => k))
  (at level 61, m at next level, right associativity).

(** Float division: [a / b] raises when [b] is zero. *)
Definition dividir (a b : Q) : resultado Q :=
  if Qeq_bool b 0 then Lanza ZeroDivisionError else Devuelve (a / b).

(* ================================================================== *)
(** ** The property backend *)

(** The property names the solver passes to [PropsSI]:
    "H", "S", "P", "T", "Q". *)
Inductive propiedad : Type := pH | pS | pP | pT | pQ.

(** A property backend: the value of [salida] at the state fixed by
    [n1 = v1] and [n2 = v2] for the fluid named, or [None] where it cannot
    resolve the state. *)
Definition proveedor : Type :=
  propiedad -> propiedad -> Q -> propiedad -> Q -> string -> option Q.

(* ================================================================== *)
(** ** The result dictionary *)

(** One entry of [resultados["states"]]. *)
Record estado_termo : Type := mk_estado {
  st_P : Q;
  st_T : Q;
  st_h : Q;
  st_s : Q;
  st_desc : string
}.

(** [resultados["scalar"]]. *)
Record escalares : Type := mk_escalares {
  Trabajo_Compresor_kW : Q;
  Calor_Extraido_kW : Q;
  COP : Q;
  Calidad_Evap : Q;
  Temp_Descarga_C : Q;
  Flujo_Masico_kg_s : Q
}.

(** The dictionary [simular_refrigerador] returns: the key "scalar" and the
    key "states", whose value has the keys 1 to 4. *)
Record resultados : Type := mk_resultados {
  scalar : escalares;
  states_1 : estado_termo;
  states_2 : estado_termo;
  states_3 : estado_termo;
  states_4 : estado_termo
}.

(** Diagnostics that could travel with a result. *)
Inductive diagnostico : Type :=
| ConsistencyWarning
| AnomaliaCalidad.

(** The diagnostics attached to a returned dictionary.  The dictionary built
    at lines 70-85 has the keys "scalar" and "states" and nothing else, and
    the function does not call the [warnings] module: whatever the result,
    nothing is attached. *)
Definition diagnosticos (r : resultados) : list diagnostico := [].

(** [resultados["states"][2]["T"] = T2_real] (line 89). *)
Definition con_T (e : estado_termo) (t : Q) : estado_termo :=
  mk_estado (st_P e) t (st_h e) (st_s e) (st_desc e).

Definition con_states_2 (r : resultados) (e : estado_termo) : resultados :=
  mk_resultados (scalar r) (states_1 r) e (states_3 r) (states_4 r).

(* ================================================================== *)
(** ** The cycle solver *)

Section Solver.

Variable CP : proveedor.

(** [CP.PropsSI(salida, n1, v1, n2, v2, fluido)]. *)
Definition PropsSI (salida n1 : propiedad) (v1 : Q) (n2 : propiedad) (v2 : Q)
    (fluido : string) : resultado Q :=
  match CP salida n1 v1 n2 v2 fluido with
  | Some v => Devuelve v
  | None => Lanza ValueError
  end.

(** [simular_refrigerador], statement by statement.  The lookups happen in
    the order of the source, so the first failing one decides the
    exception. *)
Definition simular_refrigerador
    (T_ambiente_C T_interior_C Flujo_masico_kg_s : Q)
    (eta_isentropica Delta_T_cond_C : Q) : resultado resultados :=
  let refrigerante := "R134a"%string in
  let T_ambiente := T_ambiente_C + 273.15 in
  let T_interior := T_interior_C + 273.15 in
  let Flujo_masico := Flujo_masico_kg_s in
  let Delta_T_cond := Delta_T_cond_C in
  h1 <- PropsSI pH pT T_interior pQ 1 refrigerante ;;
  s1 <- PropsSI pS pT T_interior pQ 1 refrigerante ;;
  let T_condensacion := T_ambiente + Delta_T_cond in
  P_condensacion <- PropsSI pP pT T_condensacion pQ 0 refrigerante ;;
  let P2 := P_condensacion in
  h2_ideal <- PropsSI pH pP P2 pS s1 refrigerante ;;
  incremento <- dividir (h2_ideal - h1) eta_isentropica ;;
  let h2 := h1 + incremento in
  let Trabajo_necesario := Flujo_masico * (h2 - h1) in
  s2 <- PropsSI pS pP P2 pH h2 refrigerante ;;
  let P3 := P2 in
  h3 <- PropsSI pH pP P3 pQ 0 refrigerante ;;
  T3 <- PropsSI pT pP P3 pQ 0 refrigerante ;;
  let h4 := h3 in
  P4 <- PropsSI pP pT T_interior pQ 1 refrigerante ;;
  x4 <- PropsSI pQ pP P4 pH h4 refrigerante ;;
  let Q_evap := Flujo_masico * (h1 - h4) in
  cop <- dividir Q_evap Trabajo_necesario ;;
  T_descarga <- PropsSI pT pH h2 pP P2 refrigerante ;;
  s3 <- PropsSI pS pP P3 pQ 0 refrigerante ;;
  s4 <- PropsSI pS pP P4 pH h4 refrigerante ;;
  let resultados_0 :=
    mk_resultados
      (mk_escalares (Trabajo_necesario / 1000) (Q_evap / 1000) cop x4
                    (T_descarga - 273.15) Flujo_masico)
      (mk_estado P4 T_interior h1 s1 "Entrada Compresor")
      (mk_estado P2 (T_ambiente + Delta_T_cond) h2 s2 "Entrada Condensador")
      (mk_estado P3 T3 h3 s3 "Salida Condensador")
      (mk_estado P4 T_interior h4 s4 "Entrada Evaporador") in
  T2_real <- PropsSI pT pH h2 pP P2 refrigerante ;;
  Devuelve (con_states_2 resultados_0 (con_T (states_2 resultados_0) T2_real)).

(** Lines 30-47 on their own: the compressor work [Trabajo_necesario] the
    solver computes, in W, when the lookups and the division it needs go
    through. *)
Definition trabajo_calculado
    (T_ambiente_C T_interior_C Flujo_masico_kg_s : Q)
    (eta_isentropica Delta_T_cond_C : Q) : resultado Q :=
  let refrigerante := "R134a"%string in
  let T_ambiente := T_ambiente_C + 273.15 in
  let T_interior := T_interior_C + 273.15 in
  h1 <- PropsSI pH pT T_interior pQ 1 refrigerante ;;
  s1 <- PropsSI pS pT T_interior pQ 1 refrigerante ;;
  P2 <- PropsSI pP pT (T_ambiente + Delta_T_cond_C) pQ 0 refrigerante ;;
  h2_ideal <- PropsSI pH pP P2 pS s1 refrigerante ;;
  incremento <- dividir (h2_ideal - h1) eta_isentropica ;;
  let h2 := h1 + incremento in
  Devuelve (Flujo_masico_kg_s * (h2 - h1)).

End Solver.

(* ================================================================== *)
(** ** A test double for the property backend *)

(** A closed-form stand-in for the refrigerant, used to run the solver on
    concrete inputs.  Saturation pressure grows with temperature; at fixed
    entropy the enthalpy grows with pressure; at fixed pressure the entropy
    grows with enthalpy; [S] at ([P], [H P s]) is [s] again.  Temperatures
    are in kelvin, as the solver passes them. *)
Module Doble.

Definition Psat (t : Q) : Q := 1000 * t.
Definition Tsat (p : Q) : Q := p / 1000.
Definition hg (t : Q) : Q := 400000 + 500 * (t - 273).
Definition sg (t : Q) : Q := 1800 - (t - 273) / 2.
Definition hf (t : Q) : Q := 200000 + 1400 * (t - 273).
Definition sf (t : Q) : Q := 1000 + 5 * (t - 273).
(** Temperature of the saturated vapor whose entropy is [s]. *)
Definition T_de_sg (s : Q) : Q := 273 + 2 * (1800 - s).
Definition H_PS (p s : Q) : Q :=
  hg (T_de_sg s) + 700 * (Tsat p - T_de_sg s).
Definition S_PH (p h : Q) : Q :=
  sg ((263500 + 700 * Tsat p - h) / 200).
Definition Q_PH (p h : Q) : Q :=
  (h - hf (Tsat p)) / (hg (Tsat p) - hf (Tsat p)).
Definition T_PH (p h : Q) : Q := Tsat p + (h - hg (Tsat p)) / 1000.

Definition CP : proveedor :=
  fun salida n1 v1 n2 v2 _ =>
    match salida, n1, n2 with
    | pH, pT, pQ => Some (if Qeq_bool v2 0 then hf v1 else hg v1)
    | pS, pT, pQ => Some (if Qeq_bool v2 0 then sf v1 else sg v1)
    | pP, pT, pQ => Some (Psat v1)
    | pH, pP, pQ => Some (if Qeq_bool v2 0 then hf (Tsat v1)
                              else hg (Tsat v1))
    | pS, pP, pQ => Some (if Qeq_bool v2 0 then sf (Tsat v1)
                              else sg (Tsat v1))
    | pT, pP, pQ => Some (Tsat v1)
    | pH, pP, pS => Some (H_PS v1 v2)
    | pS, pP, pH => Some (S_PH v1 v2)
    | pQ, pP, pH => Some (Q_PH v1 v2)
    | pT, pH, pP => Some (T_PH v2 v1)
    | pT, pP, pH => Some (T_PH v1 v2)
    | _, _, _ => None
    end.

(** The same backend with a ceiling on the saturation temperature, as a
    real refrigerant has at its critical point: a saturation query above
    [t_max] kelvin raises. *)
Definition CP_con_techo (t_max : Q) : proveedor :=
  fun salida n1 v1 n2 v2 fluido =>
    match n1, n2 with
    | pT, pQ => if Qle_bool v1 t_max then CP salida n1 v1 n2 v2 fluido
                else None
    | _, _ => CP salida n1 v1 n2 v2 fluido
    end.

End Doble.

(* ================================================================== *)
(** ** Float helpers of the generator *)

(** [x < y] on floats. *)
Definition Qltb (x y : Q) : bool := negb (Qle_bool y x).

(** Python's [min(a, b)] and [max(a, b)] on two floats. *)
Definition py_min (a b : Q) : Q := if Qltb b a then b else a.
Definition py_max (a b : Q) : Q := if Qltb a b then b else a.

(** Nearest integer, ties to the even one. *)
Definition entero_mas_cercano (x : Q) : Z :=
  let f := Qfloor x in
  match Qcompare (x - inject_Z f) (1 # 2) with
  | Lt => f
  | Gt => (f + 1)%Z
  | Eq => if Z.even f then f else (f + 1)%Z
  end.

(** [round(x, ndigits)]. *)
Definition round (x : Q) (ndigits : nat) : Q :=
  let escala := inject_Z (10 ^ Z.of_nat ndigits) in
  inject_Z (entero_mas_cercano (x * escala)) / escala.

(* ================================================================== *)
(** ** The module-level random generator *)

(** The hidden state of Python's [random] module, as the values it is going
    to hand out: [uniformes g n] is what the [n]-th call of
    [random.random()] returns, [normales g n] the [n]-th standard normal
    deviate [random.gauss] is built from; [i_u] and [i_n] count the draws
    already consumed. *)
Record azar : Type := mk_azar {
  uniformes : nat -> Q;
  normales : nat -> Q;
  i_u : nat;
  i_n : nat
}.

(** [random.random()]. *)
Definition random (g : azar) : Q * azar :=
  (uniformes g (i_u g),
   mk_azar (uniformes g) (normales g) (S (i_u g)) (i_n g)).

(** [random.uniform(a, b)], which is [a + (b - a) * random()]. *)
Definition uniform (a b : Q) (g : azar) : Q * azar :=
  let (u, g') := random g in (a + (b - a) * u, g').

(** [random.gauss(mu, sigma)]. *)
Definition gauss (mu sigma : Q) (g : azar) : Q * azar :=
  (mu + normales g (i_n g) * sigma,
   mk_azar (uniformes g) (normales g) (i_u g) (S (i_n g))).

(* ================================================================== *)
(** ** Dates *)

(** A naive [datetime], to the second: the proleptic Gregorian ordinal of
    its day (what [toordinal()] returns) and the second within the day. *)
Record datetime : Type := mk_datetime {
  ordinal : Z;
  segundo_del_dia : Z
}.

(** [d - timedelta(days=n)]. *)
Definition menos_dias (d : datetime) (n : Z) : datetime :=
  mk_datetime (ordinal d - n) (segundo_del_dia d).

(** [d + timedelta(hours=k)]. *)
Definition mas_horas (d : datetime) (k : Z) : datetime :=
  let t := (segundo_del_dia d + 3600 * k)%Z in
  mk_datetime (ordinal d + t / 86400) (t mod 86400).

(** [d.hour]. *)
Definition hour (d : datetime) : Z := (segundo_del_dia d / 3600)%Z.

(** [d.timetuple().tm_yday]: the year is found as [datetime._ord2ymd] does,
    by 400-, 100-, 4- and 1-year cycles. *)
Definition tm_yday (d : datetime) : Z :=
  let n := (ordinal d - 1)%Z in
  let n := (n mod 146097)%Z in
  let n100 := (n / 36524)%Z in
  let n := (n mod 36524)%Z in
  let n := (n mod 1461)%Z in
  let n1 := (n / 365)%Z in
  let n := (n mod 365)%Z in
  if ((n1 =? 4) || (n100 =? 4))%Z then 366%Z else (n + 1)%Z.

(* ================================================================== *)
(** ** Generator configuration *)

Definition DIAS_SIMULACION : Z := 7.
Definition FRECUENCIA_HORAS : Z := 1.

Record equipo : Type := mk_equipo {
  t_interior : Q;
  flujo : Q
}.

Definition EQUIPOS : list (string * equipo) :=
  [ ("CAMARA_01_CARNES"%string, mk_equipo (-18) 0.12);
    ("CAMARA_02_LACTEOS"%string, mk_equipo 4 0.08);
    ("CAMARA_03_VERDURAS"%string, mk_equipo 4 0.08) ].

(* ================================================================== *)
(** ** Environment and door events *)

Definition calcular_temperatura_ambiente (hora dia_del_anio : Z) (g : azar)
  : Q * azar :=
  let temp_base_invierno := -5 in
  let temp_base_verano := 10 in
  let factor_estacion :=
    0.5 * (1 + inject_Z (dia_del_anio - 172) / 172) in
  let temp_base :=
    temp_base_invierno
    + (temp_base_verano - temp_base_invierno) * factor_estacion in
  let variacion_diurna := 4 * (1 - inject_Z (Z.abs (hora - 15)) / 12) in
  let (ruido, g') := gauss 0 1.5 g in
  (round (temp_base + variacion_diurna + ruido) 1, g').

Definition simular_evento_apertura_puerta (g : azar) : Q * azar :=
  let (prob_apertura, g1) := random g in
  if Qltb prob_apertura 0.05 then uniform 3 8 g1
  else if Qltb prob_apertura 0.20 then uniform 1 3 g1
  else (0, g1).

(* ================================================================== *)
(** ** Operating state *)

Inductive estado_operacion : Type := NORMAL | ADVERTENCIA | ALARMA.

(** The [if]/[elif]/[else] of lines 128-133 of [generar_datos]. *)
Definition determinar_estado (delta_t_cond cop : Q) : estado_operacion :=
  if Qltb 25 delta_t_cond || Qltb cop 2.0 then ALARMA
  else if Qltb 20 delta_t_cond || Qltb cop 2.5 then ADVERTENCIA
  else NORMAL.

(* ================================================================== *)
(** ** The telemetry generator *)

(** One row appended to [registros].  [timestamp] is the tick's [datetime]
    (the source stores its [strftime] rendering). *)
Record registro : Type := mk_registro {
  timestamp : datetime;
  id_equipo : string;
  t_ambiente_C : Q;
  t_interior_C : Q;
  delta_t_cond_C : Q;
  eta_compresor : Q;
  cop : Q;
  temp_descarga_C : Q;
  trabajo_kW : Q;
  calor_extraido_kW : Q;
  calidad_evap : Q;
  estado : estado_operacion
}.

(** What the [except] branch prints:
    "Error en simulación [id_equipo @ fecha]: e". *)
Record mensaje_error : Type := mk_mensaje {
  m_equipo : string;
  m_fecha : datetime;
  m_excepcion : excepcion
}.

(** One invocation of the solver by the generator: the grid cell it is made
    for and the five arguments passed. *)
Record llamada : Type := mk_llamada {
  ll_fecha : datetime;
  ll_equipo : string;
  ll_T_ambiente_C : Q;
  ll_T_interior_C : Q;
  ll_Flujo_masico_kg_s : Q;
  ll_eta_isentropica : Q;
  ll_Delta_T_cond_C : Q
}.

(** The state the loops of [generar_datos] thread: the random generator,
    the list [registros], what has been printed by the [except] branch, and
    (a ghost component) the solver invocations made so far. *)
Record ejecucion : Type := mk_ejecucion {
  rng : azar;
  registros : list registro;
  consola : list mensaje_error;
  llamadas : list llamada
}.

Section Generador.

Variable CP : proveedor.

(** The solver applied to a recorded invocation. *)
Definition resolver (c : llamada) : resultado resultados :=
  simular_refrigerador CP (ll_T_ambiente_C c) (ll_T_interior_C c)
    (ll_Flujo_masico_kg_s c) (ll_eta_isentropica c) (ll_Delta_T_cond_C c).

(** The body of the inner loop, for tick [i] and one entry of [EQUIPOS]. *)
Definition iteracion_equipo (i : Z) (fecha : datetime) (t_ambiente : Q)
    (e : ejecucion) (par : string * equipo) : ejecucion :=
  let (id, params) := par in
  let delta_t_cond_base := 15 in
  let (apertura, g1) := simular_evento_apertura_puerta (rng e) in
  let delta_t_cond := delta_t_cond_base + apertura in
  let dias_restantes := (DIAS_SIMULACION - i / 24)%Z in
  let delta_t_cond :=
    if (dias_restantes <=? 2)%Z
    then delta_t_cond * (1 + inject_Z (2 - dias_restantes) * 0.7)
    else delta_t_cond in
  let eta_base := 0.75 in
  let (variacion_eta, g2) := uniform (-0.03) 0.02 g1 in
  let eta := py_max 0.60 (py_min 0.85 (eta_base + variacion_eta)) in
  let c := mk_llamada fecha id t_ambiente (t_interior params) (flujo params)
                      eta delta_t_cond in
  match resolver c with
  | Devuelve resultado =>
      let cop := COP (scalar resultado) in
      let temp_descarga := Temp_Descarga_C (scalar resultado) in
      let estado := determinar_estado delta_t_cond cop in
      let (ruido_interior, g3) := uniform (-0.5) 0.5 g2 in
      let fila :=
        mk_registro fecha id t_ambiente
          (round (t_interior params + ruido_interior) 1)
          (round delta_t_cond 1)
          (round eta 3)
          (round cop 2)
          (round temp_descarga 1)
          (round (Trabajo_Compresor_kW (scalar resultado)) 3)
          (round (Calor_Extraido_kW (scalar resultado)) 3)
          (round (Calidad_Evap (scalar resultado)) 3)
          estado in
      mk_ejecucion g3 (registros e ++ [fila]) (consola e)
                   (llamadas e ++ [c])
  | Lanza ex =>
      mk_ejecucion g2 (registros e) (consola e ++ [mk_mensaje id fecha ex])
                   (llamadas e ++ [c])
  end.

(** The body of the outer loop, for tick [i]. *)
Definition iteracion_tick (fecha_inicio : datetime) (e : ejecucion) (i : Z)
  : ejecucion :=
  let fecha := mas_horas fecha_inicio (i * FRECUENCIA_HORAS) in
  let dia_del_anio := tm_yday fecha in
  let hora := hour fecha in
  let (t_ambiente, g1) :=
    calcular_temperatura_ambiente hora dia_del_anio (rng e) in
  fold_left (iteracion_equipo i fecha t_ambiente) EQUIPOS
    (mk_ejecucion g1 (registros e) (consola e) (llamadas e)).

(** [range(n)]. *)
Definition range (n : Z) : list Z :=
  map Z.of_nat (seq 0 (Z.to_nat n)).

(** [generar_datos], up to the export: [g] is the state of the module-level
    random generator when the function is entered and [ahora] what
    [datetime.now()] returns at line 84.  The value is the final state of
    the loops; its [registros] is what is handed to the data frame. *)
Definition generar_datos (g : azar) (ahora : datetime) : ejecucion :=
  let fecha_inicio := menos_dias ahora DIAS_SIMULACION in
  let total_puntos := (DIAS_SIMULACION * 24 / FRECUENCIA_HORAS)%Z in
  fold_left (iteracion_tick fecha_inicio) (range total_puntos)
    (mk_ejecucion g [] [] []).

End Generador.

(* ================================================================== *)
(** ** Test generators and clocks *)

Module Prueba.

(** Uniform draws on a cycle of period 100, all in [0, 1). *)
Definition uniformes_a (n : nat) : Q :=
  inject_Z ((37 * Z.of_nat n + 11) mod 100) / 100.


Definition normales_a (n : nat) : Q :=
  inject_Z ((5 * Z.of_nat n) mod 7 - 3) / 2.

Definition azar_a : azar := mk_azar uniformes_a normales_a 0 0.

(** 2024-06-15 10:30:00. *)
Definition reloj_a : datetime := mk_datetime 739052 37800.

End Prueba.

(* ================================================================== *)
(** ** Vocabulary for the statements about the generator *)

(** The grid the loops walk: for every tick of [range(total_puntos)], in
    order, every entry of [EQUIPOS], in order. *)
Definition rejilla (ahora : datetime) : list (datetime * string) :=
  flat_map
    (fun i =>
       map (fun par : string * equipo =>
              (mas_horas (menos_dias ahora DIAS_SIMULACION)
                         (i * FRECUENCIA_HORAS), fst par))
           EQUIPOS)
    (range (DIAS_SIMULACION * 24 / FRECUENCIA_HORAS)).

Definition celda_de_llamada (c : llamada) : datetime * string :=
  (ll_fecha c, ll_equipo c).

Definition celda_de_registro (r : registro) : datetime * string :=
  (timestamp r, id_equipo r).

Section Desenlaces.

Variable CP : proveedor.

(** Whether the solve of an invocation returns. *)
Definition resuelta (c : llamada) : bool :=
  match resolver CP c with
  | Devuelve _ => true
  | Lanza _ => false
  end.

(** The message the [except] branch prints for an invocation, if its solve
    raises. *)
Definition mensaje_de (c : llamada) : list mensaje_error :=
  match resolver CP c with
  | Devuelve _ => []
  | Lanza ex => [mk_mensaje (ll_equipo c) (ll_fecha c) ex]
  end.

(** [r] is the row the [try] body builds from the invocation [c] when its
    solve returns: the cell and the ambient temperature of the invocation,
    the rounded arguments and scalars, and the state decided from the
    unrounded condenser delta and COP.  (The interior temperature of the
    row carries a fresh jitter and is not determined by [c].) *)
Definition fila_de (c : llamada) (r : registro) : Prop :=
  exists res,
    resolver CP c = Devuelve res /\
    celda_de_registro r = celda_de_llamada c /\
    t_ambiente_C r = ll_T_ambiente_C c /\
    delta_t_cond_C r = round (ll_Delta_T_cond_C c) 1 /\
    eta_compresor r = round (ll_eta_isentropica c) 3 /\
    cop r = round (COP (scalar res)) 2 /\
    temp_descarga_C r = round (Temp_Descarga_C (scalar res)) 1 /\
    trabajo_kW r = round (Trabajo_Compresor_kW (scalar res)) 3 /\
    calor_extraido_kW r = round (Calor_Extraido_kW (scalar res)) 3 /\
    calidad_evap r = round (Calidad_Evap (scalar res)) 3 /\
    estado r = determinar_estado (ll_Delta_T_cond_C c) (COP (scalar res)).

End Desenlaces.

(** [avance CP e e' cs]: the loops took the state [e] to [e'] by making
    the solver invocations [cs], in this order.  Every invocation is
    recorded; those whose solve returned added one row each, in order;
    those whose solve raised printed one message each, in order; the
    sequences the random generator hands out are unchanged. *)
Definition avance (CP : proveedor) (e e' : ejecucion) (cs : list llamada)
  : Prop :=
  llamadas e' = llamadas e ++ cs /\
  (exists filas,
     registros e' = registros e ++ filas /\
     Forall2 (fila_de CP) (filter (resuelta CP) cs) filas) /\
  consola e' = consola e ++ flat_map (mensaje_de CP) cs /\
  uniformes (rng e') = uniformes (rng e) /\
  normales (rng e') = normales (rng e).

(** The random generator hands out uniform draws of [0, 1), as
    [random.random()] is documented to. *)
Definition uniformes_en_rango (g : azar) : Prop :=
  forall n, 0 <= uniformes g n /\ uniformes g n < 1.

(** What the generator passes to the solver in one invocation: one of the
    two configured mass flows, an efficiency that is the baseline 0.75
    plus a jitter of [-0.03, 0.02) (the clamp to [0.60, 0.85] left it
    untouched), and a condenser delta of at least 15. *)
Definition parametros_nominales (c : llamada) : Prop :=
  (ll_Flujo_masico_kg_s c = 0.08 \/ ll_Flujo_masico_kg_s c = 0.12) /\
  (exists u, 0 <= u /\ u < 1 /\
             ll_eta_isentropica c = 0.75 + (-0.03 + (0.02 - -0.03) * u)) /\
  0.72 <= ll_eta_isentropica c /\ ll_eta_isentropica c <= 0.77 /\
  15 <= ll_Delta_T_cond_C c.



(* ================================================================== *)
(** ** Vocabulary for the statements about the rows *)

(** The tick a row belongs to: [i] is a tick of the run started at
    [ahora] and the row carries the date of that tick. *)
Definition tick_de_fila (ahora : datetime) (r : registro) (i : Z) : Prop :=
  (0 <= i < DIAS_SIMULACION * 24 / FRECUENCIA_HORAS)%Z /\
  timestamp r
  = mas_horas (menos_dias ahora DIAS_SIMULACION) (i * FRECUENCIA_HORAS).

(** Seconds elapsed at a date since the start of day 0 of the calendar. *)
Definition instante (d : datetime) : Z :=
  (ordinal d * 86400 + segundo_del_dia d)%Z.

(* ================================================================== *)
(** ** Python strings *)

(** Strings are sequences of bytes (UTF-8).  The separators and patterns
    the dashboard searches for are ASCII, so splitting, searching and
    replacing on bytes agrees with Python's on code points. *)

(** [s.split(sep, maxsplit)] for a one-character separator: [n] is the
    number of splits still allowed. *)
Fixpoint split_aux (sep : ascii) (n : nat) (s : string) : list string :=
  match s with
  | EmptyString => [EmptyString]
  | String c s' =>
      if Ascii.eqb c sep then
        match n with
        | O => [s]
        | S n' => EmptyString :: split_aux sep n' s'
        end
      else
        match split_aux sep n s' with
        | p :: ps => String c p :: ps
        | [] => [String c EmptyString]
        end
  end.

(** [s.split(sep)] and [s.split(sep, maxsplit)]. *)
Definition py_split (sep : ascii) (maxsplit : option nat) (s : string)
  : list string :=
  match maxsplit with
  | Some n => split_aux sep n s
  | None => split_aux sep (String.length s) s
  end.

(** [sub in s]. *)
Fixpoint py_in (sub s : string) : bool :=
  prefix sub s
  || match s with
     | EmptyString => false
     | String _ s' => py_in sub s'
     end.

(** [s.replace(old, new)] for a non-empty [old]: the occurrences are
    replaced from left to right, without overlap; [skip] counts the
    characters of a matched occurrence still to be dropped. *)
Fixpoint replace_aux (old new : string) (skip : nat) (s : string) : string :=
  match s with
  | EmptyString => EmptyString
  | String c s' =>
      match skip with
      | S k => replace_aux old new k s'
      | O =>
          if prefix old s
          then new ++ replace_aux old new (String.length old - 1) s'
          else String c (replace_aux old new 0 s')
      end
  end.

Definition py_replace (old new s : string) : string :=
  replace_aux old new 0 s.

(* ================================================================== *)
(** ** The dashboard: keyboards and routing *)

(** An [InlineKeyboardButton]: its label and its [callback_data]. *)
Record boton : Type := mk_boton {
  texto : string;
  callback_data : string
}.

(** An [InlineKeyboardMarkup]: rows of buttons. *)
Definition teclado : Type := list (list boton).

(** A computation of the dashboard that may end in [IndexError]. *)
Inductive con_indice (A : Type) : Type :=
| Hecho (a : A)
| LanzaIndexError.

Arguments Hecho {A} a.
Arguments LanzaIndexError {A}.

(** [l[n]]. *)
Definition indice {A : Type} (l : list A) (n : nat) : con_indice A :=
  match nth_error l n with
  | Some a => Hecho a
  | None => LanzaIndexError
  end.

Definition generar_menu_principal : teclado :=
  [ [mk_boton "📊 Estado Actual"%string "estado"%string];
    [mk_boton "💰 Costos y Eficiencia"%string "costos"%string];
    [mk_boton "📈 Tendencias Térmicas"%string "tendencias"%string];
    [mk_boton "🛠️ Diagnóstico Salud"%string "diagnostico"%string];
    [mk_boton "📚 Ver Parámetros Ideales"%string "referencia"%string] ].

(** The label of a unit on its drill-down button (lines 99-106). *)
Definition nombre_visual (equipo : string) : con_indice string :=
  if py_in "CARNES"%string equipo then Hecho "🥩 Carnes"%string
  else if py_in "LACTEOS"%string equipo then Hecho "🥛 Lácteos"%string
  else if py_in "VERDURAS"%string equipo then Hecho "🥦 Verduras"%string
  else indice (py_split "_"%char None equipo) 2.

(** The loop of lines 97-111 over the units in alarm. *)
Fixpoint botones_de_falla (seccion : string) (equipos : list string)
  : con_indice teclado :=
  match equipos with
  | [] => Hecho []
  | equipo :: resto =>
      match nombre_visual equipo with
      | LanzaIndexError => LanzaIndexError
      | Hecho nombre =>
          match botones_de_falla seccion resto with
          | LanzaIndexError => LanzaIndexError
          | Hecho filas =>
              Hecho ([mk_boton ("🔍 Analizar Falla: " ++ nombre)%string
                               ("falla_" ++ seccion ++ "_" ++ equipo)%string]
                     :: filas)
          end
      end
  end.

(** [generar_botones_con_refresh(seccion, equipos_alarma)];
    [equipos_alarma] is [None] or a list. *)
Definition generar_botones_con_refresh (seccion : string)
    (equipos_alarma : option (list string)) : con_indice teclado :=
  let finales :=
    [ [mk_boton "🔄 Actualizar Datos"%string ("refresh_" ++ seccion)%string];
      [mk_boton "🔙 Menu Principal"%string "menu"%string] ] in
  match equipos_alarma with
  | None | Some [] => Hecho finales
  | Some equipos =>
      match botones_de_falla seccion equipos with
      | LanzaIndexError => LanzaIndexError
      | Hecho filas => Hecho (filas ++ finales)
      end
  end.

Definition generar_boton_volver : teclado :=
  [ [mk_boton "🔙 Menu Principal"%string "menu"%string] ].

Definition generar_boton_volver_seccion (seccion_origen : string) : teclado :=
  let nombre_visual :=
    if String.eqb seccion_origen "estado"%string then "📊 Estado Actual"%string
    else if String.eqb seccion_origen "costos"%string then "💰 Costos y Eficiencia"%string
    else if String.eqb seccion_origen "diagnostico"%string then "🛠️ Diagnóstico"%string
    else "Sección Anterior"%string in
  [ [mk_boton ("⬅️ Volver a " ++ nombre_visual)%string seccion_origen];
    [mk_boton "🔙 Menu Principal"%string "menu"%string] ].

(** The handler [manejar_callback] hands a callback to, with the
    arguments it passes. *)
Inductive destino : Type :=
| menu_principal
| mostrar_estado_actual (es_refresh : bool)
| mostrar_costos (es_refresh : bool)
| mostrar_tendencias
| mostrar_diagnostico
| mostrar_referencia_tecnica
| mostrar_detalle_falla (id_equipo seccion_origen : string)
| sin_destino.

(** The router [manejar_callback], on the [callback_data] received.  The
    branch of "falla_" splits at most twice; with fewer than three parts
    the section defaults to "diagnostico" and the unit is what is left of
    the data once "falla_" is removed. *)
Definition manejar_callback (data : string) : destino :=
  if String.eqb data "menu"%string then menu_principal
  else if String.eqb data "estado"%string || String.eqb data "refresh_estado"%string
  then mostrar_estado_actual (String.eqb data "refresh_estado"%string)
  else if String.eqb data "costos"%string || String.eqb data "refresh_costos"%string
  then mostrar_costos (String.eqb data "refresh_costos"%string)
  else if String.eqb data "tendencias"%string then mostrar_tendencias
  else if String.eqb data "diagnostico"%string
          || String.eqb data "refresh_diagnostico"%string
  then mostrar_diagnostico
  else if String.eqb data "referencia"%string then mostrar_referencia_tecnica
  else if prefix "falla_"%string data then
    let partes := py_split "_"%char (Some 2%nat) data in
    let seccion_origen :=
      if (2 <? List.length partes)%nat then nth 1 partes EmptyString
      else "diagnostico"%string in
    let id_equipo :=
      if (2 <? List.length partes)%nat then nth 2 partes EmptyString
      else py_replace "falla_"%string ""%string data in
    mostrar_detalle_falla id_equipo seccion_origen
  else sin_destino.

(** The handler each button of a keyboard leads to. *)
Definition destinos (t : teclado) : list (list destino) :=
  map (map (fun b => manejar_callback (callback_data b))) t.

(** [equipos_alarma] as a list, [None] having no units. *)
Definition lista_de_equipos (equipos_alarma : option (list string))
  : list string :=
  match equipos_alarma with
  | Some l => l
  | None => []
  end.

(* ================================================================== *)
(** ** The dashboard: the fleet screen *)

(** The text the generator stores in the column [estado] of a row, which
    the dashboard reads back. *)
Definition nombre_de_estado (e : estado_operacion) : string :=
  match e with
  | NORMAL => "NORMAL"%string
  | ADVERTENCIA => "ADVERTENCIA"%string
  | ALARMA => "ALARMA"%string
  end.

Definition obtener_semaforo (estado : string) (cop : Q) : string :=
  if String.eqb estado "ALARMA"%string || Qltb cop 2.0 then "🔴"%string
  else if String.eqb estado "ADVERTENCIA"%string then "🟡"%string
  else "🟢"%string.

(** The colour [mostrar_estado_actual] shows for a row (lines 310-319):
    the one of [obtener_semaforo], overwritten with red under the same
    test that collects the unit. *)
Definition semaforo_de_fila (row : registro) : string :=
  let estado := nombre_de_estado (estado row) in
  let cop := cop row in
  let semaforo := obtener_semaforo estado cop in
  if String.eqb estado "ALARMA"%string || Qltb cop 2.0 then "🔴"%string
  else semaforo.

(** The list [equipos_alarma] the loop of [mostrar_estado_actual] builds
    over the rows [ultimas] (lines 301-318). *)
Definition equipos_alarma (ultimas : list registro) : list string :=
  map id_equipo
    (filter (fun row =>
               String.eqb (nombre_de_estado (estado row)) "ALARMA"%string
               || Qltb (cop row) 2.0)
            ultimas).

(** The colour of a state. *)
Definition color_de_estado (e : estado_operacion) : string :=
  match e with
  | NORMAL => "🟢"%string
  | ADVERTENCIA => "🟡"%string
  | ALARMA => "🔴"%string
  end.

Definition es_alarma (e : estado_operacion) : bool :=
  match e with
  | ALARMA => true
  | _ => false
  end.

(* ================================================================== *)
(** ** The dashboard: the cost screen *)

(** Line 399 of [mostrar_costos]: the hours today's rows span, at least
    one.  [segundos] is [(hora_fin - hora_inicio).total_seconds()]. *)
Definition horas_datos (segundos : Q) : Q :=
  py_max 1 (segundos / 3600 + 1).

(** Line 402: today's spending carried to 24 hours. *)
Definition proyeccion_hoy (gasto_hoy_actual segundos : Q) : resultado Q :=
  por_hora <- dividir gasto_hoy_actual (horas_datos segundos) ;;
  Devuelve (por_hora * 24).

(** Lines 410-413: the deviation of the projection from the historic
    daily mean, in percent; 0 without a positive mean. *)
Definition desviacion (proyeccion_hoy promedio_diario_historico : Q)
  : resultado Q :=
  if Qltb 0 promedio_diario_historico then
    relativa <- dividir (proyeccion_hoy - promedio_diario_historico)
                        promedio_diario_historico ;;
    Devuelve (relativa * 100)
  else Devuelve 0.

(** Lines 442-449: the mark in front of the projection. *)
Definition emoji_proyeccion (desviacion : Q) : string :=
  if Qle_bool 20 desviacion then "🔴 "%string
  else if Qle_bool 10 desviacion then "🟡 "%string
  else if Qle_bool desviacion (-15) then "🟢 "%string
  else ""%string.

(** Lines 454-468: [emoji_desv] and [texto_estado]. *)
Definition estado_de_desviacion (desviacion : Q) : string * string :=
  if Qle_bool 20 desviacion then ("🔴"%string, "FALLA CRÍTICA"%string)
  else if Qle_bool 10 desviacion then ("🟡"%string, "Alerta Temprana"%string)
  else if Qle_bool desviacion (-15)
  then ("🟢"%string, "Ahorro Extraordinario"%string)
  else if Qle_bool (Qabs desviacion) 10 then ("⚪"%string, "Normal"%string)
  else ("⚪"%string, "Normal"%string).

Definition emoji_desv (desviacion : Q) : string :=
  fst (estado_de_desviacion desviacion).

Definition texto_estado (desviacion : Q) : string :=
  snd (estado_de_desviacion desviacion).

(** The branch of the diagnosis (lines 481-510) that writes the
    message, named by its headline. *)
Inductive diagnostico_costos : Type :=
| FALLA_CRITICA
| ALERTA_TEMPRANA
| AHORRO_EXTRAORDINARIO
| EQUIPOS_EN_ESTADO_CRITICO
| OPERACION_NORMAL.

Definition diagnostico_de (desviacion : Q) (hay_equipos_criticos : bool)
  : diagnostico_costos :=
  if Qle_bool 20 desviacion then FALLA_CRITICA
  else if Qle_bool 10 desviacion then ALERTA_TEMPRANA
  else if Qle_bool desviacion (-15) && negb hay_equipos_criticos
  then AHORRO_EXTRAORDINARIO
  else if hay_equipos_criticos then EQUIPOS_EN_ESTADO_CRITICO
  else OPERACION_NORMAL.

(* ================================================================== *)
(** ** The cost diagnosis script *)

(** The script [diagnostico_costos.py].  It runs at top level; its
    input is the list [archivos_ordenados] of the CSV files found, most
    recent first, and its result is what the last two sections print. *)
Module DiagnosticoCostos.

Inductive excepcion : Type :=
| IndexError
| NameError
| ZeroDivisionError.

Inductive desenlace (A : Type) : Type :=
| Termina (a : A)
| Lanza (e : excepcion).

Arguments Termina {A} a.
Arguments Lanza {A} e.

Definition dividir (a b : Q) : desenlace Q :=
  if Qeq_bool b 0 then Lanza ZeroDivisionError else Termina (a / b).

Definition COSTO_KWH_CLP : Q := 120.

(** A CSV file with at least one row: the first row and the others. *)
Definition archivo : Type := (registro * list registro)%type.

Definition filas (a : archivo) : list registro := fst a :: snd a.

(** The column [fecha]: the date of the timestamp. *)
Definition fecha (r : registro) : Z := ordinal (timestamp r).

(** [df['fecha'].max()]. *)
Definition fecha_max (a : archivo) : Z :=
  fold_left Z.max (map fecha (snd a)) (fecha (fst a)).

(** The sum of a column. *)
Definition suma (l : list Q) : Q := fold_left Qplus l 0.

(** The keys of [groupby('fecha')]: the dates present, ascending. *)
Fixpoint insertar (x : Z) (l : list Z) : list Z :=
  match l with
  | [] => [x]
  | y :: l' =>
      if (x <? y)%Z then x :: l
      else if (x =? y)%Z then l
      else y :: insertar x l'
  end.

Definition fechas (df : list registro) : list Z :=
  fold_right insertar [] (map fecha df).

(** [df.groupby('fecha')['trabajo_kW'].sum() * COSTO_KWH_CLP]. *)
Definition gasto_por_dia (df : list registro) : list (Z * Q) :=
  map (fun f =>
         (f, suma (map trabajo_kW
                       (filter (fun r => (fecha r =? f)%Z) df))
             * COSTO_KWH_CLP))
      (fechas df).

(** The mean of a series that is not empty. *)
Definition mean (l : list Q) : Q :=
  suma l / inject_Z (Z.of_nat (List.length l)).

(** What the sections on the historic mean and on today print; the
    deviation only when the mean is positive. *)
Record informe : Type := mk_informe {
  promedio : Q;
  gasto_hoy : Q;
  horas_hoy : Z;
  proyeccion : Q;
  desviacion : option Q
}.

(** The script.  The name [promedio] is bound only by the branch of a
    history that is not empty ([None]: not bound); line 59 reads it. *)
Definition guion (archivos_ordenados : list archivo) : desenlace (option informe) :=
  match archivos_ordenados with
  | [] => Lanza IndexError
  | archivo :: _ =>
      let df := filas archivo in
      let fecha_hoy := fecha_max archivo in
      let df_historico := filter (fun r => (fecha r <? fecha_hoy)%Z) df in
      let df_hoy := filter (fun r => (fecha r =? fecha_hoy)%Z) df in
      let promedio : option Q :=
        match df_historico with
        | [] => None
        | _ :: _ => Some (mean (map snd (gasto_por_dia df_historico)))
        end in
      match df_hoy with
      | [] => Termina None
      | _ :: _ =>
          let gasto_hoy := suma (map trabajo_kW df_hoy) * COSTO_KWH_CLP in
          let horas_hoy := (Z.of_nat (List.length df_hoy) / 3)%Z in
          let proyeccion :=
            if (0 <? horas_hoy)%Z
            then match dividir gasto_hoy (inject_Z horas_hoy) with
                 | Termina q => Termina (q * 24)
                 | Lanza e => Lanza e
                 end
            else Termina 0 in
          match proyeccion with
          | Lanza e => Lanza e
          | Termina proyeccion =>
              match promedio with
              | None => Lanza NameError
              | Some promedio =>
                  if Qltb 0 promedio then
                    match dividir (proyeccion - promedio) promedio with
                    | Termina q =>
                        Termina (Some (mk_informe promedio gasto_hoy horas_hoy
                                         proyeccion (Some (q * 100))))
                    | Lanza e => Lanza e
                    end
                  else
                    Termina (Some (mk_informe promedio gasto_hoy horas_hoy
                                     proyeccion None))
              end
          end
      end
  end.

End DiagnosticoCostos.

(* ================================================================== *)
(** ** The lookups of one call *)

Section Consultas.

Variable CP : proveedor.
Variables T_ambiente_C T_interior_C eta_isentropica Delta_T_cond_C : Q.

(** The backend resolves the four lookups of lines 30-41 of this call,
    those made before the division by the efficiency (line 44). *)
Definition consultas_del_trabajo : Prop :=
  exists h1 s1 P2 h2_ideal,
    let f := "R134a"%string in
    CP pH pT (T_interior_C + 273.15) pQ 1 f = Some h1 /\
    CP pS pT (T_interior_C + 273.15) pQ 1 f = Some s1 /\
    CP pP pT (T_ambiente_C + 273.15 + Delta_T_cond_C) pQ 0 f = Some P2 /\
    CP pH pP P2 pS s1 f = Some h2_ideal.

(** The backend resolves the lookups of lines 30-60 of this call, those
    made before the division by the work (line 66). *)
Definition consultas_hasta_el_cop : Prop :=
  exists h1 s1 P2 h2_ideal s2 h3 T3 P4 x4,
    let f := "R134a"%string in
    let h2 := h1 + (h2_ideal - h1) / eta_isentropica in
    CP pH pT (T_interior_C + 273.15) pQ 1 f = Some h1 /\
    CP pS pT (T_interior_C + 273.15) pQ 1 f = Some s1 /\
    CP pP pT (T_ambiente_C + 273.15 + Delta_T_cond_C) pQ 0 f = Some P2 /\
    CP pH pP P2 pS s1 f = Some h2_ideal /\
    CP pS pP P2 pH h2 f = Some s2 /\
    CP pH pP P2 pQ 0 f = Some h3 /\
    CP pT pP P2 pQ 0 f = Some T3 /\
    CP pP pT (T_interior_C + 273.15) pQ 1 f = Some P4 /\
    CP pQ pP P4 pH h3 f = Some x4.

(** The backend resolves every lookup of this call. *)
Definition consultas_de_la_llamada : Prop :=
  exists h1 s1 P2 h2_ideal s2 h3 T3 P4 x4 s3 s4 T2,
    let f := "R134a"%string in
    let h2 := h1 + (h2_ideal - h1) / eta_isentropica in
    CP pH pT (T_interior_C + 273.15) pQ 1 f = Some h1 /\
    CP pS pT (T_interior_C + 273.15) pQ 1 f = Some s1 /\
    CP pP pT (T_ambiente_C + 273.15 + Delta_T_cond_C) pQ 0 f = Some P2 /\
    CP pH pP P2 pS s1 f = Some h2_ideal /\
    CP pS pP P2 pH h2 f = Some s2 /\
    CP pH pP P2 pQ 0 f = Some h3 /\
    CP pT pP P2 pQ 0 f = Some T3 /\
    CP pP pT (T_interior_C + 273.15) pQ 1 f = Some P4 /\
    CP pQ pP P4 pH h3 f = Some x4 /\
    CP pS pP P2 pQ 0 f = Some s3 /\
    CP pS pP P4 pH h3 f = Some s4 /\
    CP pT pH h2 pP P2 f = Some T2.

End Consultas.

(** The critical temperature of R134a, in kelvin: the ceiling of its
    saturation line. *)
Definition T_critica_R134a : Q := 374.21.

(* ================================================================== *)
(** ** Backends that differ in the entropy at (P, H) *)

(** The backend [CP] with other values for the entropy at a pressure and
    an enthalpy: it resolves the same states as [CP], and where [CP]
    resolves the lookup of [S] at ([P], [H]) it answers [S_PH P H]. *)
Definition con_S_PH (CP : proveedor) (S_PH : Q -> Q -> Q) : proveedor :=
  fun salida n1 v1 n2 v2 fluido =>
    match salida, n1, n2 with
    | pS, pP, pH =>
        match CP salida n1 v1 n2 v2 fluido with
        | Some _ => Some (S_PH v1 v2)
        | None => None
        end
    | _, _, _ => CP salida n1 v1 n2 v2 fluido
    end.

(** A state with another entropy. *)
Definition con_s (e : estado_termo) (s : Q) : estado_termo :=
  mk_estado (st_P e) (st_T e) (st_h e) s (st_desc e).

(** A result with the entropies of states 2 and 4 read off [S_PH]. *)
Definition con_entropias (S_PH : Q -> Q -> Q) (r : resultados) : resultados :=
  mk_resultados (scalar r) (states_1 r)
    (con_s (states_2 r) (S_PH (st_P (states_2 r)) (st_h (states_2 r))))
    (states_3 r)
    (con_s (states_4 r) (S_PH (st_P (states_4 r)) (st_h (states_4 r)))).

(* ================================================================== *)
(** ** Vocabulary for the statements about the draws *)






(* ================================================================== *)
(** ** The dashboard: the line of the deviation *)

(** Lines 439-472 of [mostrar_costos]: the line of the deviation, with
    its mark and its label, is written when there are at least four hours
    of data; otherwise the message says that the projection is not
    available yet ([None]). *)
Definition linea_de_desviacion (horas_datos desviacion : Q)
  : option (string * string) :=
  if Qle_bool 4 horas_datos then Some (estado_de_desviacion desviacion)
  else None.

(* ================================================================== *)
(** * Properties of the cycle solver *)

Section SolverFacts.

Variable CP : proveedor.

Lemma PropsSI_Devuelve : forall o n1 v1 n2 v2 f v,
  PropsSI CP o n1 v1 n2 v2 f = Devuelve v <-> CP o n1 v1 n2 v2 f = Some v.
Proof.
  intros; unfold PropsSI; destruct (CP o n1 v1 n2 v2 f); split;
    intros H; inversion H; reflexivity.
Qed.

Lemma PropsSI_Lanza : forall o n1 v1 n2 v2 f e,
  PropsSI CP o n1 v1 n2 v2 f = Lanza e -> e = ValueError.
Proof.
  intros o n1 v1 n2 v2 f e; unfold PropsSI.
  destruct (CP o n1 v1 n2 v2 f); intros H; inversion H; reflexivity.
Qed.

Lemma dividir_Devuelve : forall a b q,
  dividir a b = Devuelve q <-> ~ b == 0 /\ q = a / b.
Proof.
  intros a b q; unfold dividir.
  destruct (Qeq_bool b 0) eqn:E; split.
  - discriminate.
  - intros [Hb _]; apply Qeq_bool_iff in E; contradiction.
  - intros H; inversion H; split; [apply Qeq_bool_neq; exact E | reflexivity].
  - intros [_ ->]; reflexivity.
Qed.

Lemma dividir_Lanza : forall a b e,
  dividir a b = Lanza e <-> b == 0 /\ e = ZeroDivisionError.
Proof.
  intros a b e; unfold dividir.
  destruct (Qeq_bool b 0) eqn:E; split.
  - intros H; inversion H; split; [apply Qeq_bool_iff; exact E | reflexivity].
  - intros [_ ->]; reflexivity.
  - discriminate.
  - intros [Hb _]; apply Qeq_bool_neq in E; contradiction.
Qed.

(** The intermediate quantities of a solve that returned, and the
    dictionary built from them. *)
Lemma simular_Devuelve_inv : forall Ta Ti m eta dT r,
  simular_refrigerador CP Ta Ti m eta dT = Devuelve r ->
  exists h1 s1 P2 h2_ideal s2 h3 T3 P4 x4 s3 s4 T2,
    let f := "R134a"%string in
    let h2 := h1 + (h2_ideal - h1) / eta in
    let W := m * (h2 - h1) in
    let Qe := m * (h1 - h3) in
    CP pH pT (Ti + 273.15) pQ 1 f = Some h1 /\
    CP pS pT (Ti + 273.15) pQ 1 f = Some s1 /\
    CP pP pT (Ta + 273.15 + dT) pQ 0 f = Some P2 /\
    CP pH pP P2 pS s1 f = Some h2_ideal /\
    ~ eta == 0 /\
    CP pS pP P2 pH h2 f = Some s2 /\
    CP pH pP P2 pQ 0 f = Some h3 /\
    CP pT pP P2 pQ 0 f = Some T3 /\
    CP pP pT (Ti + 273.15) pQ 1 f = Some P4 /\
    CP pQ pP P4 pH h3 f = Some x4 /\
    ~ W == 0 /\
    CP pS pP P2 pQ 0 f = Some s3 /\
    CP pS pP P4 pH h3 f = Some s4 /\
    CP pT pH h2 pP P2 f = Some T2 /\
    r = mk_resultados
          (mk_escalares (W / 1000) (Qe / 1000) (Qe / W) x4 (T2 - 273.15) m)
          (mk_estado P4 (Ti + 273.15) h1 s1 "Entrada Compresor")
          (mk_estado P2 T2 h2 s2 "Entrada Condensador")
          (mk_estado P2 T3 h3 s3 "Salida Condensador")
          (mk_estado P4 (Ti + 273.15) h3 s4 "Entrada Evaporador").
Proof.
  intros Ta Ti m eta dT r H.
  unfold simular_refrigerador in H; cbv zeta in H.
  repeat match type of H with
  | ligar ?c _ = Devuelve _ =>
      let E := fresh "E" in
      destruct c eqn:E; simpl in H; [ | discriminate H ]
  end.
  repeat match goal with
  | E : PropsSI _ _ _ _ _ _ _ = Devuelve _ |- _ =>
      apply PropsSI_Devuelve in E
  | E : dividir _ _ = Devuelve _ |- _ =>
      apply dividir_Devuelve in E; destruct E as [? ?]; subst
  end.
  inversion H; subst r; clear H.
  do 12 eexists; cbv zeta.
  repeat (split; [ eassumption | ]).
  reflexivity.
Qed.

(** The only exceptions a solve can end with. *)
Lemma simular_Lanza_inv : forall Ta Ti m eta dT e,
  simular_refrigerador CP Ta Ti m eta dT = Lanza e ->
  e = ValueError \/ e = ZeroDivisionError.
Proof.
  intros Ta Ti m eta dT e H.
  unfold simular_refrigerador in H; cbv zeta in H.
  repeat match type of H with
  | ligar ?c _ = Lanza _ =>
      let E := fresh "E" in
      destruct c eqn:E; simpl in H;
      [ | inversion H; subst;
          first [ left; eapply PropsSI_Lanza; eassumption
                | right; apply dividir_Lanza in E; tauto ] ]
  end.
  discriminate H.
Qed.

(** A solve that returned went through the work computation, and its work
    was not zero. *)
Lemma simular_trabajo : forall Ta Ti m eta dT r,
  simular_refrigerador CP Ta Ti m eta dT = Devuelve r ->
  exists w,
    trabajo_calculado CP Ta Ti m eta dT = Devuelve w /\
    ~ w == 0 /\
    Trabajo_Compresor_kW (scalar r) = w / 1000 /\
    COP (scalar r) == Calor_Extraido_kW (scalar r) * 1000 / w.
Proof.
  intros Ta Ti m eta dT r H.
  destruct (simular_Devuelve_inv _ _ _ _ _ _ H)
    as (h1 & s1 & P2 & h2i & s2 & h3 & T3 & P4 & x4 & s3 & s4 & T2 & Hr).
  cbv zeta in Hr.
  destruct Hr as (E1 & E2 & E3 & E4 & Heta & _ & _ & _ & _ & _ & HW & _ & _
                  & _ & ->).
  exists (m * (h1 + (h2i - h1) / eta - h1)).
  split; [ | split; [ exact HW | split; [ reflexivity | ] ] ].
  2:{ simpl. set (w := m * (h1 + (h2i - h1) / eta - h1)) in *.
      field; exact HW. }
  unfold trabajo_calculado; cbv zeta.
  apply PropsSI_Devuelve in E1, E2, E3, E4.
  rewrite E1; simpl. rewrite E2; simpl. rewrite E3; simpl.
  rewrite E4; simpl.
  unfold dividir. destruct (Qeq_bool eta 0) eqn:E.
  - apply Qeq_bool_iff in E; contradiction.
  - reflexivity.
Qed.

End SolverFacts.

(** In the test double an isentropic step keeps the entropy: looking the
    entropy up at the pressure and enthalpy it leads to gives it back. *)
Lemma Doble_isentropico : forall p s,
  Doble.S_PH p (Doble.H_PS p s) == s.
Proof.
  intros p s.
  unfold Doble.S_PH, Doble.H_PS, Doble.sg, Doble.hg, Doble.T_de_sg,
    Doble.Tsat.
  field.
Qed.

(* ------------------------------------------------------------------ *)
(** *** Energy balance *)

(** C3.  For every solved cycle the reported compressor work is
    mass_flow x (h2 - h1), the reported evaporator heat is
    mass_flow x (h1 - h4), throttling is isenthalpic (h4 = h3), and work
    plus heat equals the condenser heat mass_flow x (h2 - h3), exactly
    (all three in kW). *)
Theorem C3_balance_energia : forall CP Ta Ti m eta dT r,
  simular_refrigerador CP Ta Ti m eta dT = Devuelve r ->
  let h1 := st_h (states_1 r) in
  let h2 := st_h (states_2 r) in
  let h3 := st_h (states_3 r) in
  let h4 := st_h (states_4 r) in
  Flujo_Masico_kg_s (scalar r) = m /\
  h4 = h3 /\
  Trabajo_Compresor_kW (scalar r) = m * (h2 - h1) / 1000 /\
  Calor_Extraido_kW (scalar r) = m * (h1 - h4) / 1000 /\
  Trabajo_Compresor_kW (scalar r) + Calor_Extraido_kW (scalar r)
    == m * (h2 - h3) / 1000.
Proof.
  intros CP Ta Ti m eta dT r Hr.
  destruct (simular_Devuelve_inv _ _ _ _ _ _ _ Hr)
    as (h1 & s1 & P2 & h2i & s2 & h3 & T3 & P4 & x4 & s3 & s4 & T2 & Hx).
  cbv zeta in Hx.
  destruct Hx as (_ & _ & _ & _ & Heta & _ & _ & _ & _ & _ & _ & _ & _ & _
                  & ->).
  simpl.
  do 4 (split; [ reflexivity | ]).
  field. exact Heta.
Qed.

(** C3: the balance on a solved cycle (ambient 20 C, interior 4 C,
    0.08 kg/s, efficiency 0.75, condenser delta 15). *)
Lemma C3_balance_energia_witness :
  exists r,
    simular_refrigerador Doble.CP 20 4 0.08 0.75 15 = Devuelve r /\
    Trabajo_Compresor_kW (scalar r) + Calor_Extraido_kW (scalar r)
      == 0.08 * (st_h (states_2 r) - st_h (states_3 r)) / 1000.
Proof.
  eexists. split; [ vm_compute; reflexivity | ].
  refine (proj2 (proj2 (proj2 (proj2
    (C3_balance_energia Doble.CP 20 4 0.08 0.75 15 _ _))))).
  vm_compute; reflexivity.
Defined.

(* ------------------------------------------------------------------ *)
(** *** Real compressor-outlet enthalpy *)

(** Dividing by an efficiency in (0, 1] moves a quantity away from zero. *)
Lemma dividir_por_eficiencia : forall d eta,
  0 < eta -> eta <= 1 ->
  (0 <= d -> d <= d / eta) /\ (d <= 0 -> d / eta <= d).
Proof.
  intros d eta Hpos Hle. split; intros Hd.
  - apply Qle_shift_div_l; [ exact Hpos | ].
    assert (0 <= d * (1 - eta)) by (apply Qmult_le_0_compat; lra).
    lra.
  - apply Qle_shift_div_r; [ exact Hpos | ].
    assert (0 <= (- d) * (1 - eta)) by (apply Qmult_le_0_compat; lra).
    lra.
Qed.

(** C4, as the code has it.  In every solved cycle the outlet enthalpy is
    h2 = h1 + (h2_ideal - h1) / eta, with h2_ideal the lookup at
    (P2, s1).  For an efficiency in (0, 1], h2 >= h2_ideal when the
    isentropic compression raises the enthalpy (h2_ideal >= h1), and
    h2 <= h2_ideal when it lowers it; at efficiency 1, h2 is h2_ideal. *)
Theorem C4_entalpia_real : forall CP Ta Ti m eta dT r,
  simular_refrigerador CP Ta Ti m eta dT = Devuelve r ->
  exists h2_ideal,
    CP pH pP (st_P (states_2 r)) pS (st_s (states_1 r)) "R134a"%string
      = Some h2_ideal /\
    let h1 := st_h (states_1 r) in
    let h2 := st_h (states_2 r) in
    h2 = h1 + (h2_ideal - h1) / eta /\
    (0 < eta -> eta <= 1 -> h1 <= h2_ideal -> h2_ideal <= h2) /\
    (0 < eta -> eta <= 1 -> h2_ideal <= h1 -> h2 <= h2_ideal) /\
    (eta == 1 -> h2 == h2_ideal).
Proof.
  intros CP Ta Ti m eta dT r Hr.
  destruct (simular_Devuelve_inv _ _ _ _ _ _ _ Hr)
    as (h1 & s1 & P2 & h2i & s2 & h3 & T3 & P4 & x4 & s3 & s4 & T2 & Hx).
  cbv zeta in Hx.
  destruct Hx as (_ & _ & _ & E4 & Heta & _ & _ & _ & _ & _ & _ & _ & _ & _
                  & ->).
  exists h2i. simpl. split; [ exact E4 | ].
  split; [ reflexivity | ].
  split; [ | split ].
  - intros Hpos Hle Hd.
    destruct (dividir_por_eficiencia (h2i - h1) eta Hpos Hle) as [Hup _].
    assert (0 <= h2i - h1) as H0 by lra. specialize (Hup H0). lra.
  - intros Hpos Hle Hd.
    destruct (dividir_por_eficiencia (h2i - h1) eta Hpos Hle) as [_ Hdown].
    assert (h2i - h1 <= 0) as H0 by lra. specialize (Hdown H0). lra.
  - intros H1. rewrite H1. field.
Qed.

(** C4: the theorem on a solved cycle with a normal temperature lift and
    efficiency 0.75. *)
Lemma C4_entalpia_real_witness :
  exists r h2_ideal,
    simular_refrigerador Doble.CP 20 4 0.08 0.75 15 = Devuelve r /\
    Doble.CP pH pP (st_P (states_2 r)) pS (st_s (states_1 r)) "R134a"%string
      = Some h2_ideal /\
    st_h (states_1 r) <= h2_ideal /\
    h2_ideal <= st_h (states_2 r).
Proof.
  destruct (simular_refrigerador Doble.CP 20 4 0.08 0.75 15) as [r | e] eqn:Hr;
    [ | vm_compute in Hr; discriminate Hr ].
  destruct (C4_entalpia_real Doble.CP 20 4 0.08 0.75 15 r Hr)
    as (h2i & E & _ & Hup & _ & _).
  exists r, h2i. split; [ reflexivity | ]. split; [ exact E | ].
  assert (st_h (states_1 r) <= h2i) as Hd.
  { vm_compute in Hr. inversion Hr; subst r. vm_compute in E.
    inversion E; subst h2i. discriminate. }
  split; [ exact Hd | ].
  apply Hup; [ reflexivity | discriminate | exact Hd ].
Defined.

(** C4 fails as stated: at an inverted temperature lift (ambient -40 C,
    interior 4 C) with efficiency 0.75, which lies in (0, 1), the outlet
    enthalpy h2 is below h2_ideal. *)
Lemma C4_counterexample :
  exists r h2_ideal,
    0 < 0.75 /\ 0.75 < 1 /\
    simular_refrigerador Doble.CP (-40) 4 0.08 0.75 15 = Devuelve r /\
    Doble.CP pH pP (st_P (states_2 r)) pS (st_s (states_1 r)) "R134a"%string
      = Some h2_ideal /\
    st_h (states_2 r) < h2_ideal.
Proof.
  do 2 eexists.
  split; [ reflexivity | ]. split; [ reflexivity | ].
  split; [ vm_compute; reflexivity | ].
  split; [ vm_compute; reflexivity | reflexivity ].
Qed.

(* ------------------------------------------------------------------ *)
(** *** Evaporator-inlet quality *)

(** C8, as the code has it.  The solver resolves x4 at (P4, h4) with
    h4 = h3 and reports under [Calidad_Evap] exactly the value the lookup
    gave, in or out of [0, 1]: it is never clamped, and nothing is
    attached to the result to mark it. *)
Theorem C8_calidad_sin_recorte : forall CP Ta Ti m eta dT r,
  simular_refrigerador CP Ta Ti m eta dT = Devuelve r ->
  st_h (states_4 r) = st_h (states_3 r) /\
  CP pQ pP (st_P (states_4 r)) pH (st_h (states_4 r)) "R134a"%string
    = Some (Calidad_Evap (scalar r)) /\
  diagnosticos r = [].
Proof.
  intros CP Ta Ti m eta dT r Hr.
  destruct (simular_Devuelve_inv _ _ _ _ _ _ _ Hr)
    as (h1 & s1 & P2 & h2i & s2 & h3 & T3 & P4 & x4 & s3 & s4 & T2 & Hx).
  cbv zeta in Hx.
  destruct Hx as (_ & _ & _ & _ & _ & _ & _ & _ & _ & E & _ & _ & _ & _
                  & ->).
  split; [ reflexivity | ]. split; [ exact E | reflexivity ].
Qed.

(** C8: the theorem at an inverted temperature lift, where x4 is
    negative. *)
Lemma C8_calidad_sin_recorte_witness :
  exists r,
    simular_refrigerador Doble.CP (-40) 4 0.08 0.75 15 = Devuelve r /\
    Calidad_Evap (scalar r) < 0 /\
    Doble.CP pQ pP (st_P (states_4 r)) pH (st_h (states_4 r)) "R134a"%string
      = Some (Calidad_Evap (scalar r)).
Proof.
  destruct (simular_refrigerador Doble.CP (-40) 4 0.08 0.75 15)
    as [r | e] eqn:Hr; [ | vm_compute in Hr; discriminate Hr ].
  exists r. split; [ reflexivity | ]. split.
  - vm_compute in Hr. inversion Hr; subst r. reflexivity.
  - apply (C8_calidad_sin_recorte Doble.CP (-40) 4 0.08 0.75 15 r Hr).
Defined.

(** C8 fails as stated: at an inverted temperature lift x4 is negative, the
    result reports that value, and no anomaly is attached to it. *)
Lemma C8_counterexample :
  exists r,
    simular_refrigerador Doble.CP (-40) 4 0.08 0.75 15 = Devuelve r /\
    ~ (0 <= Calidad_Evap (scalar r) <= 1) /\
    ~ In AnomaliaCalidad (diagnosticos r).
Proof.
  eexists. split; [ vm_compute; reflexivity | ].
  split.
  - intros [H _]. apply H. reflexivity.
  - intros H; exact H.
Qed.

(* ================================================================== *)
(** * The operating state *)

Lemma Qltb_lt : forall x y, Qltb x y = true <-> x < y.
Proof.
  intros x y. unfold Qltb. rewrite negb_true_iff.
  split.
  - intros H. apply Qnot_le_lt. intros Hle.
    apply Qle_bool_iff in Hle. congruence.
  - intros H. destruct (Qle_bool y x) eqn:E; [ | reflexivity ].
    apply Qle_bool_iff in E. apply Qle_not_lt in E. contradiction.
Qed.

Lemma Qltb_ge : forall x y, Qltb x y = false <-> y <= x.
Proof.
  intros x y. unfold Qltb. rewrite negb_false_iff. apply Qle_bool_iff.
Qed.

(** C5.  The state is a function of the condenser delta and the COP alone:
    ALARMA when the delta exceeds 25 or the COP is below 2.0; otherwise
    ADVERTENCIA when the delta exceeds 20 or the COP is below 2.5;
    otherwise NORMAL.  The alarm test comes first, so an input that meets
    both tests is ALARMA; a delta of 30 with a COP of 1.8 is ALARMA. *)
Theorem C5_determinar_estado : forall delta_t_cond cop,
  (25 < delta_t_cond \/ cop < 2.0 ->
     determinar_estado delta_t_cond cop = ALARMA) /\
  (~ (25 < delta_t_cond \/ cop < 2.0) ->
   20 < delta_t_cond \/ cop < 2.5 ->
     determinar_estado delta_t_cond cop = ADVERTENCIA) /\
  (~ (25 < delta_t_cond \/ cop < 2.0) ->
   ~ (20 < delta_t_cond \/ cop < 2.5) ->
     determinar_estado delta_t_cond cop = NORMAL) /\
  ((25 < delta_t_cond \/ cop < 2.0) ->
   (20 < delta_t_cond \/ cop < 2.5) ->
     determinar_estado delta_t_cond cop = ALARMA) /\
  determinar_estado 30 1.8 = ALARMA.
Proof.
  intros dt c. unfold determinar_estado.
  destruct (Qltb 25 dt) eqn:A1; destruct (Qltb c 2.0) eqn:A2;
    destruct (Qltb 20 dt) eqn:W1; destruct (Qltb c 2.5) eqn:W2; simpl;
    repeat match goal with
    | H : Qltb _ _ = true |- _ => apply Qltb_lt in H
    | H : Qltb _ _ = false |- _ => apply Qltb_ge in H
    end;
    repeat split; intros; try reflexivity;
    try (exfalso; tauto);
    try (exfalso; lra);
    try (exfalso;
         repeat match goal with
         | H : ~ (_ \/ _) |- _ => apply Decidable.not_or in H; destruct H
         | H : _ \/ _ |- _ => destruct H
         end; lra).
Qed.

(** C5: the three outcomes on concrete inputs. *)
Lemma C5_determinar_estado_witness :
  determinar_estado 30 1.8 = ALARMA /\
  determinar_estado 22 3 = ADVERTENCIA /\
  determinar_estado 15 3 = NORMAL.
Proof.
  split; [ | split ].
  - apply (proj1 (C5_determinar_estado 30 1.8)). left. reflexivity.
  - apply (C5_determinar_estado 22 3).
    + intros [H | H]; discriminate H.
    + left. reflexivity.
  - apply (C5_determinar_estado 15 3).
    + intros [H | H]; discriminate H.
    + intros [H | H]; discriminate H.
Defined.

(* ================================================================== *)
(** * Properties of the telemetry generator *)

(** ** The random generator *)

Lemma random_flujos : forall g,
  uniformes (snd (random g)) = uniformes g /\
  normales (snd (random g)) = normales g.
Proof. intros g; split; reflexivity. Qed.

Lemma uniform_flujos : forall a b g,
  uniformes (snd (uniform a b g)) = uniformes g /\
  normales (snd (uniform a b g)) = normales g.
Proof. intros a b g; split; reflexivity. Qed.

Lemma gauss_flujos : forall mu sigma g,
  uniformes (snd (gauss mu sigma g)) = uniformes g /\
  normales (snd (gauss mu sigma g)) = normales g.
Proof. intros mu sigma g; split; reflexivity. Qed.

Lemma uniform_valor : forall a b g,
  fst (uniform a b g) = a + (b - a) * uniformes g (i_u g).
Proof. intros a b g; reflexivity. Qed.

(** A door event adds nothing, or something between 1 and 8. *)
Lemma apertura_no_negativa : forall g,
  uniformes_en_rango g ->
  0 <= fst (simular_evento_apertura_puerta g).
Proof.
  intros g Hg. unfold simular_evento_apertura_puerta, uniform, random.
  destruct (Hg (S (i_u g))) as [H0 H1].
  destruct (Qltb (uniformes g (i_u g)) 0.05);
    [ | destruct (Qltb (uniformes g (i_u g)) 0.20) ];
    cbn [fst snd uniformes normales i_u i_n]; lra.
Qed.

Lemma apertura_flujos : forall g,
  uniformes (snd (simular_evento_apertura_puerta g)) = uniformes g /\
  normales (snd (simular_evento_apertura_puerta g)) = normales g.
Proof.
  intros g. unfold simular_evento_apertura_puerta, uniform, random.
  destruct (Qltb (uniformes g (i_u g)) 0.05);
    [ | destruct (Qltb (uniformes g (i_u g)) 0.20) ];
    split; reflexivity.
Qed.

Lemma temperatura_flujos : forall hora dia g,
  uniformes (snd (calcular_temperatura_ambiente hora dia g)) = uniformes g /\
  normales (snd (calcular_temperatura_ambiente hora dia g)) = normales g.
Proof. intros hora dia g; split; reflexivity. Qed.

(** ** The clamp of the efficiency *)

Lemma clamp_inactivo : forall x,
  0.60 < x -> x < 0.85 -> py_max 0.60 (py_min 0.85 x) = x.
Proof.
  intros x Hlo Hhi. unfold py_min.
  destruct (Qltb x 0.85) eqn:E.
  - unfold py_max. destruct (Qltb 0.60 x) eqn:E'; [ reflexivity | ].
    apply Qltb_ge in E'. lra.
  - apply Qltb_ge in E. lra.
Qed.

(** ** The progress of the loops *)

Section Bucles.

Variable CP : proveedor.

Lemma avance_refl : forall e, avance CP e e [].
Proof.
  intros e. unfold avance. simpl. rewrite !app_nil_r.
  split; [ reflexivity | ].
  split; [ exists []; rewrite app_nil_r; split; [ reflexivity | constructor ]
         | auto ].
Qed.

Lemma avance_trans : forall e1 e2 e3 cs cs',
  avance CP e1 e2 cs -> avance CP e2 e3 cs' -> avance CP e1 e3 (cs ++ cs').
Proof.
  intros e1 e2 e3 cs cs' (L1 & (f1 & R1 & F1) & C1 & U1 & N1)
         (L2 & (f2 & R2 & F2) & C2 & U2 & N2).
  unfold avance.
  rewrite L2, L1, C2, C1, U2, U1, N2, N1.
  rewrite filter_app, flat_map_app, !app_assoc.
  split; [ reflexivity | ].
  split; [ | auto ].
  exists (f1 ++ f2). rewrite R2, R1, app_assoc.
  split; [ reflexivity | apply Forall2_app; assumption ].
Qed.

(** One pass through the body of the inner loop makes exactly one
    invocation, for the cell at hand, with the unit's configured interior
    temperature and mass flow; the [try] absorbs whatever the solve
    raises. *)
Lemma iteracion_equipo_avance : forall i fecha t e par,
  exists c,
    avance CP e (iteracion_equipo CP i fecha t e par) [c] /\
    celda_de_llamada c = (fecha, fst par) /\
    ll_T_ambiente_C c = t /\
    ll_T_interior_C c = t_interior (snd par) /\
    ll_Flujo_masico_kg_s c = flujo (snd par) /\
    (uniformes_en_rango (rng e) ->
       (exists u, 0 <= u /\ u < 1 /\
          ll_eta_isentropica c = 0.75 + (-0.03 + (0.02 - -0.03) * u)) /\
       0.72 <= ll_eta_isentropica c /\ ll_eta_isentropica c <= 0.77 /\
       15 <= ll_Delta_T_cond_C c).
Proof.
  intros i fecha t e [id params].
  unfold iteracion_equipo.
  pose proof (apertura_flujos (rng e)) as [Ua Na].
  pose proof (apertura_no_negativa (rng e)) as Hap.
  destruct (simular_evento_apertura_puerta (rng e)) as [apertura g1].
  simpl in Ua, Na, Hap.
  pose proof (uniform_flujos (-0.03) 0.02 g1) as [Uu Nu].
  pose proof (uniform_valor (-0.03) 0.02 g1) as Hv.
  destruct (uniform (-0.03) 0.02 g1) as [variacion_eta g2].
  simpl in Uu, Nu, Hv.
  match goal with
  | |- context [resolver CP ?c0] => set (c := c0)
  end.
  exists c.
  assert (Hav : avance CP e
            match resolver CP c with
            | Devuelve resultado =>
                let (ruido_interior, g3) := uniform (-0.5) 0.5 g2 in
                mk_ejecucion g3
                  (registros e ++
                   [mk_registro fecha id t
                      (round (t_interior params + ruido_interior) 1)
                      (round (ll_Delta_T_cond_C c) 1)
                      (round (ll_eta_isentropica c) 3)
                      (round (COP (scalar resultado)) 2)
                      (round (Temp_Descarga_C (scalar resultado)) 1)
                      (round (Trabajo_Compresor_kW (scalar resultado)) 3)
                      (round (Calor_Extraido_kW (scalar resultado)) 3)
                      (round (Calidad_Evap (scalar resultado)) 3)
                      (determinar_estado (ll_Delta_T_cond_C c)
                                         (COP (scalar resultado)))])
                  (consola e) (llamadas e ++ [c])
            | Lanza ex =>
                mk_ejecucion g2 (registros e)
                  (consola e ++ [mk_mensaje id fecha ex]) (llamadas e ++ [c])
            end [c]).
  { unfold avance. simpl filter. simpl flat_map.
    unfold resuelta, mensaje_de.
    destruct (resolver CP c) as [res | ex] eqn:Eres.
    - pose proof (uniform_flujos (-0.5) 0.5 g2) as [U3 N3].
      destruct (uniform (-0.5) 0.5 g2) as [ruido g3]. simpl in U3, N3.
      cbn [llamadas registros consola rng]. rewrite !app_nil_r.
      split; [ reflexivity | ].
      split; [ | repeat split; congruence ].
      eexists. split; [ reflexivity | ].
      constructor; [ | constructor ].
      exists res. split; [ exact Eres | ].
      repeat split; reflexivity.
    - cbn [llamadas registros consola rng]. rewrite !app_nil_r.
      split; [ reflexivity | ].
      split; [ | repeat split; congruence ].
      exists []. rewrite app_nil_r. split; [ reflexivity | constructor ]. }
  split; [ exact Hav | ].
  repeat (split; [ reflexivity | ]).
  intros Hg.
  assert (Hg1 : uniformes_en_rango g1).
  { intros n. rewrite Ua. apply Hg. }
  destruct (Hg1 (i_u g1)) as [H0 H1].
  assert (Heta : ll_eta_isentropica c = 0.75 + variacion_eta).
  { unfold c. cbn [ll_eta_isentropica].
    apply clamp_inactivo; rewrite Hv; lra. }
  split; [ exists (uniformes g1 (i_u g1)); rewrite Heta, Hv; auto | ].
  rewrite Heta, Hv. split; [ lra | ]. split; [ lra | ].
  specialize (Hap Hg).
  unfold c. cbn [ll_Delta_T_cond_C].
  destruct (DIAS_SIMULACION - i / 24 <=? 2)%Z eqn:Ed; [ | lra ].
  apply Z.leb_le in Ed.
  assert (0 <= inject_Z (2 - (DIAS_SIMULACION - i / 24))) as Hf.
  { change 0 with (inject_Z 0). rewrite <- Zle_Qle. lia. }
  set (k := inject_Z (2 - (DIAS_SIMULACION - i / 24))) in *.
  assert (0 <= (15 + apertura) * (k * 0.7)) as Hp
    by (apply Qmult_le_0_compat; [ lra | apply Qmult_le_0_compat; lra ]).
  lra.
Qed.

End Bucles.

Lemma flujo_configurado : forall par,
  In par EQUIPOS -> flujo (snd par) = 0.08 \/ flujo (snd par) = 0.12.
Proof.
  intros par H. simpl in H.
  destruct H as [<- | [<- | [<- | []]]]; simpl; auto.
Qed.

Lemma desenlace_unico : forall CP cs,
  (List.length (filter (resuelta CP) cs)
   + List.length (flat_map (mensaje_de CP) cs))%nat = List.length cs.
Proof.
  intros CP cs. induction cs as [ | c cs IH]; [ reflexivity | ].
  simpl. unfold resuelta at 1, mensaje_de at 1.
  destruct (resolver CP c); simpl; rewrite <- IH; lia.
Qed.

Lemma length_flat_map_const : forall (A B : Type) (f : A -> list B) l k,
  (forall a, List.length (f a) = k) ->
  List.length (flat_map f l) = (k * List.length l)%nat.
Proof.
  intros A B f l k Hf. induction l as [ | a l IH]; simpl.
  - lia.
  - rewrite length_app, Hf, IH. lia.
Qed.

Lemma longitud_rejilla : forall ahora,
  List.length (rejilla ahora) = 504%nat.
Proof.
  intros ahora. unfold rejilla.
  rewrite (length_flat_map_const _ _ _ _ 3%nat).
  - vm_compute. reflexivity.
  - intros i. rewrite length_map. reflexivity.
Qed.

Section Recorrido.

Variable CP : proveedor.

(** The inner loop over a list of units. *)
Lemma bucle_equipos_avance : forall i fecha t l e,
  exists cs,
    avance CP e (fold_left (iteracion_equipo CP i fecha t) l e) cs /\
    map celda_de_llamada cs
      = map (fun par : string * equipo => (fecha, fst par)) l /\
    (uniformes_en_rango (rng e) -> incl l EQUIPOS ->
       Forall parametros_nominales cs).
Proof.
  intros i fecha t l. induction l as [ | par l IH]; intros e.
  - exists []. split; [ apply avance_refl | ]. split; [ reflexivity | ].
    intros _ _. constructor.
  - simpl fold_left.
    destruct (iteracion_equipo_avance CP i fecha t e par)
      as (c & Hav & Hcel & _ & _ & Hfl & Hnom).
    destruct (IH (iteracion_equipo CP i fecha t e par))
      as (cs & Hav' & Hcel' & Hnom').
    exists ([c] ++ cs).
    split; [ eapply avance_trans; eassumption | ].
    split; [ simpl; rewrite Hcel, Hcel'; reflexivity | ].
    intros Hg Hincl.
    assert (Hpar : In par EQUIPOS) by (apply Hincl; left; reflexivity).
    constructor.
    + destruct (Hnom Hg) as (Hu & Hlo & Hhi & Hdt).
      unfold parametros_nominales. rewrite Hfl.
      split; [ apply flujo_configurado; exact Hpar | auto ].
    + apply Hnom'.
      * destruct Hav as (_ & _ & _ & HU & _).
        intros n. rewrite HU. apply Hg.
      * intros x Hx. apply Hincl. right. exact Hx.
Qed.

(** One tick: the ambient temperature is drawn, then every unit is
    visited. *)
Lemma iteracion_tick_avance : forall fecha_inicio e i,
  exists cs,
    avance CP e (iteracion_tick CP fecha_inicio e i) cs /\
    map celda_de_llamada cs
      = map (fun par : string * equipo =>
               (mas_horas fecha_inicio (i * FRECUENCIA_HORAS), fst par))
            EQUIPOS /\
    (uniformes_en_rango (rng e) -> Forall parametros_nominales cs).
Proof.
  intros fecha_inicio e i. unfold iteracion_tick.
  set (fecha := mas_horas fecha_inicio (i * FRECUENCIA_HORAS)).
  pose proof (temperatura_flujos (hour fecha) (tm_yday fecha) (rng e))
    as [Ut Nt].
  destruct (calcular_temperatura_ambiente (hour fecha) (tm_yday fecha) (rng e))
    as [t g1].
  simpl in Ut, Nt.
  set (e0 := mk_ejecucion g1 (registros e) (consola e) (llamadas e)).
  assert (H0 : avance CP e e0 []).
  { unfold avance, e0. simpl. rewrite !app_nil_r.
    split; [ reflexivity | ].
    split; [ exists []; rewrite app_nil_r; split;
             [ reflexivity | constructor ] | auto ]. }
  destruct (bucle_equipos_avance i fecha t EQUIPOS e0)
    as (cs & Hav & Hcel & Hnom).
  exists cs.
  split; [ apply (avance_trans CP e e0 _ [] cs H0 Hav) | ].
  split; [ exact Hcel | ].
  intros Hg. apply Hnom.
  - intros n. unfold e0. simpl. rewrite Ut. apply Hg.
  - apply incl_refl.
Qed.

(** The outer loop over a list of ticks. *)
Lemma bucle_ticks_avance : forall fecha_inicio l e,
  exists cs,
    avance CP e (fold_left (iteracion_tick CP fecha_inicio) l e) cs /\
    map celda_de_llamada cs
      = flat_map
          (fun i =>
             map (fun par : string * equipo =>
                    (mas_horas fecha_inicio (i * FRECUENCIA_HORAS), fst par))
                 EQUIPOS) l /\
    (uniformes_en_rango (rng e) -> Forall parametros_nominales cs).
Proof.
  intros fecha_inicio l. induction l as [ | i l IH]; intros e.
  - exists []. split; [ apply avance_refl | ]. split; [ reflexivity | ].
    intros _. constructor.
  - simpl fold_left.
    destruct (iteracion_tick_avance fecha_inicio e i)
      as (cs1 & Hav1 & Hcel1 & Hnom1).
    destruct (IH (iteracion_tick CP fecha_inicio e i))
      as (cs2 & Hav2 & Hcel2 & Hnom2).
    exists (cs1 ++ cs2).
    split; [ eapply avance_trans; eassumption | ].
    split; [ simpl flat_map; rewrite map_app, Hcel1, Hcel2; reflexivity | ].
    intros Hg. apply Forall_app. split; [ apply Hnom1; exact Hg | ].
    apply Hnom2.
    destruct Hav1 as (_ & _ & _ & HU & _).
    intros n. rewrite HU. apply Hg.
Qed.

(** The whole run, from the empty lists. *)
Lemma generar_datos_avance : forall g ahora,
  let e := generar_datos CP g ahora in
  map celda_de_llamada (llamadas e) = rejilla ahora /\
  Forall2 (fila_de CP) (filter (resuelta CP) (llamadas e)) (registros e) /\
  consola e = flat_map (mensaje_de CP) (llamadas e) /\
  (uniformes_en_rango g -> Forall parametros_nominales (llamadas e)).
Proof.
  intros g ahora. unfold generar_datos.
  set (fecha_inicio := menos_dias ahora DIAS_SIMULACION).
  set (total := (DIAS_SIMULACION * 24 / FRECUENCIA_HORAS)%Z).
  destruct (bucle_ticks_avance fecha_inicio (range total)
              (mk_ejecucion g [] [] []))
    as (cs & (HL & (filas & HR & HF) & HC & _ & _) & Hcel & Hnom).
  cbv zeta.
  set (ef := fold_left (iteracion_tick CP fecha_inicio) (range total)
               (mk_ejecucion g [] [] [])) in *.
  clearbody ef.
  cbn [llamadas registros consola map app] in HL, HR, HC.
  rewrite HL, HR, HC.
  split; [ exact Hcel | ]. split; [ exact HF | ].
  split; [ reflexivity | exact Hnom ].
Qed.

End Recorrido.

(* ------------------------------------------------------------------ *)
(** *** Solver failures inside the generator *)

Lemma fila_de_celda : forall CP cs filas,
  Forall2 (fila_de CP) cs filas ->
  map celda_de_registro filas = map celda_de_llamada cs.
Proof.
  intros CP cs filas H. induction H as [ | c r cs filas Hcr _ IH].
  - reflexivity.
  - simpl. rewrite IH. destruct Hcr as (res & _ & -> & _). reflexivity.
Qed.

(** C9.  The generator invokes the solver once for every cell of the
    grid, tick by tick and unit by unit, whatever the earlier solves
    did.  A solve that raises -- any exception -- is caught in its own
    cell: one message with the unit, the tick's date and the exception is
    printed and no row is added for that cell.  A solve that returns adds
    the row built from its result.  The run always ends with the rows of
    the cells that solved, in grid order: 504 cells, each accounted for
    by a row or by a message. *)
Theorem C9_fallo_por_celda : forall CP g ahora,
  let e := generar_datos CP g ahora in
  map celda_de_llamada (llamadas e) = rejilla ahora /\
  Forall2 (fila_de CP) (filter (resuelta CP) (llamadas e)) (registros e) /\
  map celda_de_registro (registros e)
    = map celda_de_llamada (filter (resuelta CP) (llamadas e)) /\
  consola e = flat_map (mensaje_de CP) (llamadas e) /\
  List.length (llamadas e) = 504%nat /\
  (List.length (registros e) + List.length (consola e))%nat = 504%nat.
Proof.
  intros CP g ahora e.
  destruct (generar_datos_avance CP g ahora) as (Hcel & HF & HC & _).
  fold e in Hcel, HF, HC.
  assert (Hlen : List.length (llamadas e) = 504%nat).
  { rewrite <- (length_map celda_de_llamada), Hcel.
    apply longitud_rejilla. }
  split; [ exact Hcel | ]. split; [ exact HF | ].
  split; [ apply (fila_de_celda CP); exact HF | ].
  split; [ exact HC | ].
  split; [ exact Hlen | ].
  rewrite <- (Forall2_length HF), HC.
  rewrite desenlace_unico. exact Hlen.
Qed.

(** A run in which the backend fails above 300 K: the 70 cells whose
    solve raised are reported and left out, the other 434 have their
    row. *)
Lemma generar_datos_parcial :
  let e := generar_datos (Doble.CP_con_techo 300) Prueba.azar_a
             Prueba.reloj_a in
  List.length (registros e) = 434%nat /\
  map m_excepcion (consola e) = repeat ValueError 70.
Proof.
  cbv zeta. split; vm_compute; reflexivity.
Qed.

(* ------------------------------------------------------------------ *)
(** *** What the generator passes to the solver *)

Lemma fraccion_en_rango : forall z,
  0 <= inject_Z (z mod 100) / 100 /\ inject_Z (z mod 100) / 100 < 1.
Proof.
  intros z.
  pose proof (Z.mod_pos_bound z 100 eq_refl) as [Hlo Hhi].
  split.
  - apply Qle_shift_div_l; [ reflexivity | ].
    rewrite Qmult_0_l. change 0 with (inject_Z 0). rewrite <- Zle_Qle.
    exact Hlo.
  - apply Qlt_shift_div_r; [ reflexivity | ].
    rewrite Qmult_1_l. change 100 with (inject_Z 100). rewrite <- Zlt_Qlt.
    exact Hhi.
Qed.

Lemma azar_a_en_rango : uniformes_en_rango Prueba.azar_a.
Proof.
  intros n. unfold Prueba.azar_a, Prueba.uniformes_a.
  cbn [uniformes]. apply fraccion_en_rango.
Qed.

(** C10.  Whenever the random generator hands out uniform draws of
    [0, 1), every parameter set the generator passes to the solver has one
    of the two configured mass flows (0.08 or 0.12 kg/s), an efficiency
    equal to 0.75 plus a jitter of [-0.03, 0.02) -- so within
    [0.72, 0.77], the clamp to [0.60, 0.85] never binding -- and a
    condenser delta of at least 15. *)
Theorem C10_parametros_nominales : forall CP g ahora,
  uniformes_en_rango g ->
  Forall parametros_nominales (llamadas (generar_datos CP g ahora)).
Proof.
  intros CP g ahora Hg.
  apply (generar_datos_avance CP g ahora). exact Hg.
Qed.

(** C10: the theorem on a run of the whole grid. *)
Lemma C10_parametros_nominales_witness :
  Forall parametros_nominales
    (llamadas (generar_datos Doble.CP Prueba.azar_a Prueba.reloj_a)).
Proof.
  apply (C10_parametros_nominales Doble.CP Prueba.azar_a Prueba.reloj_a).
  exact azar_a_en_rango.
Defined.

(* ================================================================== *)
(** * Further properties *)

(** ** Rounding *)

Lemma entero_mas_cercano_comp : forall x y,
  x == y -> entero_mas_cercano x = entero_mas_cercano y.
Proof.
  intros x y H. unfold entero_mas_cercano.
  rewrite (Qfloor_comp _ _ H).
  assert (Hc : Qcompare (x - inject_Z (Qfloor y)) (1 # 2)
               = Qcompare (y - inject_Z (Qfloor y)) (1 # 2)).
  { apply Qcompare_comp; [ rewrite H; reflexivity | reflexivity ]. }
  rewrite Hc. reflexivity.
Qed.

Lemma entero_mas_cercano_cotas : forall x,
  (Qfloor x <= entero_mas_cercano x <= Qfloor x + 1)%Z.
Proof.
  intros x. unfold entero_mas_cercano.
  destruct (Qcompare (x - inject_Z (Qfloor x)) (1 # 2));
    try destruct (Z.even (Qfloor x)); lia.
Qed.

Lemma entero_mas_cercano_error : forall x,
  x - (1 # 2) <= inject_Z (entero_mas_cercano x) /\
  inject_Z (entero_mas_cercano x) <= x + (1 # 2).
Proof.
  intros x. unfold entero_mas_cercano.
  pose proof (Qfloor_le x) as Hlo. pose proof (Qlt_floor x) as Hhi.
  rewrite inject_Z_plus in Hhi. change (inject_Z 1) with 1 in Hhi.
  destruct (Qcompare (x - inject_Z (Qfloor x)) (1 # 2)) eqn:E.
  - apply Qeq_alt in E.
    destruct (Z.even (Qfloor x)); [ | rewrite inject_Z_plus; change (inject_Z 1) with 1 ];
      split; lra.
  - apply Qlt_alt in E. split; lra.
  - apply Qgt_alt in E. rewrite inject_Z_plus. change (inject_Z 1) with 1.
    split; lra.
Qed.

Lemma entero_mas_cercano_monotono : forall x y,
  x <= y -> (entero_mas_cercano x <= entero_mas_cercano y)%Z.
Proof.
  intros x y H.
  pose proof (Qfloor_resp_le _ _ H) as Hf.
  pose proof (entero_mas_cercano_cotas x) as Hx.
  pose proof (entero_mas_cercano_cotas y) as Hy.
  destruct (Z.eq_dec (Qfloor x) (Qfloor y)) as [Heq | Hne]; [ | lia ].
  unfold entero_mas_cercano. rewrite <- Heq.
  destruct (Qcompare (x - inject_Z (Qfloor x)) (1 # 2)) eqn:Ex;
    destruct (Qcompare (y - inject_Z (Qfloor x)) (1 # 2)) eqn:Ey;
    try destruct (Z.even (Qfloor x)); try lia;
    repeat match goal with
    | E : Qcompare _ _ = Eq |- _ => apply Qeq_alt in E
    | E : Qcompare _ _ = Lt |- _ => apply Qlt_alt in E
    | E : Qcompare _ _ = Gt |- _ => apply Qgt_alt in E
    end; exfalso; lra.
Qed.

Lemma entero_mas_cercano_entero : forall k,
  entero_mas_cercano (inject_Z k) = k.
Proof.
  intros k. unfold entero_mas_cercano. rewrite Qfloor_Z.
  assert (E : Qcompare (inject_Z k - inject_Z k) (1 # 2) = Lt).
  { apply (proj1 (Qlt_alt _ _)). lra. }
  rewrite E. reflexivity.
Qed.

Lemma escala_positiva : forall n : nat, 0 < inject_Z (10 ^ Z.of_nat n).
Proof.
  intros n. change 0 with (inject_Z 0). rewrite <- Zlt_Qlt.
  apply Z.pow_pos_nonneg; lia.
Qed.

Lemma round_monotono : forall x y n, x <= y -> round x n <= round y n.
Proof.
  intros x y n H. unfold round.
  pose proof (escala_positiva n) as Hs.
  set (s := inject_Z (10 ^ Z.of_nat n)) in *.
  apply Qmult_le_r with (z := s); [ exact Hs | ].
  assert (Hne : ~ s == 0) by lra.
  setoid_replace (inject_Z (entero_mas_cercano (x * s)) / s * s)
    with (inject_Z (entero_mas_cercano (x * s))) by (field; exact Hne).
  setoid_replace (inject_Z (entero_mas_cercano (y * s)) / s * s)
    with (inject_Z (entero_mas_cercano (y * s))) by (field; exact Hne).
  rewrite <- Zle_Qle. apply entero_mas_cercano_monotono.
  apply Qmult_le_r; assumption.
Qed.

Lemma round_exacto : forall k n,
  round (inject_Z k / inject_Z (10 ^ Z.of_nat n)) n
  == inject_Z k / inject_Z (10 ^ Z.of_nat n).
Proof.
  intros k n. unfold round.
  pose proof (escala_positiva n) as Hs.
  set (s := inject_Z (10 ^ Z.of_nat n)) in *.
  assert (Hne : ~ s == 0) by lra.
  rewrite (entero_mas_cercano_comp (inject_Z k / s * s) (inject_Z k))
    by (field; exact Hne).
  rewrite entero_mas_cercano_entero. reflexivity.
Qed.

Lemma round_error : forall x n,
  x - (1 # 2) / inject_Z (10 ^ Z.of_nat n) <= round x n /\
  round x n <= x + (1 # 2) / inject_Z (10 ^ Z.of_nat n).
Proof.
  intros x n. unfold round.
  pose proof (escala_positiva n) as Hs.
  set (s := inject_Z (10 ^ Z.of_nat n)) in *.
  assert (Hne : ~ s == 0) by lra.
  destruct (entero_mas_cercano_error (x * s)) as [Hlo Hhi].
  split.
  - apply Qle_shift_div_l; [ exact Hs | ].
    setoid_replace ((x - (1 # 2) / s) * s) with (x * s - (1 # 2))
      by (field; exact Hne). exact Hlo.
  - apply Qle_shift_div_r; [ exact Hs | ].
    setoid_replace ((x + (1 # 2) / s) * s) with (x * s + (1 # 2))
      by (field; exact Hne). exact Hhi.
Qed.

(** ** More on the cycle solver *)

(** The converse of [simular_Devuelve_inv]: when every lookup of the
    pipeline resolves and neither divisor is zero, the solve returns the
    dictionary built from the values looked up. *)
Lemma simular_Devuelve_intro :
  forall CP Ta Ti m eta dT h1 s1 P2 h2_ideal s2 h3 T3 P4 x4 s3 s4 T2,
    let f := "R134a"%string in
    let h2 := h1 + (h2_ideal - h1) / eta in
    let W := m * (h2 - h1) in
    let Qe := m * (h1 - h3) in
    CP pH pT (Ti + 273.15) pQ 1 f = Some h1 ->
    CP pS pT (Ti + 273.15) pQ 1 f = Some s1 ->
    CP pP pT (Ta + 273.15 + dT) pQ 0 f = Some P2 ->
    CP pH pP P2 pS s1 f = Some h2_ideal ->
    ~ eta == 0 ->
    CP pS pP P2 pH h2 f = Some s2 ->
    CP pH pP P2 pQ 0 f = Some h3 ->
    CP pT pP P2 pQ 0 f = Some T3 ->
    CP pP pT (Ti + 273.15) pQ 1 f = Some P4 ->
    CP pQ pP P4 pH h3 f = Some x4 ->
    ~ W == 0 ->
    CP pS pP P2 pQ 0 f = Some s3 ->
    CP pS pP P4 pH h3 f = Some s4 ->
    CP pT pH h2 pP P2 f = Some T2 ->
    simular_refrigerador CP Ta Ti m eta dT
    = Devuelve
        (mk_resultados
           (mk_escalares (W / 1000) (Qe / 1000) (Qe / W) x4 (T2 - 273.15) m)
           (mk_estado P4 (Ti + 273.15) h1 s1 "Entrada Compresor")
           (mk_estado P2 T2 h2 s2 "Entrada Condensador")
           (mk_estado P2 T3 h3 s3 "Salida Condensador")
           (mk_estado P4 (Ti + 273.15) h3 s4 "Entrada Evaporador")).
Proof.
  intros CP Ta Ti m eta dT h1 s1 P2 h2i s2 h3 T3 P4 x4 s3 s4 T2 f h2 W Qe
         E1 E2 E3 E4 Heta E5 E6 E7 E8 E9 HW E10 E11 E12.
  unfold simular_refrigerador; cbv zeta.
  apply PropsSI_Devuelve in E1, E2, E3, E4, E5, E6, E7, E8, E9, E10, E11, E12.
  fold f. rewrite E1; simpl ligar. rewrite E2; simpl ligar.
  rewrite E3; simpl ligar. rewrite E4; simpl ligar.
  rewrite (proj2 (dividir_Devuelve (h2i - h1) eta _) (conj Heta eq_refl)).
  simpl ligar. fold h2. rewrite E5; simpl ligar.
  rewrite E6; simpl ligar. rewrite E7; simpl ligar.
  rewrite E8; simpl ligar. rewrite E9; simpl ligar.
  fold W. fold Qe.
  rewrite (proj2 (dividir_Devuelve Qe W _) (conj HW eq_refl)).
  simpl ligar. rewrite E12; simpl ligar.
  rewrite E10; simpl ligar. rewrite E11; simpl ligar.
  reflexivity.
Qed.

Lemma producto_no_nulo : forall a b : Q,
  ~ a * b == 0 -> ~ a == 0 /\ ~ b == 0.
Proof.
  intros a b H. split; intros E; apply H; rewrite E; ring.
Qed.

Lemma incremento_no_nulo : forall h1 h2i eta : Q,
  ~ h1 + (h2i - h1) / eta - h1 == 0 -> ~ h2i - h1 == 0.
Proof.
  intros h1 h2i eta H E. apply H.
  setoid_replace (h1 + (h2i - h1) / eta - h1) with ((h2i - h1) / eta) by ring.
  rewrite E. unfold Qdiv. ring.
Qed.

(** X1.  The COP does not depend on the mass flow.  If a solve returns for
    one mass flow, it returns for every other non-zero mass flow with the
    same four states, quality and discharge temperature and the same COP;
    compressor work and evaporator heat are proportional to the mass
    flow. *)
Theorem X1_escala_con_el_flujo : forall CP Ta Ti m m' eta dT r,
  simular_refrigerador CP Ta Ti m eta dT = Devuelve r ->
  ~ m' == 0 ->
  exists r',
    simular_refrigerador CP Ta Ti m' eta dT = Devuelve r' /\
    states_1 r' = states_1 r /\ states_2 r' = states_2 r /\
    states_3 r' = states_3 r /\ states_4 r' = states_4 r /\
    Calidad_Evap (scalar r') = Calidad_Evap (scalar r) /\
    Temp_Descarga_C (scalar r') = Temp_Descarga_C (scalar r) /\
    COP (scalar r') == COP (scalar r) /\
    Trabajo_Compresor_kW (scalar r') * m
      == Trabajo_Compresor_kW (scalar r) * m' /\
    Calor_Extraido_kW (scalar r') * m
      == Calor_Extraido_kW (scalar r) * m'.
Proof.
  intros CP Ta Ti m m' eta dT r Hr Hm'.
  destruct (simular_Devuelve_inv _ _ _ _ _ _ _ Hr)
    as (h1 & s1 & P2 & h2i & s2 & h3 & T3 & P4 & x4 & s3 & s4 & T2 & Hx).
  cbv zeta in Hx.
  destruct Hx as (E1 & E2 & E3 & E4 & Heta & E5 & E6 & E7 & E8 & E9 & HW
                  & E10 & E11 & E12 & ->).
  destruct (producto_no_nulo _ _ HW) as [Hm Hd].
  assert (HW' : ~ m' * (h1 + (h2i - h1) / eta - h1) == 0).
  { intros E. apply Qmult_integral in E. tauto. }
  eexists. split.
  - apply (simular_Devuelve_intro CP Ta Ti m' eta dT h1 s1 P2 h2i s2 h3 T3 P4
             x4 s3 s4 T2); assumption.
  - simpl. repeat (split; [ reflexivity | ]).
    set (d := h1 + (h2i - h1) / eta - h1) in *.
    split; [ field; auto | ]. split; field.
Qed.

(** X1: from the solve at 0.08 kg/s to the one at 0.12 kg/s. *)
Lemma X1_escala_con_el_flujo_witness :
  exists r r',
    simular_refrigerador Doble.CP 20 4 0.08 0.75 15 = Devuelve r /\
    simular_refrigerador Doble.CP 20 4 0.12 0.75 15 = Devuelve r' /\
    COP (scalar r') == COP (scalar r).
Proof.
  destruct (simular_refrigerador Doble.CP 20 4 0.08 0.75 15) as [r | e] eqn:Hr;
    [ | vm_compute in Hr; discriminate Hr ].
  destruct (X1_escala_con_el_flujo Doble.CP 20 4 0.08 0.12 0.75 15 r Hr)
    as (r' & Hr' & _ & _ & _ & _ & _ & _ & Hcop & _).
  - intros E; discriminate E.
  - exists r, r'. auto.
Defined.

(** X2.  The isentropic efficiency acts on the work alone.  When the
    solve returns both at efficiency [eta] and at efficiency 1 (the ideal
    cycle between the same temperatures), the evaporator heat is the same,
    the real work is the ideal work divided by [eta], and the real COP is
    [eta] times the ideal COP. *)
Theorem X2_cop_proporcional_a_eta : forall CP Ta Ti m eta dT r r1,
  simular_refrigerador CP Ta Ti m eta dT = Devuelve r ->
  simular_refrigerador CP Ta Ti m 1 dT = Devuelve r1 ->
  Calor_Extraido_kW (scalar r) = Calor_Extraido_kW (scalar r1) /\
  Trabajo_Compresor_kW (scalar r) * eta == Trabajo_Compresor_kW (scalar r1) /\
  COP (scalar r) == eta * COP (scalar r1).
Proof.
  intros CP Ta Ti m eta dT r r1 Hr Hr1.
  destruct (simular_Devuelve_inv _ _ _ _ _ _ _ Hr)
    as (h1 & s1 & P2 & h2i & s2 & h3 & T3 & P4 & x4 & s3 & s4 & T2 & Hx).
  destruct (simular_Devuelve_inv _ _ _ _ _ _ _ Hr1)
    as (h1' & s1' & P2' & h2i' & s2' & h3' & T3' & P4' & x4' & s3' & s4'
        & T2' & Hx').
  cbv zeta in Hx, Hx'.
  destruct Hx as (E1 & E2 & E3 & E4 & Heta & _ & E6 & _ & _ & _ & HW
                  & _ & _ & _ & ->).
  destruct Hx' as (E1' & E2' & E3' & E4' & _ & _ & E6' & _ & _ & _ & HW'
                  & _ & _ & _ & ->).
  assert (h1' = h1) by congruence. subst h1'.
  assert (s1' = s1) by congruence. subst s1'.
  assert (P2' = P2) by congruence. subst P2'.
  assert (h2i' = h2i) by congruence. subst h2i'.
  assert (h3' = h3) by congruence. subst h3'.
  destruct (producto_no_nulo _ _ HW) as [Hm Hd].
  apply incremento_no_nulo in Hd.
  assert (Hd' : ~ h1 + (h2i - h1) - h1 == 0).
  { intros E. apply Hd. rewrite <- E. ring. }
  simpl. split; [ reflexivity | ]. split; field; auto.
Qed.

(** X2: the solve at efficiency 0.75 against the ideal one. *)
Lemma X2_cop_proporcional_a_eta_witness :
  exists r r1,
    simular_refrigerador Doble.CP 20 4 0.08 0.75 15 = Devuelve r /\
    simular_refrigerador Doble.CP 20 4 0.08 1 15 = Devuelve r1 /\
    COP (scalar r) == 0.75 * COP (scalar r1).
Proof.
  destruct (simular_refrigerador Doble.CP 20 4 0.08 0.75 15) as [r | e] eqn:Hr;
    [ | vm_compute in Hr; discriminate Hr ].
  destruct (simular_refrigerador Doble.CP 20 4 0.08 1 15) as [r1 | e] eqn:Hr1;
    [ | vm_compute in Hr1; discriminate Hr1 ].
  exists r, r1. split; [ reflexivity | ]. split; [ reflexivity | ].
  apply (X2_cop_proporcional_a_eta Doble.CP 20 4 0.08 0.75 15 r r1 Hr Hr1).
Defined.

(** X4.  Every state of a returned result is a state of the backend.
    States 1 and 4 sit at the interior temperature and its saturation
    pressure, states 2 and 3 at the saturation pressure of the condensing
    temperature (ambient plus condenser delta).  The enthalpy and entropy
    of state 1 are those of the saturated vapor, the enthalpy, entropy
    and temperature of state 3 those of the saturated liquid, the entropy
    of state 4 the one at (P4, h4).  The temperature of state 2 is the one
    looked up at (h2, P2) -- not the condensing temperature -- and the
    discharge temperature reported in Celsius is that value minus
    273.15. *)
Theorem X4_estados_del_proveedor : forall CP Ta Ti m eta dT r,
  simular_refrigerador CP Ta Ti m eta dT = Devuelve r ->
  let f := "R134a"%string in
  st_T (states_1 r) = Ti + 273.15 /\
  st_T (states_4 r) = Ti + 273.15 /\
  st_P (states_4 r) = st_P (states_1 r) /\
  st_P (states_3 r) = st_P (states_2 r) /\
  CP pP pT (Ti + 273.15) pQ 1 f = Some (st_P (states_1 r)) /\
  CP pH pT (Ti + 273.15) pQ 1 f = Some (st_h (states_1 r)) /\
  CP pS pT (Ti + 273.15) pQ 1 f = Some (st_s (states_1 r)) /\
  CP pP pT (Ta + 273.15 + dT) pQ 0 f = Some (st_P (states_2 r)) /\
  CP pT pH (st_h (states_2 r)) pP (st_P (states_2 r)) f
    = Some (st_T (states_2 r)) /\
  Temp_Descarga_C (scalar r) = st_T (states_2 r) - 273.15 /\
  CP pH pP (st_P (states_3 r)) pQ 0 f = Some (st_h (states_3 r)) /\
  CP pT pP (st_P (states_3 r)) pQ 0 f = Some (st_T (states_3 r)) /\
  CP pS pP (st_P (states_3 r)) pQ 0 f = Some (st_s (states_3 r)) /\
  CP pS pP (st_P (states_4 r)) pH (st_h (states_4 r)) f
    = Some (st_s (states_4 r)).
Proof.
  intros CP Ta Ti m eta dT r Hr.
  destruct (simular_Devuelve_inv _ _ _ _ _ _ _ Hr)
    as (h1 & s1 & P2 & h2i & s2 & h3 & T3 & P4 & x4 & s3 & s4 & T2 & Hx).
  cbv zeta in Hx.
  destruct Hx as (E1 & E2 & E3 & E4 & Heta & E5 & E6 & E7 & E8 & E9 & HW
                  & E10 & E11 & E12 & ->).
  cbv zeta. simpl.
  repeat (split; [ first [ reflexivity | assumption ] | ]).
  assumption.
Qed.

(** X4: the states of a solved cycle. *)
Lemma X4_estados_del_proveedor_witness :
  exists r,
    simular_refrigerador Doble.CP 20 4 0.08 0.75 15 = Devuelve r /\
    Temp_Descarga_C (scalar r) = st_T (states_2 r) - 273.15 /\
    st_P (states_3 r) = st_P (states_2 r).
Proof.
  destruct (simular_refrigerador Doble.CP 20 4 0.08 0.75 15) as [r | e] eqn:Hr;
    [ | vm_compute in Hr; discriminate Hr ].
  exists r. split; [ reflexivity | ].
  pose proof (X4_estados_del_proveedor Doble.CP 20 4 0.08 0.75 15 r Hr) as H.
  cbv zeta in H. tauto.
Defined.

(** Linear arithmetic over the rationals, with the divisions by constants
    turned into products first. *)
Ltac qlra :=
  unfold Qdiv in *;
  repeat match goal with
  | |- context [Qinv (Qmake ?n ?d)] =>
      let v := eval compute in (Qinv (Qmake n d)) in
      change (Qinv (Qmake n d)) with v
  | H : context [Qinv (Qmake ?n ?d)] |- _ =>
      let v := eval compute in (Qinv (Qmake n d)) in
      change (Qinv (Qmake n d)) with v in H
  end;
  lra.

(** ** The environment model *)

(** The ambient temperature in closed form. *)
Lemma temperatura_forma : forall hora dia g,
  fst (calcular_temperatura_ambiente hora dia g)
  = round (-5 + (10 - -5) * (0.5 * (1 + inject_Z (dia - 172) / 172))
           + 4 * (1 - inject_Z (Z.abs (hora - 15)) / 12)
           + (0 + normales g (i_n g) * 1.5)) 1.
Proof. intros hora dia g. reflexivity. Qed.

(** X5.  The daily course of the ambient temperature.  On a given day and
    for a given noise draw, the temperature does not fall from one hour
    to a later one up to 15 h and does not rise from 15 h on: over the
    hours 0 to 23 it is highest at 15 h and lowest at 0 h.  The value at
    6 h exceeds the one at 0 h by at least 1.9 degrees, so 6 h is not the
    daily minimum. *)
Theorem X5_curso_diario : forall dia g,
  let T := fun hora => fst (calcular_temperatura_ambiente hora dia g) in
  (forall h h', (h <= h')%Z -> (h' <= 15)%Z -> T h <= T h') /\
  (forall h h', (15 <= h)%Z -> (h <= h')%Z -> T h' <= T h) /\
  (forall h, (0 <= h <= 23)%Z -> T 0%Z <= T h /\ T h <= T 15%Z) /\
  T 0%Z + 1.9 <= T 6%Z.
Proof.
  intros dia g T. unfold T. clear T.
  assert (Hmono : forall h h',
             (Z.abs (h' - 15) <= Z.abs (h - 15))%Z ->
             fst (calcular_temperatura_ambiente h dia g)
             <= fst (calcular_temperatura_ambiente h' dia g)).
  { intros h h' Hz. rewrite !temperatura_forma.
    apply round_monotono. rewrite Zle_Qle in Hz.
    set (a := inject_Z (Z.abs (h - 15))) in *.
    set (a' := inject_Z (Z.abs (h' - 15))) in *.
    set (b := inject_Z (dia - 172)).
    clearbody a a' b. qlra. }
  split; [ | split; [ | split ] ].
  - intros h h' H1 H2. apply Hmono. lia.
  - intros h h' H1 H2. apply Hmono. lia.
  - intros h Hh. split; apply Hmono; lia.
  - rewrite !temperatura_forma.
    set (b := inject_Z (dia - 172)). clearbody b.
    set (x := -5 + (10 - -5) * (0.5 * (1 + b / 172))
              + (0 + normales g (i_n g) * 1.5)).
    change (inject_Z (Z.abs (0 - 15))) with 15.
    change (inject_Z (Z.abs (6 - 15))) with 9.
    destruct (round_error (x + 4 * (1 - 15 / 12)) 1) as [_ Hhi].
    destruct (round_error (x + 4 * (1 - 9 / 12)) 1) as [Hlo _].
    change (inject_Z (10 ^ Z.of_nat 1)) with 10 in Hlo, Hhi.
    assert (E0 : -5 + (10 - -5) * (0.5 * (1 + b / 172))
                 + 4 * (1 - 15 / 12) + (0 + normales g (i_n g) * 1.5)
                 == x + 4 * (1 - 15 / 12)) by (unfold x; ring).
    assert (E6 : -5 + (10 - -5) * (0.5 * (1 + b / 172))
                 + 4 * (1 - 9 / 12) + (0 + normales g (i_n g) * 1.5)
                 == x + 4 * (1 - 9 / 12)) by (unfold x; ring).
    assert (R0 : round (-5 + (10 - -5) * (0.5 * (1 + b / 172))
                 + 4 * (1 - 15 / 12) + (0 + normales g (i_n g) * 1.5)) 1
                 <= round (x + 4 * (1 - 15 / 12)) 1)
      by (apply round_monotono; rewrite E0; apply Qle_refl).
    assert (R6 : round (x + 4 * (1 - 9 / 12)) 1
                 <= round (-5 + (10 - -5) * (0.5 * (1 + b / 172))
                 + 4 * (1 - 9 / 12) + (0 + normales g (i_n g) * 1.5)) 1)
      by (apply round_monotono; rewrite E6; apply Qle_refl).
    clear E0 E6. clearbody x.
    repeat match goal with
    | |- context [round ?e 1] =>
        let v := fresh "v" in set (v := round e 1) in *; clearbody v
    end.
    qlra.
Qed.

(** X5: the temperatures of a day at 0 h, 6 h and 15 h. *)
Lemma X5_curso_diario_witness :
  fst (calcular_temperatura_ambiente 0 167 Prueba.azar_a)
    <= fst (calcular_temperatura_ambiente 6 167 Prueba.azar_a) /\
  fst (calcular_temperatura_ambiente 6 167 Prueba.azar_a)
    <= fst (calcular_temperatura_ambiente 15 167 Prueba.azar_a).
Proof.
  apply (X5_curso_diario 167 Prueba.azar_a). lia.
Defined.

(** X6.  The yearly course of the ambient temperature.  At a given hour
    and for a given noise draw the temperature never falls from one day
    of the year to a later one: it is lowest on day 1 and highest on the
    last day, at least 15.8 degrees above day 1.  For the days 1 to 366
    and the hours 0 to 23 it stays within [-6.05, 15.05] shifted by the
    noise (1.5 times the normal deviate drawn). *)
Theorem X6_curso_anual : forall hora g,
  let T := fun dia => fst (calcular_temperatura_ambiente hora dia g) in
  let ruido := normales g (i_n g) * 1.5 in
  (forall d d', (d <= d')%Z -> T d <= T d') /\
  T 1%Z + 15.8 <= T 366%Z /\
  (forall d, (1 <= d <= 366)%Z -> (0 <= hora <= 23)%Z ->
     -6.05 + ruido <= T d /\ T d <= 15.05 + ruido).
Proof.
  intros hora g T ruido. unfold T, ruido. clear T ruido.
  split; [ | split ].
  - intros d d' Hd. rewrite !temperatura_forma.
    apply round_monotono.
    assert (Hq : inject_Z (d - 172) <= inject_Z (d' - 172))
      by (rewrite <- Zle_Qle; lia).
    set (b := inject_Z (d - 172)) in *. set (b' := inject_Z (d' - 172)) in *.
    set (a := inject_Z (Z.abs (hora - 15))).
    clearbody a b b'. qlra.
  - rewrite !temperatura_forma.
    change (inject_Z (1 - 172)) with (-171).
    change (inject_Z (366 - 172)) with 194.
    set (a := inject_Z (Z.abs (hora - 15))). clearbody a.
    set (z := normales g (i_n g)).
    match goal with
    | |- round ?e1 1 + _ <= round ?e2 1 =>
        destruct (round_error e1 1) as [_ Hhi];
        destruct (round_error e2 1) as [Hlo _];
        set (v1 := round e1 1) in *; set (v2 := round e2 1) in *;
        clearbody v1 v2
    end.
    change (inject_Z (10 ^ Z.of_nat 1)) with 10 in Hlo, Hhi.
    clearbody z. qlra.
  - intros d Hd Hh. rewrite temperatura_forma.
    assert (Hb1 : -171 <= inject_Z (d - 172))
      by (change (-171) with (inject_Z (-171)); rewrite <- Zle_Qle; lia).
    assert (Hb2 : inject_Z (d - 172) <= 194)
      by (change 194 with (inject_Z 194); rewrite <- Zle_Qle; lia).
    assert (Ha1 : 0 <= inject_Z (Z.abs (hora - 15)))
      by (change 0 with (inject_Z 0); rewrite <- Zle_Qle; lia).
    assert (Ha2 : inject_Z (Z.abs (hora - 15)) <= 15)
      by (change 15 with (inject_Z 15); rewrite <- Zle_Qle; lia).
    set (b := inject_Z (d - 172)) in *.
    set (a := inject_Z (Z.abs (hora - 15))) in *.
    set (z := normales g (i_n g)).
    match goal with
    | |- _ <= round ?e 1 /\ _ =>
        destruct (round_error e 1) as [Hlo Hhi];
        set (v := round e 1) in *; clearbody v
    end.
    change (inject_Z (10 ^ Z.of_nat 1)) with 10 in Hlo, Hhi.
    clearbody a b z. split; qlra.
Qed.

(** X6: a day of June at 10 h. *)
Lemma X6_curso_anual_witness :
  fst (calcular_temperatura_ambiente 10 100 Prueba.azar_a)
    <= fst (calcular_temperatura_ambiente 10 167 Prueba.azar_a) /\
  fst (calcular_temperatura_ambiente 10 167 Prueba.azar_a)
    <= 15.05 + normales Prueba.azar_a (i_n Prueba.azar_a) * 1.5.
Proof.
  destruct (X6_curso_anual 10 Prueba.azar_a) as (Hm & _ & Hb).
  split.
  - apply Hm. lia.
  - apply Hb; lia.
Defined.

(** ** Door events *)

(** X7.  The door-event ladder.  With uniform draws of [0, 1), the first
    draw decides: below 0.05 the excursion lies in [3, 8), from 0.05 to
    below 0.20 it lies in [1, 3), and from 0.20 on there is none (exactly
    0).  An excursion costs a second draw, no excursion only the first.
    So the value returned is 0 or at least 1 and below 8. *)
Theorem X7_escalera_de_aperturas : forall g,
  uniformes_en_rango g ->
  let p := uniformes g (i_u g) in
  let r := simular_evento_apertura_puerta g in
  (p < 0.05 ->
     3 <= fst r /\ fst r < 8 /\ i_u (snd r) = S (S (i_u g))) /\
  (0.05 <= p -> p < 0.20 ->
     1 <= fst r /\ fst r < 3 /\ i_u (snd r) = S (S (i_u g))) /\
  (0.20 <= p -> fst r = 0 /\ i_u (snd r) = S (i_u g)) /\
  (fst r = 0 \/ (1 <= fst r /\ fst r < 8)) /\
  i_n (snd r) = i_n g.
Proof.
  intros g Hg p r. unfold r, p. clear r p.
  unfold simular_evento_apertura_puerta, uniform, random.
  destruct (Hg (S (i_u g))) as [H0 H1].
  destruct (Qltb (uniformes g (i_u g)) 0.05) eqn:E1;
    [ | destruct (Qltb (uniformes g (i_u g)) 0.20) eqn:E2 ];
    cbn [fst snd uniformes normales i_u i_n];
    repeat match goal with
    | H : Qltb _ _ = true |- _ => apply Qltb_lt in H
    | H : Qltb _ _ = false |- _ => apply Qltb_ge in H
    end;
    set (u := uniformes g (S (i_u g))) in *;
    set (p := uniformes g (i_u g)) in *; clearbody u p;
    repeat split; intros;
    try reflexivity; try lra;
    try (right; split; lra); try (left; reflexivity).
Qed.

(** X7: a first draw of 0.11 gives a moderate excursion. *)
Lemma X7_escalera_de_aperturas_witness :
  1 <= fst (simular_evento_apertura_puerta Prueba.azar_a) /\
  fst (simular_evento_apertura_puerta Prueba.azar_a) < 3.
Proof.
  destruct (X7_escalera_de_aperturas Prueba.azar_a azar_a_en_rango)
    as (_ & H & _).
  destruct H as (Ha & Hb & _); [ discriminate | reflexivity | ].
  split; assumption.
Defined.

(** ** Invariants of the loops *)

Lemma fold_left_invariante :
  forall (A B : Type) (f : A -> B -> A) (Inv : A -> Prop) (l : list B),
    (forall a b, In b l -> Inv a -> Inv (f a b)) ->
    forall a, Inv a -> Inv (fold_left f l a).
Proof.
  intros A B f Inv l. induction l as [ | b l IH]; intros Hstep a Ha.
  - exact Ha.
  - simpl. apply IH.
    + intros a' b' Hb'. apply Hstep. right. exact Hb'.
    + apply Hstep; [ left; reflexivity | exact Ha ].
Qed.

Lemma In_range : forall n i, In i (range n) <-> (0 <= i < n)%Z.
Proof.
  intros n i. unfold range. rewrite in_map_iff. split.
  - intros (k & <- & Hk). apply in_seq in Hk. lia.
  - intros Hi. exists (Z.to_nat i). split; [ lia | ].
    apply in_seq. lia.
Qed.

(** A property of the state that holds at the start, survives the draw of
    the ambient temperature of every tick and survives every pass through
    the body of the inner loop, holds at the end of the run. *)
Lemma generar_datos_invariante :
  forall CP (Inv : ejecucion -> Prop) g ahora,
    let fecha_inicio := menos_dias ahora DIAS_SIMULACION in
    let total := (DIAS_SIMULACION * 24 / FRECUENCIA_HORAS)%Z in
    Inv (mk_ejecucion g [] [] []) ->
    (forall e hora dia,
       Inv e ->
       Inv (mk_ejecucion
              (snd (calcular_temperatura_ambiente hora dia (rng e)))
              (registros e) (consola e) (llamadas e))) ->
    (forall e i t par,
       (0 <= i < total)%Z -> In par EQUIPOS -> Inv e ->
       Inv (iteracion_equipo CP i
              (mas_horas fecha_inicio (i * FRECUENCIA_HORAS)) t e par)) ->
    Inv (generar_datos CP g ahora).
Proof.
  intros CP Inv g ahora fecha_inicio total H0 Htemp Hstep.
  unfold generar_datos. fold fecha_inicio. fold total.
  apply fold_left_invariante; [ | exact H0 ].
  intros e i Hi He. apply In_range in Hi.
  unfold iteracion_tick.
  set (fecha := mas_horas fecha_inicio (i * FRECUENCIA_HORAS)).
  specialize (Htemp e (hour fecha) (tm_yday fecha) He).
  destruct (calcular_temperatura_ambiente (hour fecha) (tm_yday fecha) (rng e))
    as [t g1].
  simpl in Htemp.
  apply fold_left_invariante; [ | exact Htemp ].
  intros e' par Hpar He'. apply Hstep; assumption.
Qed.

(** The body of the inner loop with its draws written as projections. *)
Lemma iteracion_equipo_forma : forall CP i fecha t e id params,
  let r1 := simular_evento_apertura_puerta (rng e) in
  let base := 15 + fst r1 in
  let dias_restantes := (DIAS_SIMULACION - i / 24)%Z in
  let delta_t_cond :=
    if (dias_restantes <=? 2)%Z
    then base * (1 + inject_Z (2 - dias_restantes) * 0.7)
    else base in
  let r2 := uniform (-0.03) 0.02 (snd r1) in
  let eta := py_max 0.60 (py_min 0.85 (0.75 + fst r2)) in
  let c := mk_llamada fecha id t (t_interior params) (flujo params)
                      eta delta_t_cond in
  let r3 := uniform (-0.5) 0.5 (snd r2) in
  iteracion_equipo CP i fecha t e (id, params)
  = match resolver CP c with
    | Devuelve res =>
        mk_ejecucion (snd r3)
          (registros e ++
           [mk_registro fecha id t
              (round (t_interior params + fst r3) 1)
              (round delta_t_cond 1)
              (round eta 3)
              (round (COP (scalar res)) 2)
              (round (Temp_Descarga_C (scalar res)) 1)
              (round (Trabajo_Compresor_kW (scalar res)) 3)
              (round (Calor_Extraido_kW (scalar res)) 3)
              (round (Calidad_Evap (scalar res)) 3)
              (determinar_estado delta_t_cond (COP (scalar res)))])
          (consola e) (llamadas e ++ [c])
    | Lanza ex =>
        mk_ejecucion (snd r2) (registros e)
          (consola e ++ [mk_mensaje id fecha ex]) (llamadas e ++ [c])
    end.
Proof.
  intros CP i fecha t e id params. cbv zeta.
  unfold iteracion_equipo.
  destruct (simular_evento_apertura_puerta (rng e)) as [ap g1].
  cbn [fst snd].
  destruct (uniform (-0.03) 0.02 g1) as [v g2]. cbn [fst snd].
  match goal with
  | |- match resolver CP ?c with _ => _ end = _ => destruct (resolver CP c)
  end.
  - destruct (uniform (-0.5) 0.5 g2) as [u g3]. reflexivity.
  - reflexivity.
Qed.

(** ** Bounds that survive rounding *)

Lemma round_cota_inf : forall a k n x,
  a == inject_Z k / inject_Z (10 ^ Z.of_nat n) ->
  a <= x -> a <= round x n.
Proof.
  intros a k n x Ha H.
  apply Qle_trans with (round (inject_Z k / inject_Z (10 ^ Z.of_nat n)) n).
  - rewrite round_exacto, <- Ha. apply Qle_refl.
  - apply round_monotono. rewrite <- Ha. exact H.
Qed.

Lemma round_cota_sup : forall a k n x,
  a == inject_Z k / inject_Z (10 ^ Z.of_nat n) ->
  x <= a -> round x n <= a.
Proof.
  intros a k n x Ha H.
  apply Qle_trans with (round (inject_Z k / inject_Z (10 ^ Z.of_nat n)) n).
  - apply round_monotono. rewrite <- Ha. exact H.
  - rewrite round_exacto, <- Ha. apply Qle_refl.
Qed.

(** [a <= round x n] from [a <= x], for [a] the multiple [k] of the
    rounding step; and the same from above. *)
Ltac redondeo_inf k n :=
  apply (round_cota_inf _ k n); [ vm_compute; reflexivity | ].
Ltac redondeo_sup k n :=
  apply (round_cota_sup _ k n); [ vm_compute; reflexivity | ].

(** ** What one cell draws *)

Lemma apertura_cotas : forall g,
  uniformes_en_rango g ->
  0 <= fst (simular_evento_apertura_puerta g) /\
  fst (simular_evento_apertura_puerta g) < 8.
Proof.
  intros g Hg. unfold simular_evento_apertura_puerta, uniform, random.
  destruct (Hg (S (i_u g))) as [H0 H1].
  destruct (Qltb (uniformes g (i_u g)) 0.05);
    [ | destruct (Qltb (uniformes g (i_u g)) 0.20) ];
    cbn [fst snd uniformes normales i_u i_n];
    set (u := uniformes g (S (i_u g))) in *; clearbody u; split; lra.
Qed.

Lemma uniform_cotas : forall a b g,
  uniformes_en_rango g -> a <= b ->
  a <= fst (uniform a b g) /\
  (a < b -> fst (uniform a b g) < b) /\
  fst (uniform a b g) <= b.
Proof.
  intros a b g Hg Hab. rewrite uniform_valor.
  destruct (Hg (i_u g)) as [H0 H1].
  set (u := uniformes g (i_u g)) in *. clearbody u.
  assert (0 <= (b - a) * u) by (apply Qmult_le_0_compat; lra).
  assert (0 <= (b - a) * (1 - u)) by (apply Qmult_le_0_compat; lra).
  split; [ lra | ]. split; [ | lra ].
  intros Hlt.
  assert (0 < (b - a) * (1 - u)) by (apply Qmult_lt_0_compat; lra).
  lra.
Qed.

Lemma en_rango_tras : forall g g',
  uniformes g' = uniformes g -> uniformes_en_rango g ->
  uniformes_en_rango g'.
Proof. intros g g' E H n. rewrite E. apply H. Qed.

Lemma determinar_estado_alarma : forall dt c,
  25 < dt -> determinar_estado dt c = ALARMA.
Proof.
  intros dt c H. unfold determinar_estado.
  apply Qltb_lt in H. rewrite H. reflexivity.
Qed.

Lemma EQUIPOS_consigna : forall par,
  In par EQUIPOS ->
  t_interior (snd par) = -18 \/ t_interior (snd par) = 4.
Proof.
  intros par H. simpl in H.
  destruct H as [<- | [<- | [<- | []]]]; simpl; auto.
Qed.

(** ** The rows of a run *)

(** What every row of a run satisfies, when the uniform draws lie in
    [0, 1). *)
Lemma filas_de_la_ejecucion : forall CP g ahora,
  uniformes_en_rango g ->
  Forall
    (fun r =>
       exists i par,
         tick_de_fila ahora r i /\
         In par EQUIPOS /\ id_equipo r = fst par /\
         t_interior (snd par) - 0.5 <= t_interior_C r /\
         t_interior_C r <= t_interior (snd par) + 0.5 /\
         0.72 <= eta_compresor r /\ eta_compresor r <= 0.77 /\
         ((i < 144)%Z ->
            15 <= delta_t_cond_C r /\ delta_t_cond_C r <= 23) /\
         ((144 <= i)%Z ->
            25.5 <= delta_t_cond_C r /\ delta_t_cond_C r <= 39.1 /\
            estado r = ALARMA))
    (registros (generar_datos CP g ahora)).
Proof.
  intros CP g ahora Hg.
  set (P := fun r : registro => exists i par, _).
  apply (generar_datos_invariante CP
           (fun e => uniformes_en_rango (rng e) /\ Forall P (registros e))).
  - split; [ exact Hg | constructor ].
  - intros e hora dia [He HF]. split; [ | exact HF ].
    cbn [rng]. eapply en_rango_tras; [ | exact He ].
    apply temperatura_flujos.
  - intros e i t [id params] Hi Hpar [He HF].
    rewrite iteracion_equipo_forma. cbv zeta.
    pose proof (apertura_cotas (rng e) He) as [Hap0 Hap8].
    pose proof (apertura_flujos (rng e)) as [Ua _].
    set (r1 := simular_evento_apertura_puerta (rng e)) in *.
    assert (He1 : uniformes_en_rango (snd r1))
      by (eapply en_rango_tras; eassumption).
    pose proof (uniform_cotas (-0.03) 0.02 (snd r1) He1) as Hv.
    pose proof (uniform_flujos (-0.03) 0.02 (snd r1)) as [Uv _].
    set (r2 := uniform (-0.03) 0.02 (snd r1)) in *.
    assert (He2 : uniformes_en_rango (snd r2))
      by (eapply en_rango_tras; eassumption).
    pose proof (uniform_cotas (-0.5) 0.5 (snd r2) He2) as Hu.
    pose proof (uniform_flujos (-0.5) 0.5 (snd r2)) as [Uu _].
    set (r3 := uniform (-0.5) 0.5 (snd r2)) in *.
    assert (He3 : uniformes_en_rango (snd r3))
      by (eapply en_rango_tras; eassumption).
    destruct Hv as (Hv1 & _ & Hv2); [ discriminate | ].
    destruct Hu as (Hu1 & _ & Hu2); [ discriminate | ].
    assert (Heta : py_max 0.60 (py_min 0.85 (0.75 + fst r2))
                   = 0.75 + fst r2) by (apply clamp_inactivo; lra).
    rewrite Heta.
    match goal with
    | |- context [resolver CP ?c] => destruct (resolver CP c) as [res | ex]
    end; cbn [rng registros]; [ | split; assumption ].
    split; [ exact He3 | ].
    apply Forall_app. split; [ exact HF | ].
    constructor; [ | constructor ].
    exists i, (id, params). cbn [timestamp id_equipo t_interior_C
      eta_compresor delta_t_cond_C estado fst snd].
    split; [ split; [ exact Hi | reflexivity ] | ].
    split; [ exact Hpar | ]. split; [ reflexivity | ].
    assert (Hsp := EQUIPOS_consigna _ Hpar). cbn [snd] in Hsp.
    split; [ destruct Hsp as [-> | ->];
             [ redondeo_inf (-185)%Z 1%nat | redondeo_inf 35%Z 1%nat ]; lra | ].
    split; [ destruct Hsp as [-> | ->];
             [ redondeo_sup (-175)%Z 1%nat | redondeo_sup 45%Z 1%nat ]; lra | ].
    split; [ redondeo_inf 720%Z 3%nat; lra | ].
    split; [ redondeo_sup 770%Z 3%nat; lra | ].
    change DIAS_SIMULACION with 7%Z in *.
    change (7 * 24 / FRECUENCIA_HORAS)%Z with 168%Z in Hi.
    split.
    + intros Hlt.
      assert (Hd : (3 <= 7 - i / 24)%Z \/ (7 - i / 24 = 2)%Z).
      { assert (i / 24 < 6)%Z by (apply Z.div_lt_upper_bound; lia).
        assert (0 <= i / 24)%Z by (apply Z.div_pos; lia).
        lia. }
      destruct Hd as [Hd | Hd].
      * destruct (7 - i / 24 <=? 2)%Z eqn:E;
          [ apply Z.leb_le in E; lia | ].
        split; [ redondeo_inf 150%Z 1%nat | redondeo_sup 230%Z 1%nat ]; lra.
      * rewrite Hd. cbn [Z.leb Z.compare Pos.compare Pos.compare_cont].
        change (inject_Z (2 - 2)) with 0.
        split; [ redondeo_inf 150%Z 1%nat | redondeo_sup 230%Z 1%nat ]; lra.
    + intros Hge.
      assert (Hd : (7 - i / 24 = 1)%Z).
      { assert (6 <= i / 24)%Z by (apply Z.div_le_lower_bound; lia).
        assert (i / 24 < 7)%Z by (apply Z.div_lt_upper_bound; lia).
        lia. }
      rewrite Hd. cbn [Z.leb Z.compare Pos.compare Pos.compare_cont].
      change (inject_Z (2 - 1)) with 1.
      split; [ redondeo_inf 255%Z 1%nat; lra | ].
      split; [ redondeo_sup 391%Z 1%nat; lra | ].
      apply determinar_estado_alarma. lra.
Qed.

(** X8.  Condenser fouling acts on the last day only.  With uniform draws
    of [0, 1), every row of the last 24 ticks (tick 144 on) reports a
    condenser delta between 25.5 and 39.1 and is ALARMA; every row of an
    earlier tick -- the day with two days remaining included -- reports
    the base delta plus the door excursion, between 15 and 23. *)
Theorem X8_ensuciamiento_ultimo_dia : forall CP g ahora,
  uniformes_en_rango g ->
  Forall
    (fun r =>
       exists i,
         tick_de_fila ahora r i /\
         ((i < 144)%Z ->
            15 <= delta_t_cond_C r /\ delta_t_cond_C r <= 23) /\
         ((144 <= i)%Z ->
            25.5 <= delta_t_cond_C r /\ delta_t_cond_C r <= 39.1 /\
            estado r = ALARMA))
    (registros (generar_datos CP g ahora)).
Proof.
  intros CP g ahora Hg.
  eapply Forall_impl; [ | apply filas_de_la_ejecucion; exact Hg ].
  intros r (i & par & Ht & _ & _ & _ & _ & _ & _ & H1 & H2).
  exists i. auto.
Qed.

(** X8: the rows of a run of the whole grid. *)
Lemma X8_ensuciamiento_ultimo_dia_witness :
  List.length (registros (generar_datos Doble.CP Prueba.azar_a Prueba.reloj_a))
    = 504%nat /\
  Forall
    (fun r =>
       exists i,
         tick_de_fila Prueba.reloj_a r i /\
         ((i < 144)%Z ->
            15 <= delta_t_cond_C r /\ delta_t_cond_C r <= 23) /\
         ((144 <= i)%Z ->
            25.5 <= delta_t_cond_C r /\ delta_t_cond_C r <= 39.1 /\
            estado r = ALARMA))
    (registros (generar_datos Doble.CP Prueba.azar_a Prueba.reloj_a)).
Proof.
  split; [ vm_compute; reflexivity | ].
  apply (X8_ensuciamiento_ultimo_dia Doble.CP Prueba.azar_a Prueba.reloj_a).
  exact azar_a_en_rango.
Defined.

(** X9.  The ranges of a row.  With uniform draws of [0, 1), every row
    belongs to a configured unit, reports an interior temperature within
    half a degree of that unit's setpoint -- so below zero exactly for
    the rows of CAMARA_01_CARNES -- a compressor efficiency between 0.72
    and 0.77 and a condenser delta of at least 15. *)
Theorem X9_rangos_de_fila : forall CP g ahora,
  uniformes_en_rango g ->
  Forall
    (fun r =>
       (exists par,
          In par EQUIPOS /\ id_equipo r = fst par /\
          t_interior (snd par) - 0.5 <= t_interior_C r /\
          t_interior_C r <= t_interior (snd par) + 0.5) /\
       (t_interior_C r < 0 <-> id_equipo r = "CAMARA_01_CARNES"%string) /\
       0.72 <= eta_compresor r /\ eta_compresor r <= 0.77 /\
       15 <= delta_t_cond_C r)
    (registros (generar_datos CP g ahora)).
Proof.
  intros CP g ahora Hg.
  eapply Forall_impl; [ | apply filas_de_la_ejecucion; exact Hg ].
  intros r (i & par & Ht & Hpar & Hid & Hlo & Hhi & He1 & He2 & H1 & H2).
  split; [ exists par; auto | ].
  split.
  - rewrite Hid. simpl in Hpar.
    destruct Hpar as [<- | [<- | [<- | []]]]; cbn [fst snd t_interior] in *;
      split; intros H; try reflexivity; try discriminate H; lra.
  - split; [ exact He1 | ]. split; [ exact He2 | ].
    destruct (Z_lt_ge_dec i 144) as [Hi | Hi].
    + apply H1. exact Hi.
    + destruct H2 as [H2 _]; [ lia | lra ].
Qed.

(** X9: the rows of a run of the whole grid. *)
Lemma X9_rangos_de_fila_witness :
  Forall
    (fun r =>
       (exists par,
          In par EQUIPOS /\ id_equipo r = fst par /\
          t_interior (snd par) - 0.5 <= t_interior_C r /\
          t_interior_C r <= t_interior (snd par) + 0.5) /\
       (t_interior_C r < 0 <-> id_equipo r = "CAMARA_01_CARNES"%string) /\
       0.72 <= eta_compresor r /\ eta_compresor r <= 0.77 /\
       15 <= delta_t_cond_C r)
    (registros (generar_datos Doble.CP Prueba.azar_a Prueba.reloj_a)).
Proof.
  apply (X9_rangos_de_fila Doble.CP Prueba.azar_a Prueba.reloj_a).
  exact azar_a_en_rango.
Defined.

(** The state decided from the unrounded delta and COP, against the
    rounded values a row reports. *)
Lemma estado_y_redondeo : forall dt c,
  (determinar_estado dt c = NORMAL ->
     round dt 1 <= 20 /\ 2.5 <= round c 2) /\
  (determinar_estado dt c = ADVERTENCIA ->
     round dt 1 <= 25 /\ 2 <= round c 2) /\
  (25 < round dt 1 \/ round c 2 < 2 -> determinar_estado dt c = ALARMA).
Proof.
  intros dt c. unfold determinar_estado.
  destruct (Qltb 25 dt) eqn:A1; destruct (Qltb c 2.0) eqn:A2;
    destruct (Qltb 20 dt) eqn:W1; destruct (Qltb c 2.5) eqn:W2; simpl;
    repeat match goal with
    | H : Qltb _ _ = true |- _ => apply Qltb_lt in H
    | H : Qltb _ _ = false |- _ => apply Qltb_ge in H
    end;
    (split; [ | split ]); intros H; try discriminate H; try reflexivity.
  all: try (split; [ first [ redondeo_sup 200%Z 1%nat | redondeo_sup 250%Z 1%nat ]
                   | first [ redondeo_inf 250%Z 2%nat | redondeo_inf 200%Z 2%nat ] ];
            lra).
  all: exfalso; destruct H as [H | H].
  all: try (assert (round dt 1 <= 25) by (redondeo_sup 250%Z 1%nat; lra); lra).
  all: try (assert (2 <= round c 2) by (redondeo_inf 200%Z 2%nat; lra); lra).
Qed.

(** X10.  A row's state agrees with the values the row reports, although
    it is decided before rounding: a NORMAL row reports a condenser delta
    of at most 20 and a COP of at least 2.5; an ADVERTENCIA row a delta of
    at most 25 and a COP of at least 2; and every row that reports a
    delta above 25 or a COP below 2 is ALARMA. *)
Theorem X10_estado_y_valores_de_fila : forall CP g ahora,
  Forall
    (fun r =>
       (estado r = NORMAL -> delta_t_cond_C r <= 20 /\ 2.5 <= cop r) /\
       (estado r = ADVERTENCIA -> delta_t_cond_C r <= 25 /\ 2 <= cop r) /\
       (25 < delta_t_cond_C r \/ cop r < 2 -> estado r = ALARMA))
    (registros (generar_datos CP g ahora)).
Proof.
  intros CP g ahora.
  destruct (generar_datos_avance CP g ahora) as (_ & HF & _).
  cbv zeta in HF.
  induction HF as [ | c r cs rs Hcr _ IH]; constructor; [ | exact IH ].
  destruct Hcr as (res & _ & _ & _ & Hdt & _ & Hcop & _ & _ & _ & _ & He).
  rewrite Hdt, Hcop, He. apply estado_y_redondeo.
Qed.

(** ** The grid in time *)

Lemma instante_mas_horas : forall d k,
  instante (mas_horas d k) = (instante d + 3600 * k)%Z.
Proof.
  intros d k. unfold instante, mas_horas. cbn [ordinal segundo_del_dia].
  pose proof (Z.div_mod (segundo_del_dia d + 3600 * k) 86400) as H.
  lia.
Qed.

Lemma mas_horas_inyectiva : forall d k k',
  mas_horas d k = mas_horas d k' -> k = k'.
Proof.
  intros d k k' H. apply (f_equal instante) in H.
  rewrite !instante_mas_horas in H. lia.
Qed.

Lemma range_NoDup : forall n, NoDup (range n).
Proof.
  intros n. unfold range.
  apply NoDup_map_NoDup_ForallPairs; [ | apply seq_NoDup ].
  intros x y _ _ H. lia.
Qed.

Lemma range_ordenado : forall n, StronglySorted Z.le (range n).
Proof.
  intros n. unfold range. generalize 0%nat.
  induction (Z.to_nat n) as [ | k IH]; intros s; simpl.
  - constructor.
  - constructor; [ apply IH | ].
    apply Forall_forall. intros z Hz.
    apply in_map_iff in Hz. destruct Hz as (m & <- & Hm).
    apply in_seq in Hm. lia.
Qed.

Lemma NoDup_flat_map : forall (A B : Type) (f : A -> list B) l,
  NoDup l ->
  (forall a, In a l -> NoDup (f a)) ->
  (forall a b x, In a l -> In b l -> In x (f a) -> In x (f b) -> a = b) ->
  NoDup (flat_map f l).
Proof.
  intros A B f l Hl. induction Hl as [ | a l Ha Hl IH]; intros Hf Hd.
  - constructor.
  - simpl. apply NoDup_app.
    + apply Hf. left. reflexivity.
    + apply IH.
      * intros b Hb. apply Hf. right. exact Hb.
      * intros b c x Hb Hc. apply Hd; right; assumption.
    + intros x Hx Hx'. apply in_flat_map in Hx'.
      destruct Hx' as (b & Hb & Hxb).
      assert (a = b) by (apply (Hd a b x); auto; [ left | right ]; auto).
      subst b. contradiction.
Qed.

Lemma NoDup_map_filter : forall (A B : Type) (f : A -> B) (p : A -> bool) l,
  NoDup (map f l) -> NoDup (map f (filter p l)).
Proof.
  intros A B f p l. induction l as [ | a l IH]; simpl; intros H.
  - constructor.
  - inversion H as [ | x xs Hnot Hrest]; subst.
    destruct (p a); simpl; [ constructor | ]; auto.
    intros Hin. apply Hnot. apply in_map_iff in Hin.
    destruct Hin as (y & Hy & Hyin). apply filter_In in Hyin.
    apply in_map_iff. exists y. tauto.
Qed.

Lemma rejilla_NoDup : forall ahora, NoDup (rejilla ahora).
Proof.
  intros ahora. unfold rejilla. apply NoDup_flat_map.
  - apply range_NoDup.
  - intros i _. simpl.
    repeat constructor; simpl; intros H;
      repeat match goal with
      | H : _ \/ _ |- _ => destruct H
      | H : False |- _ => destruct H
      | H : (_, _) = (_, _) |- _ => inversion H; clear H
      end.
  - intros a b x _ _ Ha Hb.
    apply in_map_iff in Ha. destruct Ha as (pa & <- & _).
    apply in_map_iff in Hb. destruct Hb as (pb & Hb & _).
    apply (f_equal fst) in Hb. cbn [fst] in Hb.
    apply mas_horas_inyectiva in Hb.
    unfold FRECUENCIA_HORAS in Hb. lia.
Qed.

(** X11.  No two rows of a run share their date and unit: the pair
    (timestamp, id_equipo) identifies a row. *)
Theorem X11_clave_unica : forall CP g ahora,
  NoDup (map celda_de_registro (registros (generar_datos CP g ahora))).
Proof.
  intros CP g ahora.
  destruct (generar_datos_avance CP g ahora) as (Hcel & HF & _).
  cbv zeta in Hcel, HF.
  rewrite (fila_de_celda CP _ _ HF).
  apply NoDup_map_filter. rewrite Hcel. apply rejilla_NoDup.
Qed.

Lemma StronglySorted_app : forall (A : Type) (R : A -> A -> Prop) l1 l2,
  StronglySorted R l1 -> StronglySorted R l2 ->
  (forall x y, In x l1 -> In y l2 -> R x y) ->
  StronglySorted R (l1 ++ l2).
Proof.
  intros A R l1 l2 H1 H2 H. induction H1 as [ | a l Hl IH Ha]; simpl.
  - exact H2.
  - constructor.
    + apply IH. intros x y Hx Hy. apply H; [ right | ]; assumption.
    + apply Forall_app. split; [ exact Ha | ].
      apply Forall_forall. intros y Hy. apply H; [ left; reflexivity | exact Hy ].
Qed.

Lemma StronglySorted_map_filter :
  forall (A B : Type) (R : B -> B -> Prop) (f : A -> B) (p : A -> bool) l,
    StronglySorted R (map f l) -> StronglySorted R (map f (filter p l)).
Proof.
  intros A B R f p l. induction l as [ | a l IH]; simpl; intros H.
  - constructor.
  - apply StronglySorted_inv in H. destruct H as [Hs Ha].
    destruct (p a); simpl; [ constructor | ]; auto.
    apply Forall_forall. intros y Hy. apply in_map_iff in Hy.
    destruct Hy as (z & <- & Hz). apply filter_In in Hz.
    rewrite Forall_forall in Ha. apply Ha. apply in_map. tauto.
Qed.

Lemma StronglySorted_map_inv :
  forall (A B : Type) (R : B -> B -> Prop) (f : A -> B) l,
    StronglySorted R (map f l) ->
    StronglySorted (fun x y => R (f x) (f y)) l.
Proof.
  intros A B R f l. induction l as [ | a l IH]; simpl; intros H.
  - constructor.
  - apply StronglySorted_inv in H. destruct H as [Hs Ha].
    constructor; [ apply IH; exact Hs | ].
    apply Forall_forall. intros y Hy.
    rewrite Forall_forall in Ha. apply Ha. apply in_map. exact Hy.
Qed.

Lemma rejilla_ordenada : forall ahora,
  StronglySorted (fun c c' => (instante (fst c) <= instante (fst c'))%Z)
                 (rejilla ahora).
Proof.
  intros ahora. unfold rejilla.
  set (fi := menos_dias ahora DIAS_SIMULACION).
  generalize (range_ordenado (DIAS_SIMULACION * 24 / FRECUENCIA_HORAS)).
  generalize (range (DIAS_SIMULACION * 24 / FRECUENCIA_HORAS)).
  intros l Hl. induction Hl as [ | i l Hl IH Hi]; cbn [flat_map].
  - constructor.
  - apply StronglySorted_app.
    + simpl. repeat constructor; simpl; lia.
    + exact IH.
    + intros x y Hx Hy.
      apply in_map_iff in Hx. destruct Hx as (px & <- & _).
      apply in_flat_map in Hy. destruct Hy as (j & Hj & Hy).
      apply in_map_iff in Hy. destruct Hy as (py & <- & _).
      cbn [fst]. rewrite !instante_mas_horas.
      rewrite Forall_forall in Hi. specialize (Hi j Hj).
      unfold FRECUENCIA_HORAS. lia.
Qed.

(** X12.  The rows of a run are in chronological order: a row never
    carries an earlier date than a row before it. *)
Theorem X12_orden_cronologico : forall CP g ahora,
  StronglySorted
    (fun r r' => (instante (timestamp r) <= instante (timestamp r'))%Z)
    (registros (generar_datos CP g ahora)).
Proof.
  intros CP g ahora.
  destruct (generar_datos_avance CP g ahora) as (Hcel & HF & _).
  cbv zeta in Hcel, HF.
  apply (StronglySorted_map_inv _ _
           (fun c c' => (instante (fst c) <= instante (fst c'))%Z)
           celda_de_registro).
  rewrite (fila_de_celda CP _ _ HF).
  apply StronglySorted_map_filter. rewrite Hcel. apply rejilla_ordenada.
Qed.

(** ** The draws a run consumes *)

Lemma apertura_consumo : forall g,
  i_n (snd (simular_evento_apertura_puerta g)) = i_n g /\
  (S (i_u g) <= i_u (snd (simular_evento_apertura_puerta g)) <= S (S (i_u g)))%nat.
Proof.
  intros g. unfold simular_evento_apertura_puerta, uniform, random.
  destruct (Qltb (uniformes g (i_u g)) 0.05);
    [ | destruct (Qltb (uniformes g (i_u g)) 0.20) ];
    cbn [fst snd uniformes normales i_u i_n]; lia.
Qed.

Lemma iteracion_equipo_consumo : forall CP i fecha t e par,
  let e' := iteracion_equipo CP i fecha t e par in
  let nuevas := (List.length (registros e') - List.length (registros e))%nat in
  i_n (rng e') = i_n (rng e) /\
  List.length (llamadas e') = S (List.length (llamadas e)) /\
  (List.length (registros e) <= List.length (registros e'))%nat /\
  (i_u (rng e) + 2 + nuevas <= i_u (rng e'))%nat /\
  (i_u (rng e') <= i_u (rng e) + 3 + nuevas)%nat.
Proof.
  intros CP i fecha t e [id params]. cbv zeta.
  rewrite iteracion_equipo_forma. cbv zeta.
  pose proof (apertura_consumo (rng e)) as (Hn & Hu).
  set (r1 := simular_evento_apertura_puerta (rng e)) in *.
  match goal with
  | |- context [resolver CP ?c] => destruct (resolver CP c) as [res | ex]
  end; cbn [rng registros llamadas]; rewrite ?length_app;
    unfold uniform, random; cbn [fst snd i_u i_n List.length]; lia.
Qed.

(** X13.  The draws of a run.  A run consumes exactly 168 normal
    deviates, one per tick.  Of the uniform draws it consumes two per cell
    (door ladder and efficiency), one more per door excursion and one
    more per row added (the interior jitter, drawn only when the solve
    returned): between 1008 and 1512 plus the number of rows. *)
Theorem X13_consumo_de_azar : forall CP g ahora,
  let e := generar_datos CP g ahora in
  i_n (rng e) = (i_n g + 168)%nat /\
  (i_u g + 1008 + List.length (registros e) <= i_u (rng e))%nat /\
  (i_u (rng e) <= i_u g + 1512 + List.length (registros e))%nat.
Proof.
  intros CP g ahora e.
  assert (Hu : List.length (llamadas e) = 504%nat /\
               (i_u g + 2 * List.length (llamadas e)
                + List.length (registros e) <= i_u (rng e))%nat /\
               (i_u (rng e) <= i_u g + 3 * List.length (llamadas e)
                + List.length (registros e))%nat).
  { split.
    - destruct (generar_datos_avance CP g ahora) as (Hcel & _).
      cbv zeta in Hcel. unfold e.
      rewrite <- (length_map celda_de_llamada), Hcel.
      apply longitud_rejilla.
    - unfold e.
      apply (generar_datos_invariante CP
               (fun e => (i_u g + 2 * List.length (llamadas e)
                          + List.length (registros e) <= i_u (rng e))%nat /\
                         (i_u (rng e) <= i_u g + 3 * List.length (llamadas e)
                          + List.length (registros e))%nat)).
      + simpl. lia.
      + intros e0 hora dia H. exact H.
      + intros e0 i t par _ _ H.
        pose proof (iteracion_equipo_consumo CP i
                      (mas_horas (menos_dias ahora DIAS_SIMULACION)
                                 (i * FRECUENCIA_HORAS)) t e0 par) as Hc.
        cbv zeta in Hc. lia. }
  destruct Hu as (HL & Hlo & Hhi).
  split; [ | lia ].
  unfold e, generar_datos.
  set (fi := menos_dias ahora DIAS_SIMULACION).
  assert (Hfold : forall l e0,
             i_n (rng (fold_left (iteracion_tick CP fi) l e0))
             = (i_n (rng e0) + List.length l)%nat).
  { induction l as [ | i l IH]; intros e0; simpl; [ lia | ].
    rewrite IH. unfold iteracion_tick.
    set (fecha := mas_horas fi (i * FRECUENCIA_HORAS)).
    assert (Hg : i_n (snd (calcular_temperatura_ambiente (hour fecha)
                              (tm_yday fecha) (rng e0)))
                 = S (i_n (rng e0))) by reflexivity.
    destruct (calcular_temperatura_ambiente (hour fecha) (tm_yday fecha)
                (rng e0)) as [t g1].
    cbn [snd] in Hg.
    assert (Hin : forall l' e1,
               i_n (rng (fold_left (iteracion_equipo CP i fecha t) l' e1))
               = i_n (rng e1)).
    { induction l' as [ | par l' IH']; intros e1; simpl; [ reflexivity | ].
      rewrite IH'. apply (iteracion_equipo_consumo CP i fecha t e1 par). }
    rewrite Hin. cbn [rng]. lia. }
  rewrite Hfold. cbn [rng]. reflexivity.
Qed.

(** ** Splitting and replacing *)

Lemma split_aux_agotado : forall sep s, split_aux sep 0 s = [s].
Proof.
  intros sep s. induction s as [ | c s IH]; simpl.
  - reflexivity.
  - destruct (Ascii.eqb c sep); [ reflexivity | ].
    rewrite IH. reflexivity.
Qed.

(** The first occurrence of a one-character pattern. *)
Lemma py_in_caracter : forall c d s,
  py_in (String c EmptyString) (String d s) = false ->
  Ascii.eqb d c = false /\ py_in (String c EmptyString) s = false.
Proof.
  intros c d s H. simpl in H.
  apply orb_false_iff in H. destruct H as [Hp Hs].
  split; [ | exact Hs ].
  destruct (ascii_dec c d) as [-> | Hne].
  - destruct s; discriminate Hp.
  - apply Ascii.eqb_neq. congruence.
Qed.

(** Splitting a string whose first piece is free of the separator. *)
Lemma split_aux_primera : forall sep n a b,
  py_in (String sep EmptyString) a = false ->
  split_aux sep (S n) (a ++ String sep b) = a :: split_aux sep n b.
Proof.
  intros sep n a b. induction a as [ | c a IH]; intros H.
  - simpl. rewrite Ascii.eqb_refl. reflexivity.
  - apply py_in_caracter in H. destruct H as [Hc Ha].
    change ((String c a ++ String sep b)%string)
      with (String c (a ++ String sep b)).
    cbn [split_aux]. rewrite Hc, (IH Ha). reflexivity.
Qed.

Lemma py_in_cola : forall sub c s,
  py_in sub s = true -> py_in sub (String c s) = true.
Proof.
  intros sub c s H. cbn [py_in]. rewrite H. apply orb_true_r.
Qed.

Lemma py_in_cabeza : forall c s,
  py_in (String c EmptyString) (String c s) = true.
Proof.
  intros c s. cbn [py_in prefix].
  destruct (ascii_dec c c) as [_ | Hne]; [ | congruence ].
  destruct s; reflexivity.
Qed.

Lemma prefijo_falla_tiene_guion : forall s,
  prefix "falla_" s = true -> py_in "_" s = true.
Proof.
  intros s H.
  do 6 (destruct s as [ | ? s]; [ discriminate H | ];
        cbn [prefix] in H;
        match type of H with
        | (if ?d then _ else _) = true =>
            destruct d as [<- | ]; [ | discriminate H ]
        end).
  do 5 apply py_in_cola. apply py_in_cabeza.
Qed.

Lemma replace_sin_guion : forall s,
  py_in "_" s = false -> replace_aux "falla_" "" 0 s = s.
Proof.
  induction s as [ | c s IH]; intros H.
  - reflexivity.
  - cbn [replace_aux].
    destruct (prefix "falla_" (String c s)) eqn:E.
    + apply prefijo_falla_tiene_guion in E. congruence.
    + apply py_in_caracter in H. rewrite (IH (proj2 H)). reflexivity.
Qed.

(** ** Routing *)

Lemma partes_de_falla : forall seccion equipo,
  py_in "_" seccion = false ->
  py_split "_" (Some 2%nat) ("falla_" ++ seccion ++ "_" ++ equipo)%string
  = ["falla"%string; seccion; equipo].
Proof.
  intros seccion equipo H. unfold py_split.
  change (("falla_" ++ seccion ++ "_" ++ equipo)%string)
    with (("falla" ++ String "_" (seccion ++ String "_" equipo))%string).
  rewrite split_aux_primera by reflexivity.
  rewrite split_aux_primera by exact H.
  rewrite split_aux_agotado. reflexivity.
Qed.

Lemma partes_de_falla_corta : forall x,
  py_in "_" x = false ->
  py_split "_" (Some 2%nat) ("falla_" ++ x)%string = ["falla"%string; x].
Proof.
  intros x H. unfold py_split.
  change (("falla_" ++ x)%string) with (("falla" ++ String "_" x)%string).
  rewrite split_aux_primera by reflexivity.
  f_equal.
  clear -H. generalize 1%nat.
  induction x as [ | c x IH]; intros n; [ reflexivity | ].
  apply py_in_caracter in H. destruct H as [Hc Hx].
  cbn [split_aux]. rewrite Hc, (IH Hx). reflexivity.
Qed.

(** The router on a callback that starts with "falla_". *)
Lemma manejar_callback_falla : forall resto,
  manejar_callback ("falla_" ++ resto)%string
  = let data := ("falla_" ++ resto)%string in
    let partes := py_split "_" (Some 2%nat) data in
    mostrar_detalle_falla
      (if (2 <? List.length partes)%nat then nth 2 partes EmptyString
       else py_replace "falla_" "" data)
      (if (2 <? List.length partes)%nat then nth 1 partes EmptyString
       else "diagnostico"%string).
Proof.
  intros resto. unfold manejar_callback.
  change (("falla_" ++ resto)%string)
    with (String "f" (String "a" (String "l" (String "l"
           (String "a" (String "_" resto)))))).
  cbn [String.eqb Ascii.eqb Bool.eqb andb orb].
  assert (Hp : prefix "falla_"
                 (String "f" (String "a" (String "l" (String "l"
                   (String "a" (String "_" resto)))))) = true).
  { cbn [prefix].
    repeat match goal with
    | |- (if ?d then _ else _) = true =>
        destruct d as [_ | Hne]; [ | exfalso; apply Hne; reflexivity ]
    end.
    destruct resto; reflexivity. }
  rewrite Hp. reflexivity.
Qed.

(** X14.  The callback of a drill-down button comes back whole.  For a
    section name without underscore and any unit, the router takes
    "falla_<section>_<unit>" to the failure detail of that unit, with
    that section as the origin -- underscores in the unit are kept, since
    the data is split at most twice.  A callback "falla_<x>" with no
    further underscore goes to the failure detail of [x] with origin
    "diagnostico". *)
Theorem X14_callback_de_falla :
  (forall seccion equipo,
     py_in "_" seccion = false ->
     manejar_callback ("falla_" ++ seccion ++ "_" ++ equipo)%string
     = mostrar_detalle_falla equipo seccion) /\
  (forall x,
     py_in "_" x = false ->
     manejar_callback ("falla_" ++ x)%string
     = mostrar_detalle_falla x "diagnostico").
Proof.
  split.
  - intros seccion equipo H.
    rewrite manejar_callback_falla. cbv zeta.
    rewrite (partes_de_falla seccion equipo H). reflexivity.
  - intros x H.
    rewrite manejar_callback_falla. cbv zeta.
    rewrite (partes_de_falla_corta x H).
    cbn [List.length Nat.ltb Nat.leb].
    unfold py_replace.
    change (("falla_" ++ x)%string)
      with (String "f" (String "a" (String "l" (String "l"
             (String "a" (String "_" x)))))).
    cbn [replace_aux].
    assert (Hp : prefix "falla_"
                   (String "f" (String "a" (String "l" (String "l"
                     (String "a" (String "_" x)))))) = true).
    { cbn [prefix].
      repeat match goal with
      | |- (if ?d then _ else _) = true =>
          destruct d as [_ | Hne]; [ | exfalso; apply Hne; reflexivity ]
      end.
      destruct x; reflexivity. }
    rewrite Hp. cbn [String.length Nat.sub replace_aux String.append].
    rewrite (replace_sin_guion x H). reflexivity.
Qed.

(** X14: the button of the meat chamber in the costs section, and a
    callback without section. *)
Lemma X14_callback_de_falla_witness :
  manejar_callback "falla_costos_CAMARA_01_CARNES"
  = mostrar_detalle_falla "CAMARA_01_CARNES" "costos" /\
  manejar_callback "falla_CAMARA"
  = mostrar_detalle_falla "CAMARA" "diagnostico".
Proof.
  split.
  - apply (proj1 X14_callback_de_falla "costos" "CAMARA_01_CARNES")%string.
    reflexivity.
  - apply (proj2 X14_callback_de_falla "CAMARA"%string). reflexivity.
Defined.

(** ** Keyboards *)

Lemma ruta_de_falla : forall seccion equipo,
  py_in "_" seccion = false ->
  manejar_callback ("falla_" ++ seccion ++ "_" ++ equipo)%string
  = mostrar_detalle_falla equipo seccion.
Proof.
  intros seccion equipo H.
  rewrite manejar_callback_falla. cbv zeta.
  rewrite (partes_de_falla seccion equipo H). reflexivity.
Qed.

Lemma destinos_de_falla : forall seccion equipos filas,
  py_in "_" seccion = false ->
  botones_de_falla seccion equipos = Hecho filas ->
  destinos filas
  = map (fun equipo => [mostrar_detalle_falla equipo seccion]) equipos.
Proof.
  intros seccion equipos. induction equipos as [ | equipo resto IH];
    intros filas Hs H; cbn [botones_de_falla] in H.
  - inversion H. reflexivity.
  - destruct (nombre_visual equipo) as [nombre | ]; [ | discriminate H ].
    destruct (botones_de_falla seccion resto) as [filas' | ];
      [ | discriminate H ].
    assert (Hf : filas
                 = [mk_boton ("🔍 Analizar Falla: " ++ nombre)%string
                      ("falla_" ++ seccion ++ "_" ++ equipo)%string]
                   :: filas') by congruence.
    rewrite Hf. unfold destinos. cbn [map callback_data].
    rewrite (ruta_de_falla seccion equipo Hs).
    f_equal. apply IH; [ exact Hs | reflexivity ].
Qed.

Lemma destinos_de_seccion : forall seccion equipos kb,
  py_in "_" seccion = false ->
  generar_botones_con_refresh seccion equipos = Hecho kb ->
  destinos kb
  = map (fun equipo => [mostrar_detalle_falla equipo seccion])
        (lista_de_equipos equipos)
    ++ [ [manejar_callback ("refresh_" ++ seccion)%string];
         [menu_principal] ].
Proof.
  intros seccion equipos kb Hs H. unfold generar_botones_con_refresh in H.
  destruct equipos as [[ | eq resto] | ]; cbv zeta in H.
  - inversion H. reflexivity.
  - destruct (botones_de_falla seccion (eq :: resto)) as [filas | ] eqn:E;
      [ | discriminate H ].
    inversion H; subst kb. unfold destinos. rewrite map_app.
    fold (destinos filas).
    rewrite (destinos_de_falla _ _ _ Hs E). reflexivity.
  - inversion H. reflexivity.
Qed.

(** X15.  Every button the dashboard builds leads to a handler.  The five
    buttons of the main menu lead to the five modules; the back buttons
    lead to the menu and to the section they name.  On the keyboard of a
    section -- estado, costos or diagnostico -- there is one drill-down
    button per unit in alarm, in order, leading to the failure detail of
    that unit with that section as origin; then the refresh button,
    leading to the same section, and the menu button. *)
Theorem X15_botones_con_destino :
  destinos generar_menu_principal
  = [ [mostrar_estado_actual false]; [mostrar_costos false];
      [mostrar_tendencias]; [mostrar_diagnostico];
      [mostrar_referencia_tecnica] ] /\
  destinos generar_boton_volver = [ [menu_principal] ] /\
  destinos (generar_boton_volver_seccion "estado")
  = [ [mostrar_estado_actual false]; [menu_principal] ] /\
  destinos (generar_boton_volver_seccion "costos")
  = [ [mostrar_costos false]; [menu_principal] ] /\
  destinos (generar_boton_volver_seccion "diagnostico")
  = [ [mostrar_diagnostico]; [menu_principal] ] /\
  (forall equipos kb,
     generar_botones_con_refresh "estado" equipos = Hecho kb ->
     destinos kb
     = map (fun equipo => [mostrar_detalle_falla equipo "estado"])
           (lista_de_equipos equipos)
       ++ [ [mostrar_estado_actual true]; [menu_principal] ]) /\
  (forall equipos kb,
     generar_botones_con_refresh "costos" equipos = Hecho kb ->
     destinos kb
     = map (fun equipo => [mostrar_detalle_falla equipo "costos"])
           (lista_de_equipos equipos)
       ++ [ [mostrar_costos true]; [menu_principal] ]) /\
  (forall equipos kb,
     generar_botones_con_refresh "diagnostico" equipos = Hecho kb ->
     destinos kb
     = map (fun equipo => [mostrar_detalle_falla equipo "diagnostico"])
           (lista_de_equipos equipos)
       ++ [ [mostrar_diagnostico]; [menu_principal] ]).
Proof.
  repeat (split; [ vm_compute; reflexivity | ]).
  split; [ | split ]; intros equipos kb H;
    match type of H with
    | generar_botones_con_refresh ?sec _ = _ =>
        rewrite (destinos_de_seccion sec equipos kb eq_refl H)
    end; reflexivity.
Qed.

(** X15: the keyboard of the costs section with two units in alarm. *)
Lemma X15_botones_con_destino_witness :
  exists kb,
    generar_botones_con_refresh "costos"
      (Some ["CAMARA_01_CARNES"; "CAMARA_03_VERDURAS"]%string) = Hecho kb /\
    destinos kb
    = [ [mostrar_detalle_falla "CAMARA_01_CARNES" "costos"];
        [mostrar_detalle_falla "CAMARA_03_VERDURAS" "costos"];
        [mostrar_costos true]; [menu_principal] ].
Proof.
  destruct (generar_botones_con_refresh "costos"
              (Some ["CAMARA_01_CARNES"; "CAMARA_03_VERDURAS"]%string))
    as [kb | ] eqn:E; [ | vm_compute in E; discriminate E ].
  exists kb. split; [ reflexivity | ].
  destruct X15_botones_con_destino as (_ & _ & _ & _ & _ & _ & H & _).
  rewrite (H _ _ E). reflexivity.
Defined.

Lemma nombre_visual_falla : forall equipo,
  nombre_visual equipo = LanzaIndexError <->
  py_in "CARNES" equipo = false /\ py_in "LACTEOS" equipo = false /\
  py_in "VERDURAS" equipo = false /\
  (List.length (py_split "_" None equipo) < 3)%nat.
Proof.
  intros equipo. unfold nombre_visual, indice.
  destruct (py_in "CARNES" equipo);
    [ split; [ discriminate | intros (H & _); discriminate H ] | ].
  destruct (py_in "LACTEOS" equipo);
    [ split; [ discriminate | intros (_ & H & _); discriminate H ] | ].
  destruct (py_in "VERDURAS" equipo);
    [ split; [ discriminate | intros (_ & _ & H & _); discriminate H ] | ].
  destruct (nth_error (py_split "_" None equipo) 2) as [p | ] eqn:E.
  - split; [ discriminate | ].
    intros (_ & _ & _ & H).
    assert (nth_error (py_split "_" None equipo) 2 <> None) as Hn
      by congruence.
    apply nth_error_Some in Hn. lia.
  - split; [ | reflexivity ]. intros _.
    apply nth_error_None in E. repeat split. lia.
Qed.

Lemma botones_de_falla_falla : forall seccion equipos,
  botones_de_falla seccion equipos = LanzaIndexError <->
  exists equipo,
    In equipo equipos /\ nombre_visual equipo = LanzaIndexError.
Proof.
  intros seccion equipos. induction equipos as [ | eq resto IH]; simpl.
  - split; [ discriminate | intros (x & [] & _) ].
  - destruct (nombre_visual eq) as [nombre | ] eqn:E.
    + destruct (botones_de_falla seccion resto) as [filas | ].
      * split; [ discriminate | ].
        intros (x & [<- | Hx] & Hn); [ congruence | ].
        assert (@Hecho teclado filas = LanzaIndexError) as Habs
          by (apply IH; exists x; auto).
        discriminate Habs.
      * split; [ intros _ | reflexivity ].
        destruct (proj1 IH eq_refl) as (x & Hx & Hn). exists x. auto.
    + split; [ intros _; exists eq; auto | reflexivity ].
Qed.

(** X16.  When the keyboard of a section cannot be built.
    [generar_botones_con_refresh] raises [IndexError] exactly when some
    unit in alarm contains none of the words CARNES, LACTEOS and VERDURAS
    and splits at "_" into fewer than three pieces (the fallback label
    takes the third piece).  Without units in alarm, and with units taken
    from the configured ones, it always returns a keyboard. *)
Theorem X16_teclado_sin_nombre : forall seccion,
  (forall equipos,
     generar_botones_con_refresh seccion (Some equipos) = LanzaIndexError <->
     exists equipo,
       In equipo equipos /\
       py_in "CARNES" equipo = false /\ py_in "LACTEOS" equipo = false /\
       py_in "VERDURAS" equipo = false /\
       (List.length (py_split "_" None equipo) < 3)%nat) /\
  generar_botones_con_refresh seccion None <> LanzaIndexError /\
  (forall equipos,
     incl equipos (map fst EQUIPOS) ->
     generar_botones_con_refresh seccion (Some equipos) <> LanzaIndexError).
Proof.
  intros seccion.
  assert (Hcar : forall equipos,
             generar_botones_con_refresh seccion (Some equipos)
             = LanzaIndexError <->
             exists equipo,
               In equipo equipos /\ nombre_visual equipo = LanzaIndexError).
  { intros equipos. rewrite <- (botones_de_falla_falla seccion).
    unfold generar_botones_con_refresh. cbv zeta.
    destruct equipos as [ | equipo resto].
    - simpl. split; discriminate.
    - destruct (botones_de_falla seccion (equipo :: resto));
        split; intros H; try discriminate H; reflexivity. }
  split; [ | split ].
  - intros equipos. rewrite Hcar.
    split; intros (x & Hx & Hn); exists x; split; try exact Hx;
      apply nombre_visual_falla; exact Hn.
  - discriminate.
  - intros equipos Hincl H. apply Hcar in H.
    destruct H as (x & Hx & Hn). apply Hincl in Hx. simpl in Hx.
    destruct Hx as [<- | [<- | [<- | []]]]; vm_compute in Hn; discriminate Hn.
Qed.

(** X16: a unit whose name has no third piece. *)
Lemma X16_teclado_sin_nombre_witness :
  generar_botones_con_refresh "estado"
    (Some ["CAMARA_01_CARNES"; "CAMARA_04"]%string) = LanzaIndexError.
Proof.
  apply (proj1 (X16_teclado_sin_nombre "estado")).
  exists "CAMARA_04"%string.
  split; [ right; left; reflexivity | ].
  repeat split; vm_compute; lia.
Defined.

(* ================================================================== *)
(** * The fleet screen on the rows of a run *)

(** Every row of a run carries a configured unit, and a state decided
    from the values whose roundings it reports. *)
Lemma filas_con_equipo_y_estado : forall CP g ahora,
  Forall
    (fun r =>
       In (id_equipo r) (map fst EQUIPOS) /\
       exists dt c,
         estado r = determinar_estado dt c /\
         delta_t_cond_C r = round dt 1 /\ cop r = round c 2)
    (registros (generar_datos CP g ahora)).
Proof.
  intros CP g ahora.
  set (P := fun r : registro => In (id_equipo r) (map fst EQUIPOS) /\ _).
  apply (generar_datos_invariante CP (fun e => Forall P (registros e))).
  - constructor.
  - intros e hora dia He. exact He.
  - intros e i t [id params] Hi Hpar He.
    rewrite iteracion_equipo_forma. cbv zeta.
    match goal with
    | |- context [resolver CP ?c] => destruct (resolver CP c) as [res | ex]
    end; cbn [registros]; [ | exact He ].
    apply Forall_app. split; [ exact He | ].
    constructor; [ | constructor ].
    split.
    + cbn [id_equipo]. apply (in_map fst) in Hpar. exact Hpar.
    + eexists. eexists. cbn [estado delta_t_cond_C cop].
      split; [ reflexivity | split; reflexivity ].
Qed.

(** A row that is not in alarm reports a COP of at least 2. *)
Lemma cop_fuera_de_alarma : forall dt c,
  determinar_estado dt c <> ALARMA -> Qltb (round c 2) 2.0 = false.
Proof.
  intros dt c H.
  destruct (Qltb (round c 2) 2.0) eqn:E; [ | reflexivity ].
  apply Qltb_lt in E. exfalso. apply H.
  apply (estado_y_redondeo dt c). right. lra.
Qed.

Lemma prueba_de_alarma : forall dt c,
  String.eqb (nombre_de_estado (determinar_estado dt c)) "ALARMA"
  || Qltb (round c 2) 2.0
  = es_alarma (determinar_estado dt c).
Proof.
  intros dt c.
  pose proof (cop_fuera_de_alarma dt c) as H.
  destruct (determinar_estado dt c); cbn;
    try (rewrite H by discriminate); reflexivity.
Qed.

Lemma botones_de_configurados : forall seccion equipos,
  incl equipos (map fst EQUIPOS) ->
  exists filas, botones_de_falla seccion equipos = Hecho filas.
Proof.
  intros seccion equipos H.
  destruct (botones_de_falla seccion equipos) as [filas | ] eqn:E;
    [ exists filas; reflexivity | exfalso ].
  apply botones_de_falla_falla in E. destruct E as (equipo & Hin & Hn).
  apply H in Hin. simpl in Hin.
  destruct Hin as [<- | [<- | [<- | []]]]; vm_compute in Hn; discriminate Hn.
Qed.

(** X17.  The fleet screen on rows the generator wrote.  For rows taken
    from a run of [generar_datos], the colour [mostrar_estado_actual]
    shows, and the one [obtener_semaforo] returns, is decided by the
    state of the row alone (red for ALARMA, yellow for ADVERTENCIA, green
    for NORMAL): the test [cop < 2.0] on the reported COP never adds a
    row, since a reported COP below 2 already made the row ALARMA.  The
    units collected in [equipos_alarma] are those of the ALARMA rows, in
    order, and the keyboard of the screen is always built. *)
Theorem X17_semaforo_de_las_filas : forall CP g ahora ultimas,
  incl ultimas (registros (generar_datos CP g ahora)) ->
  Forall
    (fun row =>
       obtener_semaforo (nombre_de_estado (estado row)) (cop row)
       = color_de_estado (estado row) /\
       semaforo_de_fila row = color_de_estado (estado row))
    ultimas /\
  equipos_alarma ultimas
  = map id_equipo (filter (fun row => es_alarma (estado row)) ultimas) /\
  exists kb,
    generar_botones_con_refresh "estado" (Some (equipos_alarma ultimas))
    = Hecho kb.
Proof.
  intros CP g ahora ultimas Hincl.
  pose proof (filas_con_equipo_y_estado CP g ahora) as HF.
  rewrite Forall_forall in HF.
  assert (Hrow : forall row, In row ultimas ->
            String.eqb (nombre_de_estado (estado row)) "ALARMA"
            || Qltb (cop row) 2.0
            = es_alarma (estado row)).
  { intros row Hin. destruct (HF row (Hincl row Hin))
      as (_ & dt & c & He & _ & Hc).
    rewrite He, Hc. apply prueba_de_alarma. }
  split; [ | split ].
  - apply Forall_forall. intros row Hin.
    unfold semaforo_de_fila, obtener_semaforo. cbv zeta.
    rewrite (Hrow row Hin).
    destruct (estado row); split; reflexivity.
  - unfold equipos_alarma. apply (f_equal (map id_equipo)).
    apply filter_ext_in. exact Hrow.
  - assert (Hc : incl (equipos_alarma ultimas) (map fst EQUIPOS)).
    { intros x Hx. unfold equipos_alarma in Hx.
      apply in_map_iff in Hx. destruct Hx as (row & <- & Hin).
      apply filter_In in Hin. destruct Hin as (Hin & _).
      apply (HF row (Hincl row Hin)). }
    destruct (botones_de_configurados "estado" _ Hc) as (filas & Hf).
    unfold generar_botones_con_refresh. cbv zeta.
    destruct (equipos_alarma ultimas) as [ | equipo resto] eqn:E.
    + eexists. reflexivity.
    + rewrite Hf. eexists. reflexivity.
Qed.

Lemma X17_semaforo_de_las_filas_witness :
  let ultimas := registros (generar_datos Doble.CP Prueba.azar_a Prueba.reloj_a) in
  equipos_alarma ultimas
  = map id_equipo (filter (fun row => es_alarma (estado row)) ultimas).
Proof.
  intros ultimas.
  refine (proj1 (proj2
    (X17_semaforo_de_las_filas Doble.CP Prueba.azar_a Prueba.reloj_a ultimas _))).
  apply incl_refl.
Defined.

(* ================================================================== *)
(** * The cost screen *)

(** X19.  The three chains of the cost screen against each other.  The
    mark of the projection is the mark of the deviation followed by a
    space, except on a Normal day, where the projection has none.  The
    diagnosis repeats the label of the deviation for FALLA CRÍTICA and
    Alerta Temprana; below 10 % it reports the units in critical state
    whenever there are any, whatever the label says, so that Ahorro
    Extraordinario and OPERACIÓN NORMAL are diagnosed only without such
    units.  The test on the absolute deviation changes nothing. *)
Theorem X19_cadenas_de_costos : forall d hay_equipos_criticos,
  (texto_estado d = "Normal"%string ->
     emoji_proyeccion d = ""%string /\ emoji_desv d = "⚪"%string) /\
  (texto_estado d <> "Normal"%string ->
     emoji_proyeccion d = (emoji_desv d ++ " ")%string) /\
  (diagnostico_de d hay_equipos_criticos = FALLA_CRITICA <->
     texto_estado d = "FALLA CRÍTICA"%string) /\
  (diagnostico_de d hay_equipos_criticos = ALERTA_TEMPRANA <->
     texto_estado d = "Alerta Temprana"%string) /\
  (diagnostico_de d hay_equipos_criticos = AHORRO_EXTRAORDINARIO <->
     texto_estado d = "Ahorro Extraordinario"%string /\
     hay_equipos_criticos = false) /\
  (diagnostico_de d hay_equipos_criticos = EQUIPOS_EN_ESTADO_CRITICO <->
     d < 10 /\ hay_equipos_criticos = true) /\
  (diagnostico_de d hay_equipos_criticos = OPERACION_NORMAL <->
     texto_estado d = "Normal"%string /\ hay_equipos_criticos = false).
Proof.
  intros d hay.
  unfold texto_estado, emoji_desv, emoji_proyeccion, estado_de_desviacion,
    diagnostico_de.
  destruct (Qle_bool 20 d) eqn:H20;
    [ | destruct (Qle_bool 10 d) eqn:H10;
        [ | destruct (Qle_bool d (-15)) eqn:H15;
            [ | destruct (Qle_bool (Qabs d) 10) ] ] ];
    destruct hay; cbn [fst snd andb negb];
    repeat match goal with
    | H : Qle_bool _ _ = true |- _ => apply Qle_bool_iff in H
    | H : Qle_bool ?x ?y = false |- _ =>
        assert (y < x)
          by (apply Qnot_le_lt; intros Hle; apply Qle_bool_iff in Hle;
              congruence);
        clear H
    end;
    repeat match goal with
    | |- _ /\ _ => split
    | |- _ <-> _ => split
    end;
    intros Hx; try discriminate Hx; try reflexivity;
      try lra; try (exfalso; apply Hx; reflexivity);
      try (split; first [ reflexivity | lra ]);
      try (destruct Hx as (Ha & Hb);
           first [ discriminate Ha | discriminate Hb | exfalso; lra ]).
Qed.

(* ================================================================== *)
(** * The cost diagnosis script *)

Lemma fold_max_cota : forall l x,
  (x <= fold_left Z.max l x)%Z /\
  (forall y, In y l -> (y <= fold_left Z.max l x)%Z) /\
  (fold_left Z.max l x = x \/ In (fold_left Z.max l x) l).
Proof.
  induction l as [ | z l IH]; intros x; simpl.
  - split; [ lia | ]. split; [ intros y [] | left; reflexivity ].
  - destruct (IH (Z.max x z)) as (H1 & H2 & H3).
    split; [ lia | ]. split.
    + intros y [<- | Hy]; [ lia | apply H2; exact Hy ].
    + destruct H3 as [H3 | H3]; [ | right; right; exact H3 ].
      destruct (Z.max_spec x z) as [(_ & E) | (_ & E)]; rewrite E in *.
      * right. left. symmetry. exact H3.
      * left. exact H3.
Qed.

Lemma fecha_max_cota : forall a,
  (forall r, In r (DiagnosticoCostos.filas a) ->
             (DiagnosticoCostos.fecha r <= DiagnosticoCostos.fecha_max a)%Z) /\
  (exists r, In r (DiagnosticoCostos.filas a) /\
             DiagnosticoCostos.fecha r = DiagnosticoCostos.fecha_max a).
Proof.
  intros [r0 rs]. unfold DiagnosticoCostos.filas, DiagnosticoCostos.fecha_max.
  cbn [fst snd].
  destruct (fold_max_cota (map DiagnosticoCostos.fecha rs)
                          (DiagnosticoCostos.fecha r0)) as (H1 & H2 & H3).
  split.
  - intros r [<- | Hr]; [ exact H1 | ].
    apply H2. apply in_map. exact Hr.
  - destruct H3 as [H3 | H3].
    + exists r0. split; [ left; reflexivity | symmetry; exact H3 ].
    + apply in_map_iff in H3. destruct H3 as (r & Hr & Hin).
      exists r. split; [ right; exact Hin | exact Hr ].
Qed.

Lemma filter_vacio : forall (A : Type) (f : A -> bool) l,
  filter f l = [] <-> forall x, In x l -> f x = false.
Proof.
  intros A f l. induction l as [ | a l IH]; simpl.
  - split; [ intros _ x [] | reflexivity ].
  - destruct (f a) eqn:E.
    + split; [ discriminate | ].
      intros H. rewrite (H a (or_introl eq_refl)) in E. discriminate E.
    + rewrite IH. split.
      * intros H x [<- | Hx]; [ exact E | apply H; exact Hx ].
      * intros H x Hx. apply H. right. exact Hx.
Qed.

(** X20.  How the cost diagnosis script ends.  Without a CSV file it
    raises [IndexError].  On a file with rows it raises [NameError]
    exactly when all the rows carry one date: the history is then empty,
    the name [promedio] was never bound and the section on today reads
    it.  It never divides by zero; when the rows carry more than one date
    it runs to the end and prints a deviation exactly when the historic
    mean is positive. *)
Theorem X20_guion_de_costos :
  DiagnosticoCostos.guion [] = DiagnosticoCostos.Lanza DiagnosticoCostos.IndexError /\
  forall a resto,
    (DiagnosticoCostos.guion (a :: resto)
     = DiagnosticoCostos.Lanza DiagnosticoCostos.NameError <->
     forall r, In r (DiagnosticoCostos.filas a) ->
               DiagnosticoCostos.fecha r = DiagnosticoCostos.fecha (fst a)) /\
    DiagnosticoCostos.guion (a :: resto)
    <> DiagnosticoCostos.Lanza DiagnosticoCostos.ZeroDivisionError /\
    DiagnosticoCostos.guion (a :: resto)
    <> DiagnosticoCostos.Lanza DiagnosticoCostos.IndexError /\
    ((exists r, In r (DiagnosticoCostos.filas a) /\
                DiagnosticoCostos.fecha r <> DiagnosticoCostos.fecha (fst a)) ->
     exists inf,
       DiagnosticoCostos.guion (a :: resto)
       = DiagnosticoCostos.Termina (Some inf) /\
       (DiagnosticoCostos.desviacion inf <> None <->
        0 < DiagnosticoCostos.promedio inf) /\
       ((DiagnosticoCostos.horas_hoy inf <= 0)%Z ->
        DiagnosticoCostos.proyeccion inf = 0)).
Proof.
  split; [ reflexivity | ].
  intros a resto.
  destruct (fecha_max_cota a) as (Hcota & (rm & Hrm & Hmax)).
  set (m := DiagnosticoCostos.fecha_max a) in *.
  (* the history is empty exactly when the rows carry one date *)
  assert (Hhist :
    filter (fun r => (DiagnosticoCostos.fecha r <? m)%Z)
           (DiagnosticoCostos.filas a) = [] <->
    forall r, In r (DiagnosticoCostos.filas a) ->
              DiagnosticoCostos.fecha r = DiagnosticoCostos.fecha (fst a)).
  { rewrite filter_vacio.
    assert (H0 : In (fst a) (DiagnosticoCostos.filas a))
      by (left; reflexivity).
    split.
    - intros H r Hr.
      pose proof (H r Hr) as E1. pose proof (H _ H0) as E2.
      apply Z.ltb_ge in E1. apply Z.ltb_ge in E2.
      pose proof (Hcota r Hr). pose proof (Hcota _ H0). lia.
    - intros H r Hr. apply Z.ltb_ge.
      rewrite (H r Hr), <- (H rm Hrm), Hmax. lia. }
  (* today is never empty *)
  assert (Hhoy :
    filter (fun r => (DiagnosticoCostos.fecha r =? m)%Z)
           (DiagnosticoCostos.filas a) <> []).
  { intros E. rewrite filter_vacio in E.
    specialize (E rm Hrm). apply Z.eqb_neq in E. contradiction. }
  (* the projection *)
  unfold DiagnosticoCostos.guion. cbv zeta. fold m.
  set (df_hoy := filter (fun r => (DiagnosticoCostos.fecha r =? m)%Z)
                        (DiagnosticoCostos.filas a)) in *.
  set (df_historico := filter (fun r => (DiagnosticoCostos.fecha r <? m)%Z)
                              (DiagnosticoCostos.filas a)) in *.
  clearbody df_hoy df_historico.
  destruct df_hoy as [ | rh df_hoy]; [ contradiction Hhoy; reflexivity | ].
  set (gasto := DiagnosticoCostos.suma _ * DiagnosticoCostos.COSTO_KWH_CLP).
  set (horas := (Z.of_nat (List.length (rh :: df_hoy)) / 3)%Z).
  clearbody gasto horas.
  assert (Hproy : exists p,
    (if (0 <? horas)%Z
     then match DiagnosticoCostos.dividir gasto (inject_Z horas) with
          | DiagnosticoCostos.Termina q => DiagnosticoCostos.Termina (q * 24)
          | DiagnosticoCostos.Lanza e => DiagnosticoCostos.Lanza e
          end
     else DiagnosticoCostos.Termina 0) = DiagnosticoCostos.Termina p /\
    ((horas <= 0)%Z -> p = 0)).
  { destruct (0 <? horas)%Z eqn:E.
    - apply Z.ltb_lt in E. unfold DiagnosticoCostos.dividir.
      destruct (Qeq_bool (inject_Z horas) 0) eqn:Ez.
      + exfalso. apply Qeq_bool_iff in Ez.
        unfold Qeq, inject_Z in Ez. simpl in Ez. lia.
      + eexists. split; [ reflexivity | intros; lia ].
    - eexists. split; [ reflexivity | reflexivity ]. }
  destruct Hproy as (p & -> & Hp0).
  destruct df_historico as [ | r1 df_historico].
  - (* one date *)
    split; [ split; [ intros _; apply Hhist; reflexivity | reflexivity ] | ].
    split; [ discriminate | ]. split; [ discriminate | ].
    intros (r & Hr & Hne). exfalso. apply Hne.
    apply (proj1 Hhist eq_refl). exact Hr.
  - set (prom := DiagnosticoCostos.mean _). clearbody prom.
    assert (Hfin : exists inf,
      (if Qltb 0 prom
       then match DiagnosticoCostos.dividir (p - prom) prom with
            | DiagnosticoCostos.Termina q =>
                DiagnosticoCostos.Termina
                  (Some (DiagnosticoCostos.mk_informe prom gasto horas p
                           (Some (q * 100))))
            | DiagnosticoCostos.Lanza e => DiagnosticoCostos.Lanza e
            end
       else DiagnosticoCostos.Termina
              (Some (DiagnosticoCostos.mk_informe prom gasto horas p None)))
      = DiagnosticoCostos.Termina (Some inf) /\
      (DiagnosticoCostos.desviacion inf <> None <->
       0 < DiagnosticoCostos.promedio inf) /\
      ((DiagnosticoCostos.horas_hoy inf <= 0)%Z ->
       DiagnosticoCostos.proyeccion inf = 0)).
    { destruct (Qltb 0 prom) eqn:E.
      - apply Qltb_lt in E. unfold DiagnosticoCostos.dividir.
        destruct (Qeq_bool prom 0) eqn:Ez.
        + exfalso. apply Qeq_bool_iff in Ez. lra.
        + eexists. split; [ reflexivity | ].
          cbn [DiagnosticoCostos.desviacion DiagnosticoCostos.promedio
               DiagnosticoCostos.horas_hoy DiagnosticoCostos.proyeccion].
          split; [ | exact Hp0 ].
          split; [ intros _; exact E | discriminate ].
      - apply Qltb_ge in E. eexists. split; [ reflexivity | ].
        cbn [DiagnosticoCostos.desviacion DiagnosticoCostos.promedio
             DiagnosticoCostos.horas_hoy DiagnosticoCostos.proyeccion].
        split; [ | exact Hp0 ].
        split; [ intros H; exfalso; apply H; reflexivity | intros H; exfalso; lra ]. }
    destruct Hfin as (inf & -> & Hinf).
    split.
    { split; [ discriminate | ].
      intros H. apply Hhist in H. discriminate H. }
    split; [ discriminate | ]. split; [ discriminate | ].
    intros _. exists inf. split; [ reflexivity | exact Hinf ].
Qed.

(* ================================================================== *)
(** * The solver call by call *)

Section PorLlamada.

Variable CP : proveedor.

Lemma trabajo_Devuelve_inv : forall Ta Ti m eta dT w,
  trabajo_calculado CP Ta Ti m eta dT = Devuelve w ->
  exists h1 s1 P2 h2_ideal,
    let f := "R134a"%string in
    CP pH pT (Ti + 273.15) pQ 1 f = Some h1 /\
    CP pS pT (Ti + 273.15) pQ 1 f = Some s1 /\
    CP pP pT (Ta + 273.15 + dT) pQ 0 f = Some P2 /\
    CP pH pP P2 pS s1 f = Some h2_ideal /\
    ~ eta == 0 /\
    w = m * (h1 + (h2_ideal - h1) / eta - h1).
Proof.
  intros Ta Ti m eta dT w H.
  unfold trabajo_calculado in H; cbv zeta in H.
  repeat match type of H with
  | ligar ?c _ = Devuelve _ =>
      let E := fresh "E" in
      destruct c eqn:E; simpl ligar in H; [ | discriminate H ]
  end.
  repeat match goal with
  | E : PropsSI _ _ _ _ _ _ _ = Devuelve _ |- _ =>
      apply PropsSI_Devuelve in E
  | E : dividir _ _ = Devuelve _ |- _ =>
      apply dividir_Devuelve in E; destruct E as [? ?]; subst
  end.
  inversion H; subst w; clear H.
  do 4 eexists; cbv zeta.
  repeat (split; [ eassumption | ]).
  reflexivity.
Qed.

(** With its four lookups resolved, a call of efficiency 0 stops at the
    division of line 44. *)
Lemma simular_eficiencia_nula : forall Ta Ti m eta dT,
  consultas_del_trabajo CP Ta Ti dT -> eta == 0 ->
  simular_refrigerador CP Ta Ti m eta dT = Lanza ZeroDivisionError.
Proof.
  intros Ta Ti m eta dT (h1 & s1 & P2 & h2i & E1 & E2 & E3 & E4) Heta.
  cbv zeta in E1, E2, E3, E4.
  unfold simular_refrigerador; cbv zeta.
  apply PropsSI_Devuelve in E1, E2, E3, E4.
  rewrite E1; simpl ligar. rewrite E2; simpl ligar.
  rewrite E3; simpl ligar. rewrite E4; simpl ligar.
  rewrite (proj2 (dividir_Lanza (h2i - h1) eta ZeroDivisionError)
             (conj Heta eq_refl)).
  reflexivity.
Qed.

(** With the lookups before line 66 resolved, a call whose work is zero
    stops at the division of line 66. *)
Lemma simular_trabajo_nulo : forall Ta Ti m eta dT w,
  trabajo_calculado CP Ta Ti m eta dT = Devuelve w -> w == 0 ->
  consultas_hasta_el_cop CP Ta Ti eta dT ->
  simular_refrigerador CP Ta Ti m eta dT = Lanza ZeroDivisionError.
Proof.
  intros Ta Ti m eta dT w Hw Hz
         (h1 & s1 & P2 & h2i & s2 & h3 & T3 & P4 & x4 & Hx).
  cbv zeta in Hx.
  destruct Hx as (E1 & E2 & E3 & E4 & E5 & E6 & E7 & E8 & E9).
  destruct (trabajo_Devuelve_inv _ _ _ _ _ _ Hw)
    as (h1' & s1' & P2' & h2i' & F1 & F2 & F3 & F4 & Heta & ->).
  cbv zeta in F1, F2, F3, F4.
  assert (h1' = h1) by congruence. subst h1'.
  assert (s1' = s1) by congruence. subst s1'.
  assert (P2' = P2) by congruence. subst P2'.
  assert (h2i' = h2i) by congruence. subst h2i'.
  unfold simular_refrigerador; cbv zeta.
  apply PropsSI_Devuelve in E1, E2, E3, E4, E5, E6, E7, E8, E9.
  rewrite E1; simpl ligar. rewrite E2; simpl ligar.
  rewrite E3; simpl ligar. rewrite E4; simpl ligar.
  rewrite (proj2 (dividir_Devuelve (h2i - h1) eta _) (conj Heta eq_refl)).
  simpl ligar. rewrite E5; simpl ligar.
  rewrite E6; simpl ligar. rewrite E7; simpl ligar.
  rewrite E8; simpl ligar. rewrite E9; simpl ligar.
  rewrite (proj2 (dividir_Lanza (m * (h1 - h3)) _ ZeroDivisionError)
             (conj Hz eq_refl)).
  reflexivity.
Qed.

(** With every lookup resolved, a call whose work is defined and not zero
    returns. *)
Lemma simular_trabajo_no_nulo : forall Ta Ti m eta dT w,
  trabajo_calculado CP Ta Ti m eta dT = Devuelve w -> ~ w == 0 ->
  consultas_de_la_llamada CP Ta Ti eta dT ->
  exists r,
    simular_refrigerador CP Ta Ti m eta dT = Devuelve r /\
    Flujo_Masico_kg_s (scalar r) = m.
Proof.
  intros Ta Ti m eta dT w Hw Hnz
         (h1 & s1 & P2 & h2i & s2 & h3 & T3 & P4 & x4 & s3 & s4 & T2 & Hx).
  cbv zeta in Hx.
  destruct Hx as (E1 & E2 & E3 & E4 & E5 & E6 & E7 & E8 & E9 & E10 & E11
                  & E12).
  destruct (trabajo_Devuelve_inv _ _ _ _ _ _ Hw)
    as (h1' & s1' & P2' & h2i' & F1 & F2 & F3 & F4 & Heta & ->).
  cbv zeta in F1, F2, F3, F4.
  assert (h1' = h1) by congruence. subst h1'.
  assert (s1' = s1) by congruence. subst s1'.
  assert (P2' = P2) by congruence. subst P2'.
  assert (h2i' = h2i) by congruence. subst h2i'.
  eexists. split.
  - apply (simular_Devuelve_intro CP Ta Ti m eta dT h1 s1 P2 h2i s2 h3 T3 P4
             x4 s3 s4 T2); assumption.
  - reflexivity.
Qed.

(** A call that returned had every lookup resolved. *)
Lemma simular_Devuelve_consultas : forall Ta Ti m eta dT r,
  simular_refrigerador CP Ta Ti m eta dT = Devuelve r ->
  consultas_de_la_llamada CP Ta Ti eta dT.
Proof.
  intros Ta Ti m eta dT r Hr.
  destruct (simular_Devuelve_inv _ _ _ _ _ _ _ Hr)
    as (h1 & s1 & P2 & h2i & s2 & h3 & T3 & P4 & x4 & s3 & s4 & T2 & Hx).
  cbv zeta in Hx.
  destruct Hx as (E1 & E2 & E3 & E4 & _ & E5 & E6 & E7 & E8 & E9 & _ & E10
                  & E11 & E12 & _).
  exists h1, s1, P2, h2i, s2, h3, T3, P4, x4, s3, s4, T2. cbv zeta.
  repeat (split; [ assumption | ]). assumption.
Qed.

(** A call that ended in [ZeroDivisionError] did so at one of the two
    divisions, with the lookups before it resolved. *)
Lemma simular_ZeroDivision_inv : forall Ta Ti m eta dT,
  simular_refrigerador CP Ta Ti m eta dT = Lanza ZeroDivisionError ->
  consultas_del_trabajo CP Ta Ti dT /\
  (eta == 0 \/
   exists w,
     trabajo_calculado CP Ta Ti m eta dT = Devuelve w /\ w == 0 /\
     consultas_hasta_el_cop CP Ta Ti eta dT).
Proof.
  intros Ta Ti m eta dT H.
  unfold simular_refrigerador in H; cbv zeta in H.
  destruct (PropsSI CP pH pT (Ti + 273.15) pQ 1 "R134a") as [h1 | e] eqn:E1;
    simpl ligar in H; [ | apply PropsSI_Lanza in E1; congruence ].
  destruct (PropsSI CP pS pT (Ti + 273.15) pQ 1 "R134a") as [s1 | e] eqn:E2;
    simpl ligar in H; [ | apply PropsSI_Lanza in E2; congruence ].
  destruct (PropsSI CP pP pT (Ta + 273.15 + dT) pQ 0 "R134a")
    as [P2 | e] eqn:E3;
    simpl ligar in H; [ | apply PropsSI_Lanza in E3; congruence ].
  destruct (PropsSI CP pH pP P2 pS s1 "R134a") as [h2i | e] eqn:E4;
    simpl ligar in H; [ | apply PropsSI_Lanza in E4; congruence ].
  assert (Hw : forall Heta : ~ eta == 0,
             trabajo_calculado CP Ta Ti m eta dT
             = Devuelve (m * (h1 + (h2i - h1) / eta - h1))).
  { intros Heta. unfold trabajo_calculado; cbv zeta.
    rewrite E1; simpl ligar. rewrite E2; simpl ligar.
    rewrite E3; simpl ligar. rewrite E4; simpl ligar.
    rewrite (proj2 (dividir_Devuelve (h2i - h1) eta _) (conj Heta eq_refl)).
    reflexivity. }
  apply PropsSI_Devuelve in E1, E2, E3, E4.
  split; [ exists h1, s1, P2, h2i; cbv zeta; auto | ].
  destruct (dividir (h2i - h1) eta) as [inc | e] eqn:Ed; simpl ligar in H;
    [ | apply dividir_Lanza in Ed; left; tauto ].
  apply dividir_Devuelve in Ed. destruct Ed as [Heta ->].
  right.
  destruct (PropsSI CP pS pP P2 pH (h1 + (h2i - h1) / eta) "R134a")
    as [s2 | e] eqn:E5;
    simpl ligar in H; [ | apply PropsSI_Lanza in E5; congruence ].
  destruct (PropsSI CP pH pP P2 pQ 0 "R134a") as [h3 | e] eqn:E6;
    simpl ligar in H; [ | apply PropsSI_Lanza in E6; congruence ].
  destruct (PropsSI CP pT pP P2 pQ 0 "R134a") as [T3 | e] eqn:E7;
    simpl ligar in H; [ | apply PropsSI_Lanza in E7; congruence ].
  destruct (PropsSI CP pP pT (Ti + 273.15) pQ 1 "R134a") as [P4 | e] eqn:E8;
    simpl ligar in H; [ | apply PropsSI_Lanza in E8; congruence ].
  destruct (PropsSI CP pQ pP P4 pH h3 "R134a") as [x4 | e] eqn:E9;
    simpl ligar in H; [ | apply PropsSI_Lanza in E9; congruence ].
  apply PropsSI_Devuelve in E5, E6, E7, E8, E9.
  destruct (dividir (m * (h1 - h3))
              (m * (h1 + (h2i - h1) / eta - h1))) as [c | e] eqn:Ed;
    simpl ligar in H.
  - repeat match type of H with
    | ligar (PropsSI ?a ?b ?c ?d ?e ?f ?g) _ = Lanza _ =>
        let E := fresh "E" in
        destruct (PropsSI a b c d e f g) eqn:E; simpl ligar in H;
        [ | apply PropsSI_Lanza in E; congruence ]
    end.
    discriminate H.
  - apply dividir_Lanza in Ed. destruct Ed as [HW _].
    eexists. split; [ exact (Hw Heta) | ]. split; [ exact HW | ].
    exists h1, s1, P2, h2i, s2, h3, T3, P4, x4. cbv zeta.
    repeat (split; [ assumption | ]). assumption.
Qed.

End PorLlamada.

(** The lookups of a call at ordinary conditions resolve on the test
    double bounded by the critical temperature. *)
Ltac consultas_del_doble :=
  repeat eexists; cbv zeta;
  repeat match goal with
  | |- _ /\ _ => split
  end;
  vm_compute; reflexivity.

(* ------------------------------------------------------------------ *)
(** *** Compressor work and the COP *)

(** C1, as the code has it.  The solver has no guard on the compressor
    work and never raises [InvalidCycleError].  When the work it computes
    is zero, no result is returned (so no infinite COP is reported): the
    call raises [ZeroDivisionError] at the division of line 66 exactly
    when the lookups made before it resolve.  When the work is not zero
    -- negative included -- the call never raises [ZeroDivisionError], and
    it returns a result exactly when its own lookups resolve; the work
    reported is the computed one and the COP is the quotient of the
    reported evaporator heat by the reported work. *)
Theorem C1_trabajo_sin_guarda : forall CP Ta Ti m eta dT w,
  trabajo_calculado CP Ta Ti m eta dT = Devuelve w ->
  simular_refrigerador CP Ta Ti m eta dT <> Lanza InvalidCycleError /\
  (w == 0 ->
     (forall r, simular_refrigerador CP Ta Ti m eta dT <> Devuelve r) /\
     (simular_refrigerador CP Ta Ti m eta dT = Lanza ZeroDivisionError <->
      consultas_hasta_el_cop CP Ta Ti eta dT)) /\
  (~ w == 0 ->
     simular_refrigerador CP Ta Ti m eta dT <> Lanza ZeroDivisionError /\
     ((exists r, simular_refrigerador CP Ta Ti m eta dT = Devuelve r) <->
      consultas_de_la_llamada CP Ta Ti eta dT)) /\
  (forall r, simular_refrigerador CP Ta Ti m eta dT = Devuelve r ->
     Trabajo_Compresor_kW (scalar r) == w / 1000 /\
     COP (scalar r) ==
       Calor_Extraido_kW (scalar r) / Trabajo_Compresor_kW (scalar r)).
Proof.
  intros CP Ta Ti m eta dT w Hw.
  assert (Hinv : forall r,
             simular_refrigerador CP Ta Ti m eta dT = Devuelve r ->
             ~ w == 0 /\ Trabajo_Compresor_kW (scalar r) = w / 1000 /\
             COP (scalar r) == Calor_Extraido_kW (scalar r) * 1000 / w).
  { intros r Hr.
    destruct (simular_trabajo _ _ _ _ _ _ _ Hr) as (w' & Hw' & H0 & HT & HC).
    rewrite Hw in Hw'; inversion Hw'; subst w'; auto. }
  assert (Heta : ~ eta == 0).
  { destruct (trabajo_Devuelve_inv _ _ _ _ _ _ _ Hw)
      as (h1 & s1 & P2 & h2i & _ & _ & _ & _ & Heta & _). exact Heta. }
  split; [ | split; [ | split; [ | split ] ] ].
  - intros H. apply simular_Lanza_inv in H. destruct H; discriminate.
  - intros Hz. split.
    + intros r Hr. apply Hinv in Hr. tauto.
    + split.
      * intros H. apply simular_ZeroDivision_inv in H.
        destruct H as (_ & [H | (w' & _ & _ & H)]);
          [ contradiction | exact H ].
      * intros H. exact (simular_trabajo_nulo CP _ _ _ _ _ _ Hw Hz H).
  - intros Hnz. split.
    + intros H. apply simular_ZeroDivision_inv in H.
      destruct H as (_ & [H | (w' & Hw' & Hz & _)]); [ contradiction | ].
      rewrite Hw in Hw'. inversion Hw'; subst w'. contradiction.
    + split.
      * intros (r & Hr). exact (simular_Devuelve_consultas CP _ _ _ _ _ _ Hr).
      * intros H.
        destruct (simular_trabajo_no_nulo CP _ _ _ _ _ _ Hw Hnz H)
          as (r & Hr & _).
        exists r. exact Hr.
  - destruct (Hinv r H) as (_ & -> & _). reflexivity.
  - destruct (Hinv r H) as (Hne & HT & HC). rewrite HC, HT. field. exact Hne.
Qed.

(** C1: a run of the theorem at an inverted temperature lift, where the
    work is negative, on the test double bounded by the critical
    temperature. *)
Lemma C1_trabajo_sin_guarda_witness :
  exists w,
    trabajo_calculado (Doble.CP_con_techo T_critica_R134a) (-40) 4 0.08 0.75 15
    = Devuelve w /\
    w < 0 /\
    exists r,
      simular_refrigerador (Doble.CP_con_techo T_critica_R134a)
        (-40) 4 0.08 0.75 15 = Devuelve r.
Proof.
  eexists. split; [ vm_compute; reflexivity | ].
  split; [ reflexivity | ].
  refine (proj2 (proj2 (proj1 (proj2 (proj2
    (C1_trabajo_sin_guarda (Doble.CP_con_techo T_critica_R134a)
       (-40) 4 0.08 0.75 15 _ _))) _)) _).
  - vm_compute; reflexivity.
  - intros H; vm_compute in H; discriminate H.
  - consultas_del_doble.
Defined.

(** C1 fails as stated.  At an inverted lift (ambient -40 C, interior 4 C)
    the computed work is negative and the solver returns a result with a
    negative COP; at mass flow 0 the work is zero and the exception is
    [ZeroDivisionError].  Neither call raises [InvalidCycleError]. *)
Lemma C1_counterexample :
  (exists w r,
     trabajo_calculado Doble.CP (-40) 4 0.08 0.75 15 = Devuelve w /\
     w <= 0 /\
     simular_refrigerador Doble.CP (-40) 4 0.08 0.75 15 = Devuelve r /\
     COP (scalar r) < 0) /\
  (exists w,
     trabajo_calculado Doble.CP 20 4 0 0.75 15 = Devuelve w /\
     w <= 0 /\
     simular_refrigerador Doble.CP 20 4 0 0.75 15 = Lanza ZeroDivisionError).
Proof.
  split.
  - do 2 eexists. split; [ vm_compute; reflexivity | ].
    split; [ discriminate | ].
    split; [ vm_compute; reflexivity | reflexivity ].
  - eexists. split; [ vm_compute; reflexivity | ].
    split; [ discriminate | vm_compute; reflexivity ].
Qed.

(* ------------------------------------------------------------------ *)
(** *** Parameter validation *)

(** C2, as the code has it.  The solver validates nothing and never raises
    [InvalidParameterError]: a call ends in a result, in [ValueError] (a
    lookup the backend does not resolve) or in [ZeroDivisionError].  Its
    first action is a property lookup, whose failure is the call's failure
    whatever the other parameters.  When the lookups of the call resolve,
    the only calls that fail are those that divide by zero (efficiency 0,
    or zero work), with [ZeroDivisionError]; every other call returns a
    result that reports the mass flow it was given, whatever the sign of
    the mass flow or of the condenser delta and whatever the
    efficiency. *)
Theorem C2_sin_validacion : forall CP Ta Ti m eta dT,
  simular_refrigerador CP Ta Ti m eta dT <> Lanza InvalidParameterError /\
  (forall e, simular_refrigerador CP Ta Ti m eta dT = Lanza e ->
     e = ValueError \/ e = ZeroDivisionError) /\
  (CP pH pT (Ti + 273.15) pQ 1 "R134a"%string = None ->
     simular_refrigerador CP Ta Ti m eta dT = Lanza ValueError) /\
  (eta == 0 -> consultas_del_trabajo CP Ta Ti dT ->
     simular_refrigerador CP Ta Ti m eta dT = Lanza ZeroDivisionError) /\
  (~ eta == 0 -> consultas_de_la_llamada CP Ta Ti eta dT ->
     exists w,
       trabajo_calculado CP Ta Ti m eta dT = Devuelve w /\
       (w == 0 ->
          simular_refrigerador CP Ta Ti m eta dT = Lanza ZeroDivisionError) /\
       (~ w == 0 ->
          exists r,
            simular_refrigerador CP Ta Ti m eta dT = Devuelve r /\
            Flujo_Masico_kg_s (scalar r) = m)).
Proof.
  intros CP Ta Ti m eta dT.
  split; [ | split; [ | split; [ | split ] ] ].
  - intros H. apply simular_Lanza_inv in H. destruct H; discriminate.
  - intros e H. exact (simular_Lanza_inv CP _ _ _ _ _ _ H).
  - intros H. unfold simular_refrigerador, PropsSI; cbv zeta.
    rewrite H. reflexivity.
  - intros Heta H. exact (simular_eficiencia_nula CP _ _ m _ _ H Heta).
  - intros Heta H.
    assert (Hw : exists w, trabajo_calculado CP Ta Ti m eta dT = Devuelve w).
    { destruct H as (h1 & s1 & P2 & h2i & s2 & h3 & T3 & P4 & x4 & s3 & s4
                     & T2 & Hx).
      cbv zeta in Hx. destruct Hx as (E1 & E2 & E3 & E4 & _).
      unfold trabajo_calculado; cbv zeta.
      apply PropsSI_Devuelve in E1, E2, E3, E4.
      rewrite E1; simpl ligar. rewrite E2; simpl ligar.
      rewrite E3; simpl ligar. rewrite E4; simpl ligar.
      rewrite (proj2 (dividir_Devuelve (h2i - h1) eta _) (conj Heta eq_refl)).
      eexists. reflexivity. }
    destruct Hw as (w & Hw). exists w. split; [ exact Hw | ]. split.
    + intros Hz. apply (simular_trabajo_nulo CP _ _ _ _ _ _ Hw Hz).
      destruct H as (h1 & s1 & P2 & h2i & s2 & h3 & T3 & P4 & x4 & s3 & s4
                     & T2 & Hx).
      cbv zeta in Hx.
      destruct Hx as (E1 & E2 & E3 & E4 & E5 & E6 & E7 & E8 & E9 & _).
      exists h1, s1, P2, h2i, s2, h3, T3, P4, x4. cbv zeta.
      repeat (split; [ assumption | ]). assumption.
    + intros Hnz. exact (simular_trabajo_no_nulo CP _ _ _ _ _ _ Hw Hnz H).
Qed.

(** C2: a run of the theorem at a negative mass flow, an efficiency of 2
    and a negative condenser delta, on the test double bounded by the
    critical temperature. *)
Lemma C2_sin_validacion_witness :
  exists r,
    simular_refrigerador (Doble.CP_con_techo T_critica_R134a) 20 4 (-1) 2 (-3)
    = Devuelve r /\
    Flujo_Masico_kg_s (scalar r) = -1.
Proof.
  destruct (C2_sin_validacion (Doble.CP_con_techo T_critica_R134a)
              20 4 (-1) 2 (-3))
    as (_ & _ & _ & _ & H).
  destruct H as (w & Hw & _ & Hr).
  - intros E; vm_compute in E; discriminate E.
  - consultas_del_doble.
  - apply Hr. intros E. vm_compute in Hw. inversion Hw; subst w.
    vm_compute in E; discriminate E.
Defined.

(** C2 fails as stated.  With mass flow -1, efficiency 2 and condenser
    delta -3, at ordinary temperatures (ambient 20 C, interior 4 C), the
    solver returns a result; and at an ambient of 1000 C, above the
    critical temperature of the refrigerant, the failure is the
    [ValueError] of the lookup of the condensing pressure, not
    [InvalidParameterError]. *)
Lemma C2_counterexample :
  (-1 <= 0) /\ ~ (0 < 2 /\ 2 <= 1) /\ (-3 <= 0) /\
  (exists r,
     simular_refrigerador (Doble.CP_con_techo T_critica_R134a)
       20 4 (-1) 2 (-3) = Devuelve r) /\
  simular_refrigerador (Doble.CP_con_techo T_critica_R134a)
    1000 4 0.08 0.75 15 = Lanza ValueError.
Proof.
  split; [ discriminate | ].
  split; [ intros [_ H]; apply H; reflexivity | ].
  split; [ discriminate | ].
  split; [ eexists; vm_compute; reflexivity | vm_compute; reflexivity ].
Qed.

(* ------------------------------------------------------------------ *)
(** *** Division by zero *)

(** X3.  Where the solver divides by zero.  A call with efficiency 0,
    with mass flow 0, or whose isentropic outlet enthalpy is the inlet
    enthalpy never returns a result.  With efficiency 0 it raises
    [ZeroDivisionError] at line 44 as soon as the four lookups before it
    resolve; with mass flow 0 it raises it at line 66 as soon as the
    lookups before that line resolve.  Conversely a call that raises
    [ZeroDivisionError] has efficiency 0 or a computed work of zero, and
    had the lookups before the division resolved. *)
Theorem X3_division_por_cero : forall CP Ta Ti m eta dT,
  (eta == 0 \/ m == 0 ->
     forall r, simular_refrigerador CP Ta Ti m eta dT <> Devuelve r) /\
  (forall r, simular_refrigerador CP Ta Ti m eta dT = Devuelve r ->
     ~ st_h (states_2 r) == st_h (states_1 r) /\
     forall h2_ideal,
       CP pH pP (st_P (states_2 r)) pS (st_s (states_1 r)) "R134a"%string
       = Some h2_ideal ->
       ~ h2_ideal == st_h (states_1 r)) /\
  (eta == 0 -> consultas_del_trabajo CP Ta Ti dT ->
     simular_refrigerador CP Ta Ti m eta dT = Lanza ZeroDivisionError) /\
  (~ eta == 0 -> m == 0 -> consultas_hasta_el_cop CP Ta Ti eta dT ->
     simular_refrigerador CP Ta Ti m eta dT = Lanza ZeroDivisionError) /\
  (simular_refrigerador CP Ta Ti m eta dT = Lanza ZeroDivisionError ->
     consultas_del_trabajo CP Ta Ti dT /\
     (eta == 0 \/
      exists w,
        trabajo_calculado CP Ta Ti m eta dT = Devuelve w /\ w == 0 /\
        consultas_hasta_el_cop CP Ta Ti eta dT)).
Proof.
  intros CP Ta Ti m eta dT.
  split; [ | split; [ | split; [ | split ] ] ].
  - intros Hz r Hr.
    destruct (simular_Devuelve_inv _ _ _ _ _ _ _ Hr)
      as (h1 & s1 & P2 & h2i & s2 & h3 & T3 & P4 & x4 & s3 & s4 & T2 & Hx).
    cbv zeta in Hx.
    destruct Hx as (_ & _ & _ & _ & Heta & _ & _ & _ & _ & _ & HW & _).
    destruct (producto_no_nulo _ _ HW) as [Hm _].
    destruct Hz; contradiction.
  - intros r Hr.
    destruct (simular_Devuelve_inv _ _ _ _ _ _ _ Hr)
      as (h1 & s1 & P2 & h2i & s2 & h3 & T3 & P4 & x4 & s3 & s4 & T2 & Hx).
    cbv zeta in Hx.
    destruct Hx as (_ & _ & _ & E4 & Heta & _ & _ & _ & _ & _ & HW & _ & _
                    & _ & ->).
    cbn [states_1 states_2 st_h st_P st_s].
    destruct (producto_no_nulo _ _ HW) as [_ Hd].
    split.
    + intros E. apply Hd. rewrite E. ring.
    + intros h2' E4' E. rewrite E4 in E4'. inversion E4'; subst h2'.
      apply incremento_no_nulo in Hd. apply Hd. rewrite E. ring.
  - intros Heta H. exact (simular_eficiencia_nula CP _ _ m _ _ H Heta).
  - intros Heta Hm H.
    destruct H as (h1 & s1 & P2 & h2i & s2 & h3 & T3 & P4 & x4 & Hx).
    assert (Hw : trabajo_calculado CP Ta Ti m eta dT
                 = Devuelve (m * (h1 + (h2i - h1) / eta - h1))).
    { cbv zeta in Hx. destruct Hx as (E1 & E2 & E3 & E4 & _).
      unfold trabajo_calculado; cbv zeta.
      apply PropsSI_Devuelve in E1, E2, E3, E4.
      rewrite E1; simpl ligar. rewrite E2; simpl ligar.
      rewrite E3; simpl ligar. rewrite E4; simpl ligar.
      rewrite (proj2 (dividir_Devuelve (h2i - h1) eta _) (conj Heta eq_refl)).
      reflexivity. }
    apply (simular_trabajo_nulo CP _ _ _ _ _ _ Hw).
    + rewrite Hm. ring.
    + exists h1, s1, P2, h2i, s2, h3, T3, P4, x4. exact Hx.
  - exact (simular_ZeroDivision_inv CP Ta Ti m eta dT).
Qed.

(** X3: a call with mass flow 0, on the test double bounded by the
    critical temperature. *)
Lemma X3_division_por_cero_witness :
  simular_refrigerador (Doble.CP_con_techo T_critica_R134a) 20 4 0 0.75 15
  = Lanza ZeroDivisionError.
Proof.
  refine (proj1 (proj2 (proj2 (proj2
    (X3_division_por_cero (Doble.CP_con_techo T_critica_R134a)
       20 4 0 0.75 15)))) _ _ _).
  - intros E; vm_compute in E; discriminate E.
  - reflexivity.
  - consultas_del_doble.
Defined.

(* ------------------------------------------------------------------ *)
(** *** Outlet entropy *)

Section Entropia.

Variable CP : proveedor.
Variable S_PH : Q -> Q -> Q.

Lemma PropsSI_con_S_PH : forall v1 v2 f,
  PropsSI (con_S_PH CP S_PH) pS pP v1 pH v2 f
  = match PropsSI CP pS pP v1 pH v2 f with
    | Devuelve _ => Devuelve (S_PH v1 v2)
    | Lanza e => Lanza e
    end.
Proof.
  intros v1 v2 f. unfold PropsSI, con_S_PH.
  destruct (CP pS pP v1 pH v2 f); reflexivity.
Qed.

(** The outcome of a call on [CP] and on the backend with other
    entropies: the same exception, or results that differ in the
    entropies of states 2 and 4 only. *)
Lemma simular_con_S_PH : forall Ta Ti m eta dT,
  simular_refrigerador (con_S_PH CP S_PH) Ta Ti m eta dT
  = match simular_refrigerador CP Ta Ti m eta dT with
    | Devuelve r => Devuelve (con_entropias S_PH r)
    | Lanza e => Lanza e
    end.
Proof.
  intros Ta Ti m eta dT.
  unfold simular_refrigerador; cbv zeta.
  repeat first
    [ rewrite PropsSI_con_S_PH
    | match goal with
      | |- context [PropsSI (con_S_PH CP S_PH) ?o ?n1 ?a ?n2 ?b ?f] =>
          change (PropsSI (con_S_PH CP S_PH) o n1 a n2 b f)
            with (PropsSI CP o n1 a n2 b f)
      end
    | match goal with
      | |- context [ligar (PropsSI CP ?o ?n1 ?a ?n2 ?b ?f) _] =>
          destruct (PropsSI CP o n1 a n2 b f); simpl ligar;
          [ | reflexivity ]
      | |- context [ligar (dividir ?x ?y) _] =>
          destruct (dividir x y); simpl ligar; [ | reflexivity ]
      | |- context [ligar (match PropsSI CP ?o ?n1 ?a ?n2 ?b ?f with
                           | Devuelve _ => _ | Lanza _ => _ end) _] =>
          destruct (PropsSI CP o n1 a n2 b f); simpl ligar;
          [ | reflexivity ]
      end ].
  reflexivity.
Qed.

End Entropia.

(** C7, as the code has it.  The solver looks s2 up at (P2, h2) and reports
    it as the entropy of state 2; it never compares it with s1.  The
    value has no other effect: on a backend that answers the entropy
    lookups at (P, H) with any other values -- below s1 included -- the
    same call ends in the same exception, or returns the same result but
    for the entropies reported for states 2 and 4.  So an s2 below s1 is
    never a failure, and nothing marks the result it comes with. *)
Theorem C7_entropia_sin_comprobacion : forall CP S_PH Ta Ti m eta dT,
  (forall r, simular_refrigerador CP Ta Ti m eta dT = Devuelve r ->
     CP pS pP (st_P (states_2 r)) pH (st_h (states_2 r)) "R134a"%string
       = Some (st_s (states_2 r))) /\
  (forall e,
     simular_refrigerador CP Ta Ti m eta dT = Lanza e <->
     simular_refrigerador (con_S_PH CP S_PH) Ta Ti m eta dT = Lanza e) /\
  (forall r, simular_refrigerador CP Ta Ti m eta dT = Devuelve r ->
     exists r',
       simular_refrigerador (con_S_PH CP S_PH) Ta Ti m eta dT = Devuelve r' /\
       st_s (states_2 r') = S_PH (st_P (states_2 r)) (st_h (states_2 r)) /\
       st_s (states_1 r') = st_s (states_1 r) /\
       r' = con_entropias S_PH r /\
       scalar r' = scalar r).
Proof.
  intros CP S_PH Ta Ti m eta dT.
  pose proof (simular_con_S_PH CP S_PH Ta Ti m eta dT) as H.
  split; [ | split ].
  - intros r Hr.
    destruct (simular_Devuelve_inv _ _ _ _ _ _ _ Hr)
      as (h1 & s1 & P2 & h2i & s2 & h3 & T3 & P4 & x4 & s3 & s4 & T2 & Hx).
    cbv zeta in Hx.
    destruct Hx as (_ & _ & _ & _ & _ & E & _ & _ & _ & _ & _ & _ & _ & _
                    & ->).
    exact E.
  - intros e. rewrite H.
    destruct (simular_refrigerador CP Ta Ti m eta dT) as [r | e'].
    + split; discriminate.
    + split; intros E; exact E.
  - intros r Hr. rewrite Hr in H.
    exists (con_entropias S_PH r).
    split; [ exact H | ]. repeat split.
Qed.

(** C7: the theorem at ordinary conditions, against a backend whose
    entropy at (P, H) is 0 everywhere: s2 is then 0, far below s1, and
    the result is returned with the same scalars. *)
Lemma C7_entropia_sin_comprobacion_witness :
  exists r r',
    simular_refrigerador (Doble.CP_con_techo T_critica_R134a)
      20 4 0.08 0.75 15 = Devuelve r /\
    simular_refrigerador
      (con_S_PH (Doble.CP_con_techo T_critica_R134a) (fun _ _ => 0))
      20 4 0.08 0.75 15 = Devuelve r' /\
    st_s (states_1 r) <= st_s (states_2 r) /\
    st_s (states_2 r') < st_s (states_1 r') /\
    scalar r' = scalar r.
Proof.
  destruct (simular_refrigerador (Doble.CP_con_techo T_critica_R134a)
              20 4 0.08 0.75 15) as [r | e] eqn:Hr;
    [ | vm_compute in Hr; discriminate Hr ].
  destruct (C7_entropia_sin_comprobacion
              (Doble.CP_con_techo T_critica_R134a) (fun _ _ => 0)
              20 4 0.08 0.75 15) as (_ & _ & H).
  destruct (H r Hr) as (r' & Hr' & Hs2 & Hs1 & _ & Hsc).
  exists r, r'. split; [ reflexivity | ]. split; [ exact Hr' | ].
  rewrite Hs2, Hs1.
  vm_compute in Hr. inversion Hr; subst r.
  split; [ vm_compute; discriminate | ].
  split; [ reflexivity | exact Hsc ].
Defined.

(** C7 fails as stated: at an inverted temperature lift the reported s2 is
    below s1, the result is returned, and no [ConsistencyWarning] is
    attached to it. *)
Lemma C7_counterexample :
  exists r,
    simular_refrigerador Doble.CP (-40) 4 0.08 0.75 15 = Devuelve r /\
    st_s (states_2 r) < st_s (states_1 r) /\
    ~ In ConsistencyWarning (diagnosticos r).
Proof.
  eexists. split; [ vm_compute; reflexivity | ].
  split; [ reflexivity | ].
  intros H; exact H.
Qed.

(* ================================================================== *)
(** * What a run draws from *)






Section Porvenir.

Variable CP : proveedor.






End Porvenir.




(* ------------------------------------------------------------------ *)
(** *** Reproducibility *)




(* ------------------------------------------------------------------ *)
(** *** Projection and deviation *)

Lemma horas_datos_minimo : forall segundos, 1 <= horas_datos segundos.
Proof.
  intros s. unfold horas_datos, py_max.
  destruct (Qltb 1 (s / 3600 + 1)) eqn:E.
  - apply Qltb_lt in E. apply Qlt_le_weak. exact E.
  - apply Qle_refl.
Qed.

(** There are four hours of data exactly when the rows of today span
    three hours. *)
Lemma cuatro_horas : forall segundos,
  Qle_bool 4 (horas_datos segundos) = true <-> 10800 <= segundos.
Proof.
  intros s. rewrite Qle_bool_iff. unfold horas_datos, py_max.
  assert (E : s / 3600 + 1 == s * (1 # 3600) + 1) by (unfold Qdiv; reflexivity).
  destruct (Qltb 1 (s / 3600 + 1)) eqn:T.
  - rewrite E. split; intros H; lra.
  - apply Qltb_ge in T. rewrite E in T. split; intros H; lra.
Qed.

(** The deviation does not fall when the projection rises. *)
Lemma desviacion_monotona : forall p p' prom,
  0 < prom -> p <= p' ->
  (p - prom) / prom * 100 <= (p' - prom) / prom * 100.
Proof.
  intros p p' prom Hprom Hp.
  apply Qmult_le_compat_r; [ | discriminate ].
  unfold Qdiv. apply Qmult_le_compat_r; [ lra | ].
  apply Qinv_le_0_compat. lra.
Qed.

Lemma desviacion_en_el_promedio : forall prom,
  (prom - prom) / prom * 100 == 0.
Proof. intros prom. unfold Qdiv. ring. Qed.

(** The label does not go down when the deviation rises. *)
Lemma texto_estado_monotono : forall d d',
  d <= d' ->
  (texto_estado d = "FALLA CRÍTICA"%string ->
   texto_estado d' = "FALLA CRÍTICA"%string) /\
  (texto_estado d = "Alerta Temprana"%string ->
   texto_estado d' = "Alerta Temprana"%string \/
   texto_estado d' = "FALLA CRÍTICA"%string) /\
  (texto_estado d' = "Ahorro Extraordinario"%string ->
   texto_estado d = "Ahorro Extraordinario"%string).
Proof.
  intros d d' Hd. unfold texto_estado, estado_de_desviacion.
  destruct (Qle_bool 20 d) eqn:A20;
    [ | destruct (Qle_bool 10 d) eqn:A10;
        [ | destruct (Qle_bool d (-15)) eqn:A15;
            [ | destruct (Qle_bool (Qabs d) 10) ] ] ];
  (destruct (Qle_bool 20 d') eqn:B20;
    [ | destruct (Qle_bool 10 d') eqn:B10;
        [ | destruct (Qle_bool d' (-15)) eqn:B15;
            [ | destruct (Qle_bool (Qabs d') 10) ] ] ]);
  cbn [snd];
  repeat match goal with
  | H : Qle_bool _ _ = true |- _ => apply Qle_bool_iff in H
  | H : Qle_bool ?x ?y = false |- _ =>
      assert (y < x)
        by (apply Qnot_le_lt; intros Hle; apply Qle_bool_iff in Hle;
            congruence);
      clear H
  end;
  (split; [ | split ]); intros Hx; try discriminate Hx;
    try reflexivity; try (left; reflexivity); try (right; reflexivity);
    exfalso; lra.
Qed.

Lemma texto_estado_en_cero : forall d,
  d == 0 -> estado_de_desviacion d = ("⚪"%string, "Normal"%string).
Proof.
  intros d Hd. unfold estado_de_desviacion.
  destruct (Qle_bool 20 d) eqn:A20;
    [ apply Qle_bool_iff in A20; exfalso; lra | ].
  destruct (Qle_bool 10 d) eqn:A10;
    [ apply Qle_bool_iff in A10; exfalso; lra | ].
  destruct (Qle_bool d (-15)) eqn:A15;
    [ apply Qle_bool_iff in A15; exfalso; lra | ].
  destruct (Qle_bool (Qabs d) 10); reflexivity.
Qed.

(** X18.  The projection and the deviation of the cost screen.  Neither
    division of [mostrar_costos] can fail: the hours of data are at least
    one, and the deviation divides only by a positive mean.  The
    projection of a spending that is not negative lies between 0 and 24
    times that spending.  The line of the deviation is written exactly
    when the rows of today span three hours or more.  Without a positive
    historic mean the deviation is 0 and the line reads Normal.  With
    one, a projection equal to the mean reads Normal, a projection up to
    the mean is never an alert or a failure, a projection from the mean
    up is never a saving, and a higher projection never gets a lower
    label. *)
Theorem X18_desviacion_de_costos : forall gasto segundos promedio,
  exists p d,
    proyeccion_hoy gasto segundos = Devuelve p /\
    desviacion p promedio = Devuelve d /\
    1 <= horas_datos segundos /\
    (0 <= gasto -> 0 <= p /\ p <= gasto * 24) /\
    (linea_de_desviacion (horas_datos segundos) d <> None <->
     10800 <= segundos) /\
    (promedio <= 0 ->
       d = 0 /\
       (10800 <= segundos ->
        linea_de_desviacion (horas_datos segundos) d
        = Some ("⚪"%string, "Normal"%string))) /\
    (0 < promedio ->
       (p == promedio -> texto_estado d = "Normal"%string) /\
       (p <= promedio ->
          d <= 0 /\
          texto_estado d <> "FALLA CRÍTICA"%string /\
          texto_estado d <> "Alerta Temprana"%string) /\
       (promedio <= p ->
          0 <= d /\ texto_estado d <> "Ahorro Extraordinario"%string) /\
       (forall gasto' p' d',
          gasto <= gasto' ->
          proyeccion_hoy gasto' segundos = Devuelve p' ->
          desviacion p' promedio = Devuelve d' ->
          p <= p' /\ d <= d' /\
          (texto_estado d = "FALLA CRÍTICA"%string ->
           texto_estado d' = "FALLA CRÍTICA"%string) /\
          (texto_estado d = "Alerta Temprana"%string ->
           texto_estado d' = "Alerta Temprana"%string \/
           texto_estado d' = "FALLA CRÍTICA"%string) /\
          (texto_estado d' = "Ahorro Extraordinario"%string ->
           texto_estado d = "Ahorro Extraordinario"%string))).
Proof.
  intros gasto segundos promedio.
  pose proof (horas_datos_minimo segundos) as Hh.
  pose proof (cuatro_horas segundos) as H4.
  assert (Hz : Qeq_bool (horas_datos segundos) 0 = false).
  { destruct (Qeq_bool (horas_datos segundos) 0) eqn:E; [ | reflexivity ].
    apply Qeq_bool_iff in E. exfalso. lra. }
  assert (Hproy : forall x,
            proyeccion_hoy x segundos
            = Devuelve (x / horas_datos segundos * 24)).
  { intros x. unfold proyeccion_hoy, dividir. rewrite Hz. reflexivity. }
  assert (Hinv : 0 <= / horas_datos segundos /\ / horas_datos segundos <= 1).
  { split; [ apply Qinv_le_0_compat; lra | ].
    assert (E : / horas_datos segundos == 1 / horas_datos segundos)
      by (unfold Qdiv; ring).
    rewrite E. apply Qle_shift_div_r; lra. }
  set (h := horas_datos segundos) in *.
  exists (gasto / h * 24).
  set (p := gasto / h * 24).
  assert (Hp : 0 <= gasto -> 0 <= p /\ p <= gasto * 24).
  { intros Hg. unfold p, Qdiv. destruct Hinv as [I0 I1].
    assert (0 <= gasto * / h) by (apply Qmult_le_0_compat; assumption).
    assert (0 <= gasto * (1 - / h)) by (apply Qmult_le_0_compat; lra).
    split; lra. }
  assert (Hlinea : forall d,
            linea_de_desviacion h d <> None <-> 10800 <= segundos).
  { intros d. unfold linea_de_desviacion. rewrite <- H4.
    destruct (Qle_bool 4 h); split; intros H; congruence. }
  destruct (Qltb 0 promedio) eqn:Hprom.
  - apply Qltb_lt in Hprom.
    assert (Hpz : Qeq_bool promedio 0 = false).
    { destruct (Qeq_bool promedio 0) eqn:E; [ | reflexivity ].
      apply Qeq_bool_iff in E. exfalso. lra. }
    assert (Hdesv : forall x,
              desviacion x promedio
              = Devuelve ((x - promedio) / promedio * 100)).
    { intros x. unfold desviacion, dividir.
      rewrite (proj2 (Qltb_lt 0 promedio) Hprom), Hpz. reflexivity. }
    exists ((p - promedio) / promedio * 100).
    set (d := (p - promedio) / promedio * 100).
    split; [ apply Hproy | ]. split; [ apply Hdesv | ].
    split; [ exact Hh | ]. split; [ exact Hp | ].
    split; [ apply Hlinea | ].
    split; [ intros H; exfalso; lra | ]. intros _.
    assert (Hbajo : p <= promedio -> d <= 0).
    { intros H. pose proof (desviacion_monotona p promedio promedio Hprom H)
        as Hm. rewrite desviacion_en_el_promedio in Hm. exact Hm. }
    assert (Halto : promedio <= p -> 0 <= d).
    { intros H. pose proof (desviacion_monotona promedio p promedio Hprom H)
        as Hm. rewrite desviacion_en_el_promedio in Hm. exact Hm. }
    split; [ | split; [ | split ] ].
    + intros E.
      assert (Hd0 : d == 0).
      { apply Qle_antisym; [ apply Hbajo | apply Halto ]; lra. }
      unfold texto_estado. rewrite (texto_estado_en_cero d Hd0). reflexivity.
    + intros H. specialize (Hbajo H). split; [ exact Hbajo | ].
      unfold texto_estado, estado_de_desviacion.
      destruct (Qle_bool 20 d) eqn:A20;
        [ apply Qle_bool_iff in A20; exfalso; lra | ].
      destruct (Qle_bool 10 d) eqn:A10;
        [ apply Qle_bool_iff in A10; exfalso; lra | ].
      destruct (Qle_bool d (-15)); [ | destruct (Qle_bool (Qabs d) 10) ];
        cbn [snd]; split; discriminate.
    + intros H. specialize (Halto H). split; [ exact Halto | ].
      unfold texto_estado, estado_de_desviacion.
      destruct (Qle_bool 20 d); [ cbn [snd]; discriminate | ].
      destruct (Qle_bool 10 d); [ cbn [snd]; discriminate | ].
      destruct (Qle_bool d (-15)) eqn:A15;
        [ apply Qle_bool_iff in A15; exfalso; lra | ].
      destruct (Qle_bool (Qabs d) 10); cbn [snd]; discriminate.
    + intros gasto' p' d' Hg Hp' Hd'.
      rewrite Hproy in Hp'. inversion Hp'; subst p'. clear Hp'.
      rewrite Hdesv in Hd'. inversion Hd'; subst d'. clear Hd'.
      assert (Hpp : p <= gasto' / h * 24).
      { unfold p, Qdiv. destruct Hinv as [I0 _].
        assert (0 <= (gasto' - gasto) * / h)
          by (apply Qmult_le_0_compat; lra).
        lra. }
      split; [ exact Hpp | ].
      pose proof (desviacion_monotona p (gasto' / h * 24) promedio Hprom Hpp)
        as Hdd.
      split; [ exact Hdd | ].
      apply texto_estado_monotono. exact Hdd.
  - apply Qltb_ge in Hprom.
    exists 0.
    split; [ apply Hproy | ].
    split.
    { unfold desviacion.
      destruct (Qltb 0 promedio) eqn:E; [ | reflexivity ].
      apply Qltb_lt in E. exfalso. lra. }
    split; [ exact Hh | ]. split; [ exact Hp | ].
    split; [ apply Hlinea | ].
    split.
    + intros _. split; [ reflexivity | ].
      intros H. unfold linea_de_desviacion.
      rewrite (proj2 H4 H). reflexivity.
    + intros H. exfalso. lra.
Qed.

(** X18: a day of six hours of data that spent 3.6 against a historic
    mean of 12: the projection is above the mean and the day is no
    saving. *)
Lemma X18_desviacion_de_costos_witness :
  exists p d,
    proyeccion_hoy 3.6 18000 = Devuelve p /\
    desviacion p 12 = Devuelve d /\
    linea_de_desviacion (horas_datos 18000) d <> None /\
    texto_estado d <> "Ahorro Extraordinario"%string.
Proof.
  destruct (X18_desviacion_de_costos 3.6 18000 12)
    as (p & d & Hp & Hd & _ & _ & Hl & _ & H).
  exists p, d. split; [ exact Hp | ]. split; [ exact Hd | ].
  split; [ apply Hl; discriminate | ].
  destruct H as (_ & _ & H & _); [ reflexivity | ].
  apply H. vm_compute in Hp. inversion Hp; subst p. discriminate.
Defined.
